(** * mmpm: catalog synchronisation and upgrade reconciliation

    A shallow embedding of the parts of [mmpm/core.py] and [mmpm/utils.py]
    that maintain the package snapshot, the upgrade ledger and the
    install / upgrade batches, together with the properties they satisfy.

    Conventions of the embedding:
    - a Python [dict] is an association list in insertion order
      ([Py.dict]); assignment to an existing key keeps its position,
      assignment to a new key appends;
    - a file holds a [content]: either text that [json.load] rejects, or a
      JSON document (contents are taken up to JSON formatting);
    - functions that read or write files, print, prompt or run commands are
      written in a state-and-exception monad over a [World];
    - external collaborators (the wiki scrape, git, npm, the user) are
      fields of an [Env] record or events on the input stream. *)

From Stdlib Require Import List String Ascii Bool Arith ZArith Lia.
From Stdlib Require DecimalString.
Import ListNotations.
Open Scope string_scope.
Open Scope list_scope.
Set Warnings "-register-all".

(* ===================================================================== *)
(** ** Python primitives *)
(* ===================================================================== *)

Module Py.

(** [str.isspace] on ASCII: TAB, LF, VT, FF, CR, FS, GS, RS, US, space. *)
Definition is_space (c : ascii) : bool :=
  let n := nat_of_ascii c in
  (((9 <=? n) && (n <=? 13)) || ((28 <=? n) && (n <=? 32)))%nat.

Fixpoint lstrip (s : string) : string :=
  match s with
  | EmptyString => EmptyString
  | String c s' => if is_space c then lstrip s' else s
  end.

Fixpoint rstrip (s : string) : string :=
  match s with
  | EmptyString => EmptyString
  | String c s' =>
      match rstrip s' with
      | EmptyString => if is_space c then EmptyString else String c EmptyString
      | r => String c r
      end
  end.

(** [s.strip()] *)
Definition strip (s : string) : string := rstrip (lstrip s).

Definition lower_char (c : ascii) : ascii :=
  let n := nat_of_ascii c in
  if ((65 <=? n) && (n <=? 90))%nat then ascii_of_nat (n + 32) else c.

(** [s.lower()] on ASCII text.  [str.lower] is the lowering of Unicode;
    it is this byte map on the strings that [ascii_text] accepts, and the
    properties that use a fact about [lower] are stated for such strings. *)
Fixpoint lower (s : string) : string :=
  match s with
  | EmptyString => EmptyString
  | String c s' => String (lower_char c) (lower s')
  end.

(** Every character of [s] is an ASCII character. *)
Fixpoint ascii_text (s : string) : bool :=
  match s with
  | EmptyString => true
  | String c s' => (nat_of_ascii c <? 128)%nat && ascii_text s'
  end.

(** [needle in s] for strings *)
Fixpoint str_in (needle s : string) : bool :=
  String.prefix needle s ||
  match s with
  | EmptyString => false
  | String _ s' => str_in needle s'
  end.

(** [x in l] for a list of strings *)
Definition list_in (x : string) (l : list string) : bool :=
  existsb (String.eqb x) l.

Definition starts_with_sep (s : string) : bool :=
  match s with
  | String "/"%char _ => true
  | _ => false
  end.

Fixpoint ends_with_sep (s : string) : bool :=
  match s with
  | EmptyString => false
  | String c EmptyString => Ascii.eqb c "/"%char
  | String _ s' => ends_with_sep s'
  end.

(** [os.path.join(a, b)] (posixpath) *)
Definition path_join (a b : string) : string :=
  if starts_with_sep b then b
  else if (a =? "") || ends_with_sep a then a ++ b
  else a ++ "/" ++ b.

(** *** Dictionaries in insertion order *)

Definition dict (V : Type) : Type := list (string * V).

Section Dict.
Context {V : Type}.

(** [d[k]], [None] standing for [KeyError] *)
Fixpoint dict_get (k : string) (d : dict V) : option V :=
  match d with
  | [] => None
  | (k', v) :: d' => if k =? k' then Some v else dict_get k d'
  end.

(** [k in d] *)
Definition dict_mem (k : string) (d : dict V) : bool :=
  match dict_get k d with Some _ => true | None => false end.

(** [d[k] = v] *)
Fixpoint dict_set (k : string) (v : V) (d : dict V) : dict V :=
  match d with
  | [] => [(k, v)]
  | (k', v') :: d' =>
      if k =? k' then (k', v) :: d' else (k', v') :: dict_set k v d'
  end.

(** [list(d)] *)
Definition dict_keys (d : dict V) : list string := map fst d.

(** [d.update(d2)] with keyword unpacking of [d2] *)
Definition dict_update (d d2 : dict V) : dict V :=
  fold_left (fun acc kv => dict_set (fst kv) (snd kv) acc) d2 d.

(** [d.setdefault(k, v)] keeping only the effect on [d] *)
Definition dict_setdefault (k : string) (v : V) (d : dict V) : dict V :=
  if dict_mem k d then d else dict_set k v d.

End Dict.

End Py.

Import Py.

(* ===================================================================== *)
(** ** Data model *)
(* ===================================================================== *)

(** Modelled from the spec: [mmpm/models.py] is not among the sources.  A
    package record carries title, author, repository, description and
    directory; [serialize] keeps the first four, [serialize_full] all five. *)
Record MagicMirrorPackage : Type := mkPackage
  { title : string;
    author : string;
    repository : string;
    description : string;
    directory : string }.

(** [package.directory = d] *)
Definition set_directory (d : string) (p : MagicMirrorPackage) : MagicMirrorPackage :=
  {| title := title p; author := author p; repository := repository p;
     description := description p; directory := d |}.

Definition package_eqb (p q : MagicMirrorPackage) : bool :=
  (title p =? title q) && (author p =? author q) &&
  (repository p =? repository q) && (description p =? description q) &&
  (directory p =? directory q).

(** The catalog: category name to packages, in insertion order. *)
Definition Catalog : Type := dict (list MagicMirrorPackage).

(** Modelled from the spec: [mmpm/consts.py] is not among the sources.  The
    names below are the literal keys of the persisted documents. *)
Module Consts.
Definition MMPM : string := "mmpm".
Definition MAGICMIRROR : string := "MagicMirror".
Definition PACKAGES : string := "packages".
Definition EXTERNAL_PACKAGES : string := "External Packages".
Definition NOT_AVAILABLE : string := "N/A".
End Consts.

(* ===================================================================== *)
(** ** Values, files, the world and its monad *)
(* ===================================================================== *)

(** Python values that occur in the persisted documents and in the
    in-memory ledger (where the pending packages are objects). *)
Inductive pyval : Type :=
| PNull
| PBool (b : bool)
| PNum (n : Z)
| PStr (s : string)
| PList (l : list pyval)
| PDict (d : list (string * pyval))
| PPkg (p : MagicMirrorPackage).

(** What [json.dump] accepts without a [default] hook. *)
Fixpoint serializable (v : pyval) : bool :=
  match v with
  | PPkg _ => false
  | PList l => forallb serializable l
  | PDict d => forallb (fun kv => serializable (snd kv)) d
  | _ => true
  end.

(** Python truthiness, [bool(v)] *)
Definition truthy (v : pyval) : bool :=
  match v with
  | PNull => false
  | PBool b => b
  | PNum n => negb (n =? 0)%Z
  | PStr s => negb (s =? "")
  | PList l => match l with [] => false | _ => true end
  | PDict d => match d with [] => false | _ => true end
  | PPkg _ => true
  end.

(** The content of a file: text that [json.load] rejects (the zero-length
    file is [Malformed ""]), or a JSON document. *)
Inductive content : Type :=
| Malformed (raw : string)
| Document (doc : pyval).

(** [os.path.exists(f) and bool(os.stat(f).st_size)] *)
Definition nonempty_file (f : option content) : bool :=
  match f with
  | None => false
  | Some (Malformed raw) => negb (raw =? "")
  | Some (Document _) => true
  end.

Inductive exn : Type :=
| KeyError
| TypeError
| ValueError
| FileNotFoundError
| EOFError
| KeyboardInterrupt
| SystemExit (code : Z).

Inductive result (A : Type) : Type :=
| Ret (a : A)
| Raise (e : exn).
Arguments Ret {A} a.
Arguments Raise {A} e.

(** What a subprocess call gives back: [(returncode, stdout, stderr)], or a
    keyboard interrupt while waiting for it. *)
Inductive cmd_result : Type :=
| Completed (returncode : Z) (stdout stderr : string)
| Interrupted.

(** One read from the terminal: a line, or Ctrl-C. *)
Inductive Input : Type :=
| Line (s : string)
| CtrlC.

Inductive Event : Type :=
| EvInfo (msg : string)                    (* log.info *)
| EvLogError (msg : string)                (* log.error *)
| EvError (msg : string)                   (* utils.error_msg *)
| EvWarning (msg : string)                 (* utils.warning_msg *)
| EvFatal (msg : string)                   (* utils.fatal_msg *)
| EvPrint (msg : string)                   (* print / plain_print *)
| EvRun (argv : list string) (cwd : string) (* utils.run_cmd *)
| EvSystem (command : string).             (* os.system *)

Record World : Type := mkWorld
  { db_file : option content;          (* the package snapshot *)
    db_bak_file : option content;      (* its .bak sibling *)
    ext_pkgs_file : option content;    (* the external packages file *)
    upgrades_file : option content;    (* the upgrade ledger *)
    cwd : string;
    stdin : list Input;
    trace : list Event }.

(** The collaborators of one invocation. *)
Record Env : Type := mkEnv
  { MMPM_MAGICMIRROR_ROOT : string;                   (* normalised root *)
    HOME_DIR : string;
    scrape : option Catalog;                          (* None: HTTPError / URLError *)
    path_exists : string -> bool;
    path_isdir : string -> bool;
    listdir : string -> list string;
    run : list string -> string -> cmd_result;        (* argv, cwd *)
    install_dependencies : string -> result string;   (* directory; see below *)
    is_magicmirror_running : bool }.

(** [install_dependencies env directory] stands for
    [mmpm.utils.install_dependencies(directory)] of the release of
    [core.py], which is not among the sources: only what it answers is
    part of the model, the error text or the exception it ends with; the
    commands it runs leave no event in the trace.  The build of the
    release under [src/mmpm] is [Build.install_dependencies]. *)
Definition MAGICMIRROR_MODULES_DIR (env : Env) : string :=
  path_join (MMPM_MAGICMIRROR_ROOT env) "modules".

Definition M (A : Type) : Type := World -> result A * World.

Definition ret {A : Type} (a : A) : M A := fun w => (Ret a, w).

Definition bind {A B : Type} (m : M A) (k : A -> M B) : M B :=
  fun w =>
    match m w with
    | (Ret a, w') => k a w'
    | (Raise e, w') => (Raise e, w')
    end.

Definition raise {A : Type} (e : exn) : M A := fun w => (Raise e, w).

Definition get_world : M World := fun w => (Ret w, w).

Definition lift {A : Type} (r : result A) : M A := fun w => (r, w).

(** [try: m except KeyboardInterrupt: h] *)
Definition except_interrupt {A : Type} (m : M A) (h : M A) : M A :=
  fun w =>
    match m w with
    | (Raise KeyboardInterrupt, w') => h w'
    | r => r
    end.

Declare Scope py_scope.
Delimit Scope py_scope with py.
Notation "x <- m ;; k" := (bind m (fun x => k))
  (at level 61, m at next level, right associativity) : py_scope.
Notation "m ;; k" := (bind m (fun _ => k))
  (at level 61, right associativity) : py_scope.
Open Scope py_scope.

Definition emit (e : Event) : M unit :=
  fun w =>
    (Ret tt,
     {| db_file := db_file w; db_bak_file := db_bak_file w;
        ext_pkgs_file := ext_pkgs_file w; upgrades_file := upgrades_file w;
        cwd := cwd w; stdin := stdin w; trace := trace w ++ [e] |}).

Definition write_db (c : option content) : M unit :=
  fun w =>
    (Ret tt,
     {| db_file := c; db_bak_file := db_bak_file w;
        ext_pkgs_file := ext_pkgs_file w; upgrades_file := upgrades_file w;
        cwd := cwd w; stdin := stdin w; trace := trace w |}).

Definition write_db_bak (c : option content) : M unit :=
  fun w =>
    (Ret tt,
     {| db_file := db_file w; db_bak_file := c;
        ext_pkgs_file := ext_pkgs_file w; upgrades_file := upgrades_file w;
        cwd := cwd w; stdin := stdin w; trace := trace w |}).

Definition write_upgrades (c : option content) : M unit :=
  fun w =>
    (Ret tt,
     {| db_file := db_file w; db_bak_file := db_bak_file w;
        ext_pkgs_file := ext_pkgs_file w; upgrades_file := c;
        cwd := cwd w; stdin := stdin w; trace := trace w |}).

(** The change of directory itself: [os.chdir(path)] for an absolute
    path that is there (see [enter]). *)
Definition chdir (path : string) : M unit :=
  fun w =>
    (Ret tt,
     {| db_file := db_file w; db_bak_file := db_bak_file w;
        ext_pkgs_file := ext_pkgs_file w; upgrades_file := upgrades_file w;
        cwd := path; stdin := stdin w; trace := trace w |}).

Definition set_stdin (l : list Input) : M unit :=
  fun w =>
    (Ret tt,
     {| db_file := db_file w; db_bak_file := db_bak_file w;
        ext_pkgs_file := ext_pkgs_file w; upgrades_file := upgrades_file w;
        cwd := cwd w; stdin := l; trace := trace w |}).

(** [os.chdir(path)] where the code has not tested the path: a missing
    directory is a [FileNotFoundError]. *)
Definition enter (env : Env) (path : string) : M unit :=
  if path_exists env path then chdir path else raise FileNotFoundError.

(** The world after one more event, and after a change of directory. *)
Definition add_event (e : Event) (w : World) : World := snd (emit e w).
Definition at_dir (path : string) (w : World) : World := snd (chdir path w).

(** [for x in l: body(x)] *)
Fixpoint for_each {A : Type} (l : list A) (body : A -> M unit) : M unit :=
  match l with
  | [] => ret tt
  | x :: l' => body x ;; for_each l' body
  end.

(** A loop that threads a local variable through its iterations. *)
Fixpoint for_fold {A S : Type} (l : list A) (body : A -> S -> M S) (s : S) : M S :=
  match l with
  | [] => ret s
  | x :: l' => s' <- body x s ;; for_fold l' body s'
  end.

(* ===================================================================== *)
(** ** [mmpm/utils.py] *)
(* ===================================================================== *)

Module Utils.

Definition error_msg (msg : string) : M unit :=
  emit (EvLogError msg) ;; emit (EvError msg).

Definition warning_msg (msg : string) : M unit :=
  emit (EvWarning msg).

(** Logs, prints an empty line and leaves with [sys.exit(127)]. *)
Definition keyboard_interrupt_log {A : Type} : M A :=
  emit (EvPrint "") ;;
  emit (EvInfo "User killed process with keyboard interrupt") ;;
  raise (SystemExit 127).

(** Logs, prints and leaves with [sys.exit(127)]. *)
Definition fatal_msg {A : Type} (msg : string) : M A :=
  emit (EvFatal msg) ;;
  raise (SystemExit 127).

Definition run_cmd (env : Env) (command : list string) : M (Z * string * string) :=
  w <- get_world ;;
  emit (EvRun command (cwd w)) ;;
  match run env command (cwd w) with
  | Completed returncode stdout stderr => ret (returncode, stdout, stderr)
  | Interrupted => raise KeyboardInterrupt
  end.

(** [s.split()]: the whitespace-separated words of [s] *)
Fixpoint split_words (s : string) (word : string) : list string :=
  match s with
  | EmptyString => if word =? "" then [] else [word]
  | String c s' =>
      if is_space c
      then (if word =? "" then split_words s' "" else word :: split_words s' "")
      else split_words s' (word ++ String c EmptyString)
  end.

(** [['git', 'clone'] + repo.split()], plus the target when one is given *)
Definition clone_command (repo target_dir : string) : list string :=
  ["git"; "clone"] ++ split_words repo ""
  ++ (if target_dir =? "" then [] else [target_dir]).

Definition clone (env : Env) (title repo target_dir : string) : M (Z * string * string) :=
  emit (EvInfo ("Cloning " ++ repo ++ " into " ++ target_dir)) ;;
  emit (EvPrint ("Cloning " ++ title ++ " repository")) ;;
  run_cmd env (clone_command repo target_dir).

Definition valid_ack : list string := ["yes"; "y"].
Definition valid_nack : list string := ["no"; "n"].

(** The [while] loop of [prompt_user] over what is left on the terminal.
    [input] raises [EOFError] at the end of the stream; a keyboard
    interrupt is caught and answered with [False]. *)
Fixpoint prompt_loop (user_prompt : string) (inputs : list Input) : M bool :=
  match inputs with
  | [] => emit (EvPrint user_prompt) ;; set_stdin [] ;; raise EOFError
  | CtrlC :: rest => emit (EvPrint user_prompt) ;; set_stdin rest ;; ret false
  | Line response :: rest =>
      emit (EvPrint user_prompt) ;;
      set_stdin rest ;;
      if list_in response valid_ack then ret true
      else if list_in response valid_nack then ret false
      else warning_msg "Respond with [yes/y] or [no/n]" ;;
           prompt_loop user_prompt rest
  end.

Definition prompt_user (user_prompt : string) (assume_yes : bool) : M bool :=
  if assume_yes then
    emit (EvPrint (user_prompt ++ " [yes/y] or [no/n]: yes")) ;; ret true
  else
    w <- get_world ;;
    prompt_loop (user_prompt ++ " [yes/y] or [no/n]: ") (stdin w).

Definition get_existing_package_directories (env : Env) : list string :=
  if negb (path_exists env (MAGICMIRROR_MODULES_DIR env)) then []
  else
    filter (fun d => path_isdir env (path_join (MAGICMIRROR_MODULES_DIR env) d))
           (listdir env (MAGICMIRROR_MODULES_DIR env)).

(** One keyword argument of the record constructor. *)
Definition kwarg (k default : string) (d : dict pyval) : result string :=
  match dict_get k d with
  | None => Ret default
  | Some (PStr s) => Ret s
  | Some _ => Raise TypeError
  end.

(** Modelled from the spec: the constructor of [mmpm/models.py] is not
    among the sources.  the constructor, applied to an unpacked keyword map, reads the five fields
    from a keyword map, leaves the others unset (directory empty) and
    accepts extra keys; anything but a mapping of strings is a
    [TypeError]. *)
Definition package_of_kwargs (v : pyval) : result MagicMirrorPackage :=
  match v with
  | PDict d =>
      match kwarg "title" Consts.NOT_AVAILABLE d,
            kwarg "author" Consts.NOT_AVAILABLE d,
            kwarg "repository" Consts.NOT_AVAILABLE d,
            kwarg "description" Consts.NOT_AVAILABLE d,
            kwarg "directory" "" d with
      | Ret t, Ret a, Ret r, Ret ds, Ret dr => Ret (mkPackage t a r ds dr)
      | _, _, _, _, _ => Raise TypeError
      end
  | _ => Raise TypeError
  end.

Fixpoint packages_of_list (l : list pyval) : result (list MagicMirrorPackage) :=
  match l with
  | [] => Ret []
  | v :: l' =>
      match package_of_kwargs v with
      | Raise e => Raise e
      | Ret p =>
          match packages_of_list l' with
          | Raise e => Raise e
          | Ret ps => Ret (p :: ps)
          end
      end
  end.

(** One record per element of [list_of_dict], each built from the
    element unpacked as keyword arguments: iterating an
    empty container gives the empty list, a non-empty mapping or string
    yields keys or characters, which are not mappings. *)
Definition list_of_dict_to_list_of_magicmirror_packages (v : pyval)
  : result (list MagicMirrorPackage) :=
  match v with
  | PList l => packages_of_list l
  | PDict [] => Ret []
  | PStr "" => Ret []
  | _ => Raise TypeError
  end.

(** Modelled from the spec: [serialize] and [serialize_full] of
    [mmpm/models.py] are not among the sources.  The spec gives the
    package objects of the snapshot file and the full persisted form of
    the ledger the same five fields: title, author, description,
    repository, directory. *)
Definition serialize (p : MagicMirrorPackage) : pyval :=
  PDict [("title", PStr (title p)); ("author", PStr (author p));
         ("description", PStr (description p));
         ("repository", PStr (repository p));
         ("directory", PStr (directory p))].

Definition serialize_full (p : MagicMirrorPackage) : pyval :=
  PDict [("title", PStr (title p)); ("author", PStr (author p));
         ("description", PStr (description p));
         ("repository", PStr (repository p));
         ("directory", PStr (directory p))].

(** [json.load]: [None] is [JSONDecodeError].  A [Document] that holds a
    package object does not denote JSON text and is read as malformed. *)
Definition json_load (c : content) : option pyval :=
  match c with
  | Malformed _ => None
  | Document doc => if serializable doc then Some doc else None
  end.

(** [json.dump(v, f)] without a [default] hook *)
Definition json_dump (v : pyval) : result content :=
  if serializable v then Ret (Document v) else Raise TypeError.

(** The default ledger entry of a root. *)
Definition default_entry : pyval :=
  PDict (dict_set Consts.MAGICMIRROR (PBool false)
           (dict_set Consts.PACKAGES (PList []) [])).

(** Modelled from the spec: [reset_available_upgrades_for_environment] is
    not among the sources.  It clears [packages] and the application flag
    of the root in the ledger document, rewrites the file and returns
    whether the reset succeeded; a ledger that cannot be read as a JSON
    object is left alone and the reset fails. *)
Definition reset_available_upgrades_for_environment (root : string) : M bool :=
  w <- get_world ;;
  match upgrades_file w with
  | None => ret false
  | Some c =>
      match json_load c with
      | Some (PDict d) =>
          write_upgrades (Some (Document (PDict (dict_set root default_entry d)))) ;;
          ret true
      | _ => ret false
      end
  end.

End Utils.

(* ===================================================================== *)
(** ** [mmpm/core.py] *)
(* ===================================================================== *)

Module Core.

Import Utils.

(** *** The package snapshot *)

Definition fetch_fatal_message : string :=
  "Unable to retrieve MagicMirror modules. Is your internet connection up?".

Definition fetch_error_message : string :=
  "Failed to retrieve packages. Please check your internet connection.".

(** The wiki scrape is a collaborator; a network failure ends the
    process through [fatal_msg]. *)
Definition retrieve_packages (env : Env) : M Catalog :=
  match scrape env with
  | None =>
      emit (EvPrint "RED_X") ;;
      fatal_msg fetch_fatal_message
  | Some packages => ret packages
  end.

(** [json.dump(packages, db, default=lambda pkg: pkg.serialize())] *)
Definition dump_catalog (packages : Catalog) : content :=
  Document (PDict (map (fun entry => (fst entry, PList (map serialize (snd entry))))
                       packages)).

Fixpoint convert_categories (d : list (string * pyval)) : result Catalog :=
  match d with
  | [] => Ret []
  | (category, v) :: d' =>
      match list_of_dict_to_list_of_magicmirror_packages v with
      | Raise e => Raise e
      | Ret pkgs =>
          match convert_categories d' with
          | Raise e => Raise e
          | Ret rest => Ret ((category, pkgs) :: rest)
          end
      end
  end.

(** [packages = json.load(db)] followed by the conversion of every
    category.  [JSONDecodeError] is a [ValueError]; an empty list or
    string comes back as it is (no category); every other non-mapping
    fails on iteration or subscription. *)
Definition read_catalog (c : content) : result Catalog :=
  match json_load c with
  | None => Raise ValueError
  | Some (PDict d) => convert_categories d
  | Some (PList []) => Ret []
  | Some (PStr "") => Ret []
  | Some _ => Raise TypeError
  end.

(** Any exception while reading leaves the external list empty. *)
Definition load_external_packages : M Catalog :=
  w <- get_world ;;
  match ext_pkgs_file w with
  | Some c =>
      match json_load c with
      | Some (PDict d) =>
          match dict_get Consts.EXTERNAL_PACKAGES d with
          | Some v =>
              match list_of_dict_to_list_of_magicmirror_packages v with
              | Ret external_packages =>
                  ret [(Consts.EXTERNAL_PACKAGES, external_packages)]
              | Raise _ =>
                  warning_msg "Failed to load data from the external packages file" ;;
                  ret [(Consts.EXTERNAL_PACKAGES, [])]
              end
          | None =>
              warning_msg "Failed to load data from the external packages file" ;;
              ret [(Consts.EXTERNAL_PACKAGES, [])]
          end
      | _ =>
          warning_msg "Failed to load data from the external packages file" ;;
          ret [(Consts.EXTERNAL_PACKAGES, [])]
      end
  | None =>
      warning_msg "Failed to load data from the external packages file" ;;
      ret [(Consts.EXTERNAL_PACKAGES, [])]
  end.

Definition is_empty {A : Type} (l : list A) : bool :=
  match l with [] => true | _ => false end.

Definition load_packages (env : Env) (force_refresh : bool) : M Catalog :=
  w0 <- get_world ;;
  let db_exists := nonempty_file (db_file w0) in
  (if db_exists then
     emit (EvInfo "Backing up database file") ;;
     write_db_bak (db_file w0) ;;                      (* shutil.copyfile *)
     emit (EvInfo "Back up of database complete")
   else ret tt) ;;
  packages <-
    (if force_refresh || negb db_exists then
       emit (EvPrint (if db_exists
                      then "Refreshing MagicMirror 3rd party packages database"
                      else "Initializing MagicMirror 3rd party packages database")) ;;
       packages <- retrieve_packages env ;;
       if is_empty packages then
         emit (EvPrint "RED_X") ;;
         error_msg fetch_error_message ;;
         ret packages
       else
         write_db (Some (dump_catalog packages)) ;;
         emit (EvPrint "GREEN_CHECK_MARK") ;;
         ret packages
     else ret []) ;;
  packages <-
    (if is_empty packages && db_exists then
       w <- get_world ;;
       match db_file w with
       | Some c => lift (read_catalog c)
       | None => raise FileNotFoundError
       end
     else ret packages) ;;
  w <- get_world ;;
  if negb (is_empty packages) && nonempty_file (ext_pkgs_file w) then
    external <- load_external_packages ;;
    ret (dict_update packages external)
  else ret packages.

(** *** The upgrade ledger *)

(** [v[k]] *)
Definition subscript (v : pyval) (k : string) : result pyval :=
  match v with
  | PDict d =>
      match dict_get k d with
      | Some x => Ret x
      | None => Raise KeyError
      end
  | _ => Raise TypeError
  end.

(** The dictionary literal [{MMPM: False, root: {PACKAGES: [], MAGICMIRROR: False}}] *)
Definition reset_document (root : string) : dict pyval :=
  dict_set root
    (PDict (dict_set Consts.MAGICMIRROR (PBool false)
              (dict_set Consts.PACKAGES (PList []) [])))
    (dict_set Consts.MMPM (PBool false) []).

Definition get_available_upgrades (env : Env) : M (dict pyval) :=
  let root := MMPM_MAGICMIRROR_ROOT env in
  w <- get_world ;;
  match upgrades_file w with
  | None => raise FileNotFoundError
  | Some c =>
      match json_load c with
      | None =>
          (* json.JSONDecodeError: reset_file *)
          write_upgrades (Some (Malformed "")) ;;
          let upgrades := reset_document root in
          written <- lift (json_dump (PDict upgrades)) ;;
          write_upgrades (Some written) ;;
          ret upgrades
      | Some (PDict upgrades) =>
          match dict_get root upgrades with
          | Some (PDict entry) =>
              match dict_get Consts.PACKAGES entry with
              | Some v =>
                  pkgs <- lift (list_of_dict_to_list_of_magicmirror_packages v) ;;
                  ret (dict_set root
                         (PDict (dict_set Consts.PACKAGES (PList (map PPkg pkgs)) entry))
                         upgrades)
              | None =>
                  (* KeyError: add_key *)
                  write_upgrades (Some (Malformed "")) ;;
                  let upgrades := dict_set root default_entry upgrades in
                  written <- lift (json_dump (PDict upgrades)) ;;
                  write_upgrades (Some written) ;;
                  ret upgrades
              end
          | Some _ => raise TypeError
          | None =>
              (* KeyError: add_key *)
              write_upgrades (Some (Malformed "")) ;;
              let upgrades := dict_set root default_entry upgrades in
              written <- lift (json_dump (PDict upgrades)) ;;
              write_upgrades (Some written) ;;
              ret upgrades
          end
      | Some _ => raise TypeError
      end
  end.

Definition match_by_title (query : string) (pkg : MagicMirrorPackage) : bool :=
  query =? title pkg.

Definition match_case_sensitive (query : string) (pkg : MagicMirrorPackage) : bool :=
  str_in query (description pkg) || str_in query (title pkg) || str_in query (author pkg).

Definition match_lower (query : string) (pkg : MagicMirrorPackage) : bool :=
  str_in query (lower (description pkg)) || str_in query (lower (title pkg))
  || str_in query (lower (author pkg)).

(** The loop [for category, _packages in packages.items():
    search_results[category] = [...]] *)
Definition search_loop (matches : MagicMirrorPackage -> bool)
    (packages : Catalog) (search_results : Catalog) : Catalog :=
  fold_left
    (fun acc entry => dict_set (fst entry) (filter matches (snd entry)) acc)
    packages search_results.

Definition search_packages (packages : Catalog) (query : string)
    (case_sensitive by_title_only : bool) : Catalog :=
  match dict_get query packages with
  | Some pkgs => [(query, pkgs)]
  | None =>
      if by_title_only then
        search_loop (match_by_title query) packages []
      else if case_sensitive then
        search_loop (match_case_sensitive query) packages []
      else
        search_loop (match_lower (lower query)) packages []
  end.


(** *** Display *)

Definition MAX_LENGTH : nat := 120.

Definition format_description (desc : string) : string :=
  if (MAX_LENGTH <? String.length desc)%nat
  then substring 0 MAX_LENGTH desc ++ "..."
  else desc.

(** What [display_packages] prints for one package. *)
Definition package_line (title_only include_path : bool) (package : MagicMirrorPackage)
  : string :=
  if title_only then title package
  else if include_path then
    title package ++ " \n  Directory: " ++ directory package ++ " \n  "
    ++ format_description (description package) ++ "\n"
  else
    title package ++ " \n  " ++ format_description (description package) ++ "\n".

Definition display_packages (packages : Catalog) (title_only include_path : bool)
  : M unit :=
  for_each packages
    (fun entry =>
       for_each (snd entry)
         (fun package => emit (EvPrint (package_line title_only include_path package)))).

(** *** Installed packages *)

(** [try: m finally: f] *)
Definition finally {A : Type} (m : M A) (f : M unit) : M A :=
  fun w =>
    match m w with
    | (r, w') =>
        match f w' with
        | (Ret _, w'') => (r, w'')
        | (Raise e, w'') => (Raise e, w'')
        end
    end.

Definition nonzero (code : Z) : bool := negb (code =? 0)%Z.

(** The body of the loop over [package_dirs].  The directory entered is a
    child of the modules directory, so the closing [os.chdir('..')] goes
    back to it. *)
Definition scan_directory (env : Env) (package_dir : string)
    (packages_found : list MagicMirrorPackage) : M (list MagicMirrorPackage) :=
  w <- get_world ;;
  if negb (path_isdir env (path_join (cwd w) package_dir))
     || negb (path_exists env (path_join (path_join (cwd w) package_dir) ".git"))
  then ret packages_found
  else
    finally
      (chdir (path_join (MAGICMIRROR_MODULES_DIR env) package_dir) ;;
       r <- run_cmd env ["git"; "config"; "--get"; "remote.origin.url"] ;;
       let '(error_code, remote_origin_url, _) := r in
       if nonzero error_code then
         error_msg ("Unable to communicate with git server to retrieve information about "
                    ++ package_dir) ;;
         ret packages_found
       else
         r <- run_cmd env ["basename"; strip remote_origin_url; ".git"] ;;
         let '(error_code, project_name, _) := r in
         if nonzero error_code then
           error_msg ("Unable to determine repository origin for " ++ project_name) ;;
           ret packages_found
         else
           w' <- get_world ;;
           ret (packages_found ++
                [ {| title := strip project_name;
                     author := Consts.NOT_AVAILABLE;
                     repository := strip remote_origin_url;
                     description := Consts.NOT_AVAILABLE;
                     directory := cwd w' |} ]))
      (chdir (MAGICMIRROR_MODULES_DIR env)).


(** The innermost loop of the matching phase on one catalog package.  The
    package is one object: every match overwrites its directory and
    appends the same object again, so the entries it contributes all show
    the directory of the last match. *)
Definition match_found (package : MagicMirrorPackage)
    (packages_found : list MagicMirrorPackage) : MagicMirrorPackage * nat :=
  fold_left
    (fun (state : MagicMirrorPackage * nat) package_found =>
       if repository (fst state) =? repository package_found
       then (set_directory (directory package_found) (fst state), S (snd state))
       else state)
    packages_found (package, 0).

Definition installed_entries (packages_found : list MagicMirrorPackage)
    (package : MagicMirrorPackage) : list MagicMirrorPackage :=
  repeat (fst (match_found package packages_found))
         (snd (match_found package packages_found)).

(** [installed_packages[category].append(...)] for a run of entries *)
Definition dict_extend (category : string) (l : list MagicMirrorPackage)
    (installed_packages : Catalog) : Catalog :=
  match dict_get category installed_packages with
  | Some old => dict_set category (old ++ l) installed_packages
  | None => installed_packages
  end.

Definition match_catalog (packages_found : list MagicMirrorPackage)
    (packages : Catalog) (installed_packages : Catalog) : Catalog :=
  fold_left
    (fun acc entry =>
       fold_left
         (fun acc package =>
            dict_extend (fst entry) (installed_entries packages_found package) acc)
         (snd entry)
         (dict_setdefault (fst entry) [] acc))
    packages installed_packages.





Definition get_installed_packages (env : Env) (packages : Catalog) : M Catalog :=
  let package_dirs := get_existing_package_directories env in
  if is_empty package_dirs then
    error_msg "Failed to find MagicMirror root directory." ;;
    ret []
  else
    chdir (MAGICMIRROR_MODULES_DIR env) ;;
    packages_found <- for_fold package_dirs (scan_directory env) [] ;;
    ret (match_catalog packages_found packages []).

(** *** Update candidates *)

(** [upgrades[root][key] = v] *)
Definition set_nested (root key : string) (v : pyval) (upgrades : dict pyval)
  : result (dict pyval) :=
  match dict_get root upgrades with
  | Some (PDict entry) => Ret (dict_set root (PDict (dict_set key v entry)) upgrades)
  | Some _ => Raise TypeError
  | None => Raise KeyError
  end.

(** The body of the loop over the installed packages.  The directory of
    an installed package is one that the scan has tested and entered. *)
Definition check_package (env : Env) (package : MagicMirrorPackage)
    (upgradeable : list MagicMirrorPackage) : M (list MagicMirrorPackage) :=
  chdir (directory package) ;;
  emit (EvPrint ("Checking " ++ title package ++ " [package] for updates")) ;;
  r <- except_interrupt
         (run_cmd env ["git"; "fetch"; "--dry-run"])
         (emit (EvPrint "RED_X") ;; keyboard_interrupt_log) ;;
  let '(error_code, _, stdout) := r in
  if nonzero error_code then
    emit (EvPrint "RED_X") ;;
    error_msg "Unable to communicate with git server" ;;
    ret upgradeable
  else
    emit (EvPrint "GREEN_CHECK_MARK") ;;
    ret (if negb (stdout =? "") then upgradeable ++ [package] else upgradeable).

Definition any_installed (installed_packages : Catalog) : bool :=
  existsb (fun entry => negb (is_empty (snd entry))) installed_packages.

Definition check_for_package_updates (env : Env) (packages : Catalog)
  : M (list MagicMirrorPackage) :=
  let root := MMPM_MAGICMIRROR_ROOT env in
  enter env (MAGICMIRROR_MODULES_DIR env) ;;
  installed_packages <- get_installed_packages env packages ;;
  if negb (any_installed installed_packages) then
    ok <- reset_available_upgrades_for_environment root ;;
    (if negb ok then
       emit (EvLogError "Failed to reset available upgrades for the current environment. File has been recreated") ;;
       emit (EvSystem "rm -f MMPM_AVAILABLE_UPGRADES_FILE; touch MMPM_AVAILABLE_UPGRADES_FILE") ;;
       write_upgrades (Some (Malformed ""))
     else ret tt) ;;
    ret []
  else
    upgradeable <-
      for_fold installed_packages
        (fun entry acc => for_fold (snd entry) (check_package env) acc) [] ;;
    upgrades <- get_available_upgrades env ;;
    write_upgrades (Some (Malformed "")) ;;          (* open(..., 'w') *)
    let upgrades :=
      if dict_mem root upgrades then upgrades
      else dict_set root default_entry upgrades in
    upgrades <- lift (set_nested root Consts.PACKAGES
                        (PList (map serialize_full upgradeable)) upgrades) ;;
    written <- lift (json_dump (PDict upgrades)) ;;
    write_upgrades (Some written) ;;
    ret upgradeable.

(** *** Installation *)

Definition install_package (env : Env) (package : MagicMirrorPackage)
    (assume_yes : bool) : M (bool * string) :=
  enter env (MAGICMIRROR_MODULES_DIR env) ;;
  emit (EvPrint ("Installing " ++ title package)) ;;
  r <- clone env (title package) (repository package)
         (if negb (directory package =? "") then directory package
          else path_join (MAGICMIRROR_MODULES_DIR env) (title package)) ;;
  let '(error_code, _, stderr) := r in
  if nonzero error_code then
    emit (EvPrint "RED_X") ;;
    error_msg stderr ;;
    ret (false, stderr)
  else
    emit (EvPrint "GREEN_CHECK_MARK") ;;
    error <- lift (install_dependencies env (directory package)) ;;
    enter env (MAGICMIRROR_MODULES_DIR env) ;;
    if negb (error =? "") then
      error_msg error ;;
      emit (EvLogError ("Failed to install " ++ title package ++ " at '"
                        ++ directory package ++ "'")) ;;
      yes <- prompt_user ("ERROR: Failed to install " ++ title package ++ " at '"
                          ++ directory package ++ "'. Remove the directory?")
                         assume_yes ;;
      (if yes then
         emit (EvSystem ("rm -rf '" ++ directory package ++ "'")) ;;
         emit (EvPrint ("Removing '" ++ directory package ++ "'"))
       else
         emit (EvPrint ("Keeping " ++ title package ++ " at '" ++ directory package ++ "'")) ;;
         emit (EvInfo ("Keeping " ++ title package ++ " at '" ++ directory package ++ "'"))) ;;
      ret (false, error)
    else ret (true, "").

(** The first loop of [install_packages]: a declined candidate is
    replaced by the blank record, which the second loop recognises with
    [package == None]; the slot is [None] here. *)
Definition confirm_candidate (assume_yes : bool) (candidate : MagicMirrorPackage)
    (slots : list (option MagicMirrorPackage)) : M (list (option MagicMirrorPackage)) :=
  yes <- prompt_user ("Install " ++ title candidate ++ " (" ++ repository candidate ++ ")?")
                     assume_yes ;;
  if negb yes then
    emit (EvInfo ("User not chose to install " ++ title candidate)) ;;
    ret (slots ++ [None])
  else
    emit (EvInfo ("User chose to install " ++ title candidate ++ " ("
                  ++ repository candidate ++ ")")) ;;
    ret (slots ++ [Some candidate]).

(** The conflict check: the [continue] of the source sits in this inner
    loop, so it only moves on to the next existing directory. *)
Definition report_conflicts (package : MagicMirrorPackage)
    (existing_module_dirs : list string) : M unit :=
  for_each existing_module_dirs
    (fun existing_dir =>
       if directory package =? existing_dir then
         emit (EvLogError ("Conflict encountered. Found a package named "
                           ++ title package ++ " already at " ++ directory package)) ;;
         emit (EvError ("A module named " ++ title package ++ " is already installed in "
                        ++ directory package ++ ". Please remove " ++ title package
                        ++ " first."))
       else ret tt).

(** The body of the second loop of [install_packages]. *)
Definition install_candidate (env : Env) (assume_yes : bool)
    (slot : option MagicMirrorPackage) (existing_module_dirs : list string)
  : M (list string) :=
  match slot with
  | None => ret existing_module_dirs
  | Some candidate =>
      let package :=
        set_directory (path_join (MAGICMIRROR_MODULES_DIR env) (title candidate))
                      candidate in
      report_conflicts package existing_module_dirs ;;
      except_interrupt
        (r <- install_package env package assume_yes ;;
         if fst r then ret (existing_module_dirs ++ [title package])
         else ret existing_module_dirs)
        (emit (EvInfo ("Cleaning up cancelled installation path of "
                       ++ directory package ++ " before exiting")) ;;
         enter env (HOME_DIR env) ;;
         emit (EvSystem ("rm -rf '" ++ directory package ++ "'")) ;;
         keyboard_interrupt_log)
  end.

Definition install_packages (env : Env)
    (installation_candidates : list MagicMirrorPackage) (assume_yes : bool) : M bool :=
  if negb (path_exists env (MAGICMIRROR_MODULES_DIR env)) then
    error_msg "MagicMirror directory not found. Please ensure the MMPM environment variables are set properly in your shell configuration" ;;
    ret false
  else if is_empty installation_candidates then
    error_msg "Unable to match query any to installation candidates" ;;
    ret false
  else
    emit (EvInfo ("Changing into MagicMirror modules directory "
                  ++ MAGICMIRROR_MODULES_DIR env)) ;;
    chdir (MAGICMIRROR_MODULES_DIR env) ;;
    emit (EvPrint "Matched query to packages") ;;
    slots <- for_fold installation_candidates (confirm_candidate assume_yes) [] ;;
    let existing_module_dirs := get_existing_package_directories env in
    let starting_count := List.length existing_module_dirs in
    existing_module_dirs <-
      for_fold slots (install_candidate env assume_yes) existing_module_dirs ;;
    if (List.length existing_module_dirs =? starting_count)%nat then ret false
    else
      emit (EvPrint "Run `mmpm open --config` to edit the configuration for newly installed modules") ;;
      ret true.

(** *** Upgrades *)

Definition MMPM_REPO_URL : string := "https://github.com/Bee-Mar/mmpm.git".

Definition upgrade_mmpm (env : Env) : M string :=
  emit (EvInfo "User chose to update MMPM") ;;
  emit (EvPrint "Upgrading MMPM") ;;
  emit (EvSystem "rm -rf /tmp/mmpm") ;;
  enter env "/tmp" ;;
  r <- clone env "mmpm" MMPM_REPO_URL "" ;;
  let '(error_code, _, stderr) := r in
  if nonzero error_code then
    error_msg stderr ;;
    ret stderr
  else
    chdir "/tmp/mmpm" ;;                     (* the clone has just made it *)
    emit (EvSystem "make reinstall") ;;
    ret "".

Definition upgrade_magicmirror (env : Env) : M string :=
  emit (EvPrint "Upgrading MagicMirror") ;;
  enter env (MMPM_MAGICMIRROR_ROOT env) ;;
  r <- run_cmd env ["git"; "pull"] ;;
  let '(error_code, _, stderr) := r in
  if nonzero error_code then
    error_msg "Failed to upgrade MagicMirror" ;;
    error_msg stderr ;;
    ret stderr
  else
    error <- lift (install_dependencies env (MMPM_MAGICMIRROR_ROOT env)) ;;
    if negb (error =? "") then
      error_msg error ;;
      ret error
    else
      emit (EvPrint "Upgrade complete! Restart MagicMirror for the changes to take effect") ;;
      ret "".

(** Returns the error message of the upgrade; the empty message means
    success. *)
Definition upgrade_package (env : Env) (package : MagicMirrorPackage) : M string :=
  enter env (directory package) ;;
  emit (EvPrint ("Performing upgrade for " ++ title package)) ;;
  r <- run_cmd env ["git"; "pull"] ;;
  let '(error_code, _, stderr) := r in
  if nonzero error_code then
    error_msg "Failed to upgrade MagicMirror" ;;
    error_msg stderr ;;
    ret stderr
  else
    emit (EvPrint "GREEN_CHECK_MARK") ;;
    stderr <- lift (install_dependencies env (directory package)) ;;
    if negb (stderr =? "") then
      emit (EvPrint "RED_X") ;;
      error_msg stderr ;;
      ret stderr
    else ret "".

(** What [upgrade_package] returns, as a function of the collaborators
    alone: nothing without the directory of the package, the message of
    a failed pull, else that of the dependency step. *)
Definition upgrade_outcome (env : Env) (package : MagicMirrorPackage) : result string :=
  if path_exists env (directory package) then
    match run env ["git"; "pull"] (directory package) with
    | Interrupted => Raise KeyboardInterrupt
    | Completed error_code _ stderr =>
        if nonzero error_code then Ret stderr
        else install_dependencies env (directory package)
    end
  else Raise FileNotFoundError.

(** [upgrade_package] reports a failure: it does not return the empty
    message, which is how [upgrade_available] tells a failure. *)
Definition upgrade_reported (env : Env) (package : MagicMirrorPackage) : bool :=
  match upgrade_outcome env package with
  | Ret error => negb (error =? "")
  | Raise _ => true
  end.

(** The upgrade of [package] fails: the pull does not end with status 0,
    or the dependency step gives an error. *)
Definition upgrade_fails (env : Env) (package : MagicMirrorPackage) : bool :=
  match run env ["git"; "pull"] (directory package) with
  | Interrupted => true
  | Completed error_code _ _ =>
      nonzero error_code
      || match install_dependencies env (directory package) with
         | Ret error => negb (error =? "")
         | Raise _ => true
         end
  end.

(** [d] can be written as JSON once the value under [k] is replaced. *)
Definition others_serializable (k : string) (d : dict pyval) : bool :=
  serializable (PDict (dict_set k PNull d)).

(** The in-memory ledger [upgrades] during [upgrade_available]: the entry
    of the root holds the pending objects [pending]; everything but that
    list can be written as JSON; the keys other than the root and the
    tool flag are those of the document [d0] that was read. *)
Definition ledger_state (root : string) (d0 : dict pyval)
    (pending : list MagicMirrorPackage) (upgrades : dict pyval) : Prop :=
  exists entry,
    dict_get root upgrades = Some (PDict entry) /\
    dict_get Consts.PACKAGES entry = Some (PList (map PPkg pending)) /\
    others_serializable root upgrades = true /\
    others_serializable Consts.PACKAGES entry = true /\
    forall k, k <> root -> k <> Consts.MMPM ->
              dict_get k upgrades = dict_get k d0.

(** [l.remove(x)] on a list of titles, where [x in l] has been checked *)
Fixpoint remove_first (x : string) (l : list string) : list string :=
  match l with
  | [] => []
  | y :: l' => if x =? y then l' else y :: remove_first x l'
  end.

(** [l.remove(pkg)]: the first element equal to [pkg] goes; [None] is the
    [ValueError] of an absent element. *)
Fixpoint list_remove (pkg : MagicMirrorPackage) (l : list MagicMirrorPackage)
  : option (list MagicMirrorPackage) :=
  match l with
  | [] => None
  | q :: l' =>
      if package_eqb q pkg then Some l'
      else match list_remove pkg l' with
           | Some r => Some (q :: r)
           | None => None
           end
  end.

Fixpoint package_objects (l : list pyval) : result (list MagicMirrorPackage) :=
  match l with
  | [] => Ret []
  | PPkg p :: l' =>
      match package_objects l' with
      | Ret ps => Ret (p :: ps)
      | Raise e => Raise e
      end
  | _ :: _ => Raise TypeError
  end.

(** The pending list of the in-memory ledger, a list of package objects. *)
Definition pending_packages (v : pyval) : result (list MagicMirrorPackage) :=
  match v with
  | PList l => package_objects l
  | _ => Raise TypeError
  end.

(** [valid_pkgs] and what is left of [selection] after the loop that
    appends every selected package once more and consumes its title. *)
Definition select_packages (pending : list MagicMirrorPackage) (selection : list string)
  : list MagicMirrorPackage * list string :=
  fold_left
    (fun (state : list MagicMirrorPackage * list string) pkg =>
       if list_in (title pkg) (snd state)
       then (fst state ++ [pkg], remove_first (title pkg) (snd state))
       else state)
    pending
    (filter (fun pkg => list_in (title pkg) selection) pending, selection).

Definition confirm_upgrade (assume_yes : bool) (package : MagicMirrorPackage)
    (confirmed : list MagicMirrorPackage) : M (list MagicMirrorPackage) :=
  yes <- prompt_user ("Upgrade " ++ title package ++ " (" ++ repository package ++ ") now?")
                     assume_yes ;;
  ret (if yes then confirmed ++ [package] else confirmed).

(** The body of the loop over the confirmed packages; the state is the
    pending list of the ledger and the [upgraded] flag. *)
Definition upgrade_confirmed (env : Env) (pkg : MagicMirrorPackage)
    (state : list MagicMirrorPackage * bool) : M (list MagicMirrorPackage * bool) :=
  error <- upgrade_package env pkg ;;
  if negb (error =? "") then
    error_msg error ;;
    ret state
  else
    match list_remove pkg (fst state) with
    | Some pending => ret (pending, true)
    | None => raise ValueError
    end.

(** The end of [upgrade_available]: what is left of the pending list is
    serialised in place, the ledger file is rewritten, and a restart is
    suggested when something was upgraded. *)
Definition persist_upgrades (env : Env) (upgrades : dict pyval) (upgraded : bool)
  : M bool :=
  let root := MMPM_MAGICMIRROR_ROOT env in
  entry <- lift (subscript (PDict upgrades) root) ;;
  pending_v <- lift (subscript entry Consts.PACKAGES) ;;
  pending <- lift (pending_packages pending_v) ;;
  upgrades <- lift (set_nested root Consts.PACKAGES
                      (PList (map serialize_full pending)) upgrades) ;;
  write_upgrades (Some (Malformed "")) ;;            (* open(..., 'w') *)
  written <- lift (json_dump (PDict upgrades)) ;;
  write_upgrades (Some written) ;;
  (if upgraded && is_magicmirror_running env
   then emit (EvPrint "Restart MagicMirror for the changes to take effect")
   else ret tt) ;;
  ret true.

Definition upgrade_available (env : Env) (assume_yes : bool) (selection : list string)
  : M bool :=
  let root := MMPM_MAGICMIRROR_ROOT env in
  upgrades <- get_available_upgrades env ;;
  let user_selections := negb (is_empty selection) in
  entry <- lift (subscript (PDict upgrades) root) ;;
  has_upgrades <-
    lift (match entry with
          | PDict e => Ret (existsb (fun kv => truthy (snd kv)) e)
          | _ => Raise TypeError
          end) ;;
  (if has_upgrades then ret tt
   else
     flag <- lift (subscript (PDict upgrades) Consts.MMPM) ;;
     if negb (truthy flag) then emit (EvPrint "No upgrades available") else ret tt) ;;
  pending_v <- lift (subscript entry Consts.PACKAGES) ;;
  pending <- lift (pending_packages pending_v) ;;
  chosen <-
    (if truthy pending_v then
       if user_selections then
         let valid_pkgs := fst (select_packages pending selection) in
         let selection := snd (select_packages pending selection) in
         mmpm_selected <-
           (if list_in Consts.MMPM selection then
              flag <- lift (subscript (PDict upgrades) Consts.MMPM) ;;
              ret (truthy flag)
            else ret false) ;;
         let selection :=
           if mmpm_selected then remove_first Consts.MMPM selection else selection in
         magicmirror_selected <-
           (if list_in Consts.MAGICMIRROR selection then
              flag <- lift (subscript entry Consts.MAGICMIRROR) ;;
              ret (truthy flag)
            else ret false) ;;
         let selection :=
           if magicmirror_selected then remove_first Consts.MAGICMIRROR selection
           else selection in
         (if negb (is_empty selection) then
            error_msg "Unable to match the selection to a package/application with available upgrades"
          else ret tt) ;;
         confirmed <-
           for_fold valid_pkgs
             (fun package confirmed =>
                if list_in (title package) selection
                then confirm_upgrade assume_yes package confirmed
                else ret confirmed) [] ;;
         ret (confirmed, mmpm_selected, magicmirror_selected)
       else
         confirmed <- for_fold pending (confirm_upgrade assume_yes) [] ;;
         ret (confirmed, false, false)
     else ret ([], false, false)) ;;
  let '(confirmed_packages, mmpm_selected, magicmirror_selected) := chosen in
  flag <- lift (subscript entry Consts.MAGICMIRROR) ;;
  confirmed_magicmirror <-
    (if (truthy flag && magicmirror_selected) || negb user_selections
     then prompt_user "Upgrade MagicMirror now?" assume_yes
     else ret false) ;;
  flag <- lift (subscript (PDict upgrades) Consts.MMPM) ;;
  confirmed_mmpm <-
    (if (truthy flag && mmpm_selected) || negb user_selections
     then prompt_user "Upgrade MMPM now?" assume_yes
     else ret false) ;;
  state <- for_fold confirmed_packages (upgrade_confirmed env) (pending, false) ;;
  (* the pending list is one object, shared with the ledger in memory *)
  upgrades <- lift (set_nested root Consts.PACKAGES
                      (PList (map PPkg (fst state))) upgrades) ;;
  st <-
    (if confirmed_mmpm then
       error <- upgrade_mmpm env ;;
       if negb (error =? "") then
         error_msg (error ++ " RED_X") ;;
         ret (upgrades, snd state)
       else ret (dict_set Consts.MMPM (PBool false) upgrades, true)
     else ret (upgrades, snd state)) ;;
  st <-
    (if confirmed_magicmirror then
       error <- upgrade_magicmirror env ;;
       if negb (error =? "") then
         error_msg error ;;
         ret st
       else
         upgrades <- lift (set_nested root Consts.MAGICMIRROR (PBool false) (fst st)) ;;
         ret (upgrades, true)
     else ret st) ;;
  persist_upgrades env (fst st) (snd st).

End Core.

(* ===================================================================== *)
(** ** More of [mmpm/utils.py]: names and free-text input *)
(* ===================================================================== *)

Module Inputs.

Import Utils.

(** [re.sub('[//]', '', orig_name)]: the character class holds the slash
    alone, so every slash is dropped. *)
Fixpoint sanitize_name (orig_name : string) : string :=
  match orig_name with
  | EmptyString => EmptyString
  | String c rest =>
      if Ascii.eqb c "/"%char then sanitize_name rest
      else String c (sanitize_name rest)
  end.

(** The [while True] loop of [assert_valid_input] over what is left on the
    terminal.  Nothing is caught here: Ctrl-C and the end of the stream
    leave as [KeyboardInterrupt] and [EOFError]. *)
Fixpoint valid_input_loop (prompt : string) (forbidden_responses : list string)
    (reason : string) (inputs : list Input) : M string :=
  match inputs with
  | [] => emit (EvPrint prompt) ;; set_stdin [] ;; raise EOFError
  | CtrlC :: rest => emit (EvPrint prompt) ;; set_stdin rest ;; raise KeyboardInterrupt
  | Line user_response :: rest =>
      emit (EvPrint prompt) ;;
      set_stdin rest ;;
      if user_response =? "" then
        warning_msg "A non-empty response must be given" ;;
        valid_input_loop prompt forbidden_responses reason rest
      else if list_in user_response forbidden_responses then
        warning_msg ("Invalid response, " ++ user_response ++ " " ++ reason) ;;
        valid_input_loop prompt forbidden_responses reason rest
      else ret user_response
  end.

Definition assert_valid_input (prompt : string) (forbidden_responses : list string)
    (reason : string) : M string :=
  w <- get_world ;;
  valid_input_loop prompt forbidden_responses reason (stdin w).

(** A response that [assert_valid_input] sends back to the prompt. *)
Definition rejected (forbidden_responses : list string) (response : string) : bool :=
  (response =? "") || list_in response forbidden_responses.

(** A response that [prompt_user] understands. *)
Definition understood (response : string) : bool :=
  list_in response valid_ack || list_in response valid_nack.

End Inputs.

(* ===================================================================== *)
(** ** More of [mmpm/core.py]: candidates *)
(* ===================================================================== *)

Module Candidates.

Import Utils Core.

(** The predicate a search applies to the packages, by mode. *)
Definition search_predicate (query : string) (case_sensitive by_title_only : bool)
  : MagicMirrorPackage -> bool :=
  if by_title_only then match_by_title query
  else if case_sensitive then match_case_sensitive query
  else match_lower (lower query).

(** The texts that a search looks at are ASCII texts. *)
Definition ascii_package (p : MagicMirrorPackage) : bool :=
  ascii_text (title p) && ascii_text (author p) && ascii_text (description p).

Definition ascii_catalog (packages : Catalog) : Prop :=
  Forall (fun entry => Forall (fun p => ascii_package p = true) (snd entry)) packages.

Definition unmatched_message (package_to_install : string) : string :=
  "Unable to match package to query of '" ++ package_to_install ++ "'. Is there a typo?".

Definition matched_message (package : MagicMirrorPackage) : string :=
  "Matched " ++ title package ++ " to installation candidate".

(** The body of the innermost loop of [get_installation_candidates]; the
    state is the candidate list and the [found] flag. *)
Definition match_title (package_to_install : string) (package : MagicMirrorPackage)
    (state : list MagicMirrorPackage * bool) : M (list MagicMirrorPackage * bool) :=
  if title package =? package_to_install then
    emit (EvInfo (matched_message package)) ;;
    ret (fst state ++ [package], true)
  else ret state.

Definition get_installation_candidates (packages : Catalog)
    (packages_to_install : list string) : M (list MagicMirrorPackage) :=
  for_fold packages_to_install
    (fun package_to_install installation_candidates =>
       state <-
         for_fold packages
           (fun category state => for_fold (snd category) (match_title package_to_install) state)
           (installation_candidates, false) ;;
       (if negb (snd state) then error_msg (unmatched_message package_to_install)
        else ret tt) ;;
       ret (fst state))
    [].

(** The packages of the catalog with the given title, in catalog order. *)
Definition titled (packages : Catalog) (package_to_install : string)
  : list MagicMirrorPackage :=
  filter (fun package => title package =? package_to_install) (flat_map snd packages).

(** What one requested title adds to the trace. *)
Definition candidate_events (packages : Catalog) (package_to_install : string)
  : list Event :=
  map (fun package => EvInfo (matched_message package)) (titled packages package_to_install)
  ++ (if is_empty (titled packages package_to_install)
      then [EvLogError (unmatched_message package_to_install);
            EvError (unmatched_message package_to_install)]
      else []).

End Candidates.

(* ===================================================================== *)
(** ** More of [mmpm/core.py]: the ledger *)
(* ===================================================================== *)

Module Ledger.

Import Utils Core.

(** A ledger document of the wrong shape: not an object, or with a value
    for the root that is not an object. *)
Definition misshaped (root : string) (doc : pyval) : Prop :=
  match doc with
  | PDict d =>
      match dict_get root d with
      | Some (PDict _) => False
      | Some _ => True
      | None => False
      end
  | _ => True
  end.

(** The pending list that the ledger file holds for [root]. *)
Definition pending_on_disk (root : string) (w : World) : option pyval :=
  match upgrades_file w with
  | Some (Document (PDict d)) =>
      match dict_get root d with
      | Some (PDict entry) => dict_get Consts.PACKAGES entry
      | _ => None
      end
  | _ => None
  end.

(** The error [msg] was shown to the user. *)
Definition shown_error (msg : string) (w : World) : bool :=
  existsb (fun e => match e with EvError m => m =? msg | _ => false end) (trace w).

End Ledger.

(* ===================================================================== *)
(** ** More of [mmpm/core.py]: outcomes of an installation *)
(* ===================================================================== *)

Module Installation.

Import Utils Core.

(** Where [install_packages] puts a candidate. *)
Definition target_directory (env : Env) (candidate : MagicMirrorPackage) : string :=
  path_join (MAGICMIRROR_MODULES_DIR env) (title candidate).

(** The installation of [candidate] goes through: the clone ends with
    status 0 and the dependency step returns the empty message. *)
Definition install_succeeds (env : Env) (candidate : MagicMirrorPackage) : bool :=
  match run env (clone_command (repository candidate) (target_directory env candidate))
            (MAGICMIRROR_MODULES_DIR env) with
  | Completed returncode _ _ =>
      negb (nonzero returncode)
      && match install_dependencies env (target_directory env candidate) with
         | Ret error => error =? ""
         | Raise _ => false
         end
  | Interrupted => false
  end.



Definition is_run (e : Event) : bool :=
  match e with EvRun _ _ => true | _ => false end.

Definition is_system (e : Event) : bool :=
  match e with EvSystem _ => true | _ => false end.

End Installation.

(* ===================================================================== *)
(** ** What a run leaves behind *)
(* ===================================================================== *)

Module Footprint.

Import Utils Core Installation.

(** The target of the clone in [install_package]. *)
Definition clone_target (env : Env) (package : MagicMirrorPackage) : string :=
  if negb (directory package =? "") then directory package
  else path_join (MAGICMIRROR_MODULES_DIR env) (title package).

(** Nothing was read from the terminal, no command was run and no shell
    line was executed between [w] and [w']. *)
Definition silent (w w' : World) : Prop :=
  stdin w' = stdin w /\
  filter is_run (trace w') = filter is_run (trace w) /\
  filter is_system (trace w') = filter is_system (trace w).

Definition is_action (e : Event) : bool := is_run e || is_system e.

End Footprint.

(* ===================================================================== *)
(** ** The update check of the application itself *)
(* ===================================================================== *)

Module Application.

Import Utils Core.

Definition fetch_dry_run : list string := ["git"; "fetch"; "--dry-run"].

(** The dictionary literal [{PACKAGES: [], MAGICMIRROR: update_available}] *)
Definition fresh_entry (update_available : bool) : pyval :=
  PDict (dict_set Consts.MAGICMIRROR (PBool update_available)
           (dict_set Consts.PACKAGES (PList []) [])).

(** The [is_git] branch of [check_for_magicmirror_updates].  The third
    component of the command's result, its standard error, is bound to
    the name [stdout]; the exit status only decides whether an error is
    reported. *)
Definition probe_application (env : Env) : M bool :=
  chdir (MMPM_MAGICMIRROR_ROOT env) ;;
  emit (EvPrint "Checking MagicMirror [application] for updates") ;;
  r <- except_interrupt
         (run_cmd env fetch_dry_run)
         (emit (EvPrint "RED_X") ;; keyboard_interrupt_log) ;;
  let '(error_code, _, stdout) := r in
  emit (EvPrint "GREEN_CHECK_MARK") ;;
  (if nonzero error_code then error_msg "Unable to communicate with git server"
   else ret tt) ;;
  ret (negb (stdout =? "")).

(** The body of the second [with] block on the document that was read:
    [root not in upgrades] and the item assignment of either branch.  A
    document that is not an object fails with [TypeError] in the
    membership test or in the assignment. *)
Definition record_flag (root : string) (update_available : bool) (upgrades : pyval)
  : result (dict pyval) :=
  match upgrades with
  | PDict d =>
      if negb (dict_mem root d)
      then Ret (dict_set root (fresh_entry update_available) d)
      else set_nested root Consts.MAGICMIRROR (PBool update_available) d
  | _ => Raise TypeError
  end.

Definition check_for_magicmirror_updates (env : Env) : M bool :=
  let root := MMPM_MAGICMIRROR_ROOT env in
  if negb (path_exists env root) then
    error_msg "MagicMirror application directory not found. Please ensure the MMPM environment variables are set properly in your shell configuration" ;;
    ret false
  else
    let is_git := path_exists env (path_join root ".git") in
    (if negb is_git then
       warning_msg "The MagicMirror root is not a git repo. If running MagicMirror as a Docker container, updates cannot be performed via mmpm."
     else ret tt) ;;
    update_available <- (if is_git then probe_application env else ret false) ;;
    w <- get_world ;;
    match upgrades_file w with
    | None => raise FileNotFoundError
    | Some c =>
        let upgrades :=
          match json_load c with
          | Some v => v
          | None =>
              (* json.JSONDecodeError *)
              PDict (dict_set root (fresh_entry update_available)
                       (dict_set Consts.MMPM (PBool false) []))
          end in
        write_upgrades (Some (Malformed "")) ;;        (* open(..., 'w') *)
        upgrades <- lift (record_flag root update_available upgrades) ;;
        written <- lift (json_dump (PDict upgrades)) ;;
        write_upgrades (Some written) ;;
        ret update_available
    end.

(** What the check answers: the root is a git checkout and the dry run
    wrote something to its standard error. *)
Definition update_reported (env : Env) : bool :=
  path_exists env (path_join (MMPM_MAGICMIRROR_ROOT env) ".git")
  && match run env fetch_dry_run (MMPM_MAGICMIRROR_ROOT env) with
     | Completed _ _ stderr => negb (stderr =? "")
     | Interrupted => false
     end.

End Application.

(* ===================================================================== *)
(** ** Files that a run leaves alone, and the update probe *)
(* ===================================================================== *)

Module Frame.

(** The four files of the world are what they were. *)
Definition same_files (w w' : World) : Prop :=
  db_file w' = db_file w /\
  db_bak_file w' = db_bak_file w /\
  ext_pkgs_file w' = ext_pkgs_file w /\
  upgrades_file w' = upgrades_file w.

(** A computation that writes no file, however it ends. *)
Definition read_only {A : Type} (m : M A) : Prop :=
  forall w, same_files w (snd (m w)).

End Frame.

Module Updates.

Import Utils Core.

(** The probe of [check_for_package_updates] finds an update for
    [package]: the dry run in its directory ends with status 0 and wrote
    something to its standard error. *)
Definition has_update (env : Env) (package : MagicMirrorPackage) : bool :=
  match run env ["git"; "fetch"; "--dry-run"] (directory package) with
  | Completed returncode _ stderr => negb (nonzero returncode) && negb (stderr =? "")
  | Interrupted => false
  end.

(** The packages of a catalog, category after category. *)
Definition all_packages (packages : Catalog) : list MagicMirrorPackage :=
  List.concat (map snd packages).

End Updates.

(* ===================================================================== *)
(** ** [mmpm/utils.py]: the build of a package's dependencies *)
(* ===================================================================== *)

Module Build.

Import Utils Core Installation.

Definition upper_char (c : ascii) : ascii :=
  let n := nat_of_ascii c in
  if ((97 <=? n) && (n <=? 122))%nat then ascii_of_nat (n - 32) else c.

(** [s.upper()] on ASCII text *)
Fixpoint upper (s : string) : string :=
  match s with
  | EmptyString => EmptyString
  | String c s' => String (upper_char c) (upper s')
  end.

(** An integer in an f-string *)
Definition show (n : Z) : string :=
  DecimalString.NilZero.string_of_int (Z.to_int n).

Section Directory.

Variable env : Env.

(** [os.path.isfile]; every path is asked for at one point of a run. *)
Variable isfile : string -> bool.

(** The file names of [mmpm.consts] and [cpu_count()] as text. *)
Variables PACKAGE_JSON GEMFILE MAKEFILE CMAKELISTS cpu_count : string.

(** The spellings that [package_requirements_file_exists] tries. *)
Definition spellings (file_name : string) : list string :=
  [file_name; lower file_name; upper file_name].

Definition package_requirements_file_exists (file_name : string) : M bool :=
  w <- get_world ;;
  ret (existsb (fun name => isfile (path_join (cwd w) name)) (spellings file_name)).

(** [os.chdir('build')]: relative to the current directory, which must
    hold that directory. *)
Definition cmake : M (Z * string * string) :=
  w <- get_world ;;
  emit (EvInfo ("Running 'cmake ..' in " ++ cwd w)) ;;
  emit (EvPrint "Found CMakeLists.txt. Attempting build with 'cmake'") ;;
  run_cmd env ["mkdir"; "-p"; "build"] ;;
  (if path_isdir env (path_join (cwd w) "build")
   then chdir (path_join (cwd w) "build")
   else raise FileNotFoundError) ;;
  run_cmd env ["rm"; "-rf"; "*"] ;;
  run_cmd env ["cmake"; ".."].

Definition make : M (Z * string * string) :=
  w <- get_world ;;
  emit (EvInfo ("Running 'make -j " ++ cpu_count ++ "' in " ++ cwd w)) ;;
  emit (EvPrint ("Found Makefile. Attempting to run 'make -j " ++ cpu_count ++ "'")) ;;
  run_cmd env ["make"; "-j"; cpu_count].

Definition npm_install : M (Z * string * string) :=
  w <- get_world ;;
  emit (EvInfo ("Running 'npm install' in " ++ cwd w)) ;;
  emit (EvPrint "Found package.json. Running 'npm install'") ;;
  run_cmd env ["npm"; "install"].

Definition bundle_install : M (Z * string * string) :=
  w <- get_world ;;
  emit (EvInfo ("Running 'bundle install' in " ++ cwd w)) ;;
  emit (EvPrint "Found Gemfile. Running 'bundle install'") ;;
  run_cmd env ["bundle"; "install"].

Definition basic_fail_log (error_code : Z) (error_message : string) : M unit :=
  emit (EvInfo ("Failed with return code " ++ show error_code
                ++ ", and error message " ++ error_message)).

(** One block of [install_dependencies]: the step is run, a non-zero
    status ends the function with the step's standard error, and
    [next] is what follows the block otherwise. *)
Definition checked (step : M (Z * string * string)) (next : M string) : M string :=
  r <- step ;;
  let '(error_code, _, stderr) := r in
  if nonzero error_code then
    basic_fail_log error_code stderr ;;
    emit (EvPrint "") ;;
    ret stderr
  else
    emit (EvPrint "GREEN_CHECK_MARK") ;;
    next.

(** The end of [install_dependencies]. *)
Definition installed : M string :=
  emit (EvPrint "Installation GREEN_CHECK_MARK") ;;
  w <- get_world ;;
  emit (EvInfo ("Exiting installation handler from " ++ cwd w)) ;;
  ret "".

(** The four [if] blocks of [install_dependencies], the last one
    first; the second [make] sits inside the block of [cmake]. *)
Definition after_cmake : M string :=
  found <- package_requirements_file_exists MAKEFILE ;;
  if found then checked make installed else installed.

Definition cmake_block : M string :=
  found <- package_requirements_file_exists CMAKELISTS ;;
  if found then checked cmake after_cmake else installed.

Definition make_block : M string :=
  found <- package_requirements_file_exists MAKEFILE ;;
  if found then checked make cmake_block else cmake_block.

Definition bundle_block : M string :=
  found <- package_requirements_file_exists GEMFILE ;;
  if found then checked bundle_install make_block else make_block.

Definition install_dependencies : M string :=
  found <- package_requirements_file_exists PACKAGE_JSON ;;
  if found then checked npm_install bundle_block else bundle_block.

(** *** The build as a list of steps *)

(** A command of the build: whether it is due, whether its exit status
    is looked at, and where it runs. *)
Record Step : Type := mkStep
  { due : bool; looked_at : bool; argv : list string; place : string }.

Definition has (file_name dir : string) : bool :=
  existsb (fun name => isfile (path_join dir name)) (spellings file_name).

Definition build_steps (here : string) : list Step :=
  let build := path_join here "build" in
  [ mkStep (has PACKAGE_JSON here) true ["npm"; "install"] here;
    mkStep (has GEMFILE here) true ["bundle"; "install"] here;
    mkStep (has MAKEFILE here) true ["make"; "-j"; cpu_count] here;
    mkStep (has CMAKELISTS here) false ["mkdir"; "-p"; "build"] here;
    mkStep (has CMAKELISTS here) false ["rm"; "-rf"; "*"] build;
    mkStep (has CMAKELISTS here) true ["cmake"; ".."] build;
    mkStep (has CMAKELISTS here && has MAKEFILE build) true
           ["make"; "-j"; cpu_count] build ].

(** The steps that are due are run in order up to the first one whose
    status is looked at and is not 0; the answer is the standard error
    of that step, or the empty string. *)
Fixpoint run_steps (steps : list Step) : string * list Event :=
  match steps with
  | [] => ("", [])
  | step :: rest =>
      if due step then
        match run env (argv step) (place step) with
        | Completed returncode _ stderr =>
            if looked_at step && nonzero returncode
            then (stderr, [EvRun (argv step) (place step)])
            else (fst (run_steps rest), EvRun (argv step) (place step) :: snd (run_steps rest))
        | Interrupted => ("", [EvRun (argv step) (place step)])
        end
      else run_steps rest
  end.

(** The run of [m] from [w] answers and runs what the steps say. *)
Definition agrees (m : M string) (steps : list Step) (w : World) : Prop :=
  fst (m w) = Ret (fst (run_steps steps)) /\
  filter is_run (trace (snd (m w))) = filter is_run (trace w) ++ snd (run_steps steps).

End Directory.

End Build.

(* ===================================================================== *)
(** ** Concrete environments and worlds *)
(* ===================================================================== *)

Module Fixtures.

Import Utils Core.

Definition foo : MagicMirrorPackage :=
  mkPackage "foo" "alice" "https://x/foo" "a clock" "".
Definition bar : MagicMirrorPackage :=
  mkPackage "bar" "bob" "https://x/bar" "a calendar" "".
Definition baz : MagicMirrorPackage :=
  mkPackage "baz" "carol" "https://x/baz" "weather" "".

Definition wiki : Catalog := [("Clocks", [foo]); ("Calendars", [bar; baz])].

(** Every command completes silently with status 0. *)
Definition quiet (argv : list string) (dir : string) : cmd_result :=
  Completed 0 "" "".

(** A dashboard at [/MM] whose modules directory holds the directory
    [foo]. *)
Definition env_of (fetched : option Catalog)
    (commands : list string -> string -> cmd_result) : Env :=
  {| MMPM_MAGICMIRROR_ROOT := "/MM";
     HOME_DIR := "/home/pi";
     scrape := fetched;
     path_exists := fun _ => true;
     path_isdir := fun _ => true;
     listdir := fun _ => ["foo"];
     run := commands;
     install_dependencies := fun _ => Ret "";
     is_magicmirror_running := false |}.

Definition old_snapshot : content :=
  Document (PDict [("Old", PList [serialize foo])]).

Definition world_of (db ledger : option content) (inputs : list Input) : World :=
  {| db_file := db; db_bak_file := None; ext_pkgs_file := None;
     upgrades_file := ledger; cwd := "/"; stdin := inputs; trace := [] |}.

(** Three installed packages with pending upgrades; the pull of the
    second one fails. *)
Definition installed (p : MagicMirrorPackage) : MagicMirrorPackage :=
  set_directory (path_join "/MM/modules" (title p)) p.

Definition pull_fails_for_bar (argv : list string) (dir : string) : cmd_result :=
  if dir =? "/MM/modules/bar"
  then Completed 1 "" "fatal: unable to access 'https://x/bar/'"
  else Completed 0 "" "".

Definition pending_entry : dict pyval :=
  [("packages", PList [serialize_full (installed foo); serialize_full (installed bar);
                       serialize_full (installed baz)]);
   ("MagicMirror", PBool false)].

Definition pending_ledger : dict pyval :=
  [("mmpm", PBool false); ("/MM", PDict pending_entry); ("/other", default_entry)].

(** The pull of the second package ends with status 1 and writes
    nothing. *)
Definition pull_fails_silently_for_bar (argv : list string) (dir : string) : cmd_result :=
  if dir =? "/MM/modules/bar" then Completed 1 "" "" else Completed 0 "" "".



(** Cloning [bar] fails; every other command succeeds. *)
Definition clone_fails_for_bar (argv : list string) (dir : string) : cmd_result :=
  if list_in "https://x/bar" argv
  then Completed 128 "" "fatal: repository 'https://x/bar/' not found"
  else Completed 0 "" "".

(** The dashboard of [env_of] where every build step fails. *)
Definition broken_build (commands : list string -> string -> cmd_result) : Env :=
  {| MMPM_MAGICMIRROR_ROOT := "/MM";
     HOME_DIR := "/home/pi";
     scrape := None;
     path_exists := fun _ => true;
     path_isdir := fun _ => true;
     listdir := fun _ => ["foo"];
     run := commands;
     install_dependencies := fun _ => Ret "npm ERR! missing script: install";
     is_magicmirror_running := false |}.

(** The dry run of a fetch fails with a message; every other command
    succeeds silently. *)
Definition fetch_fails (argv : list string) (dir : string) : cmd_result :=
  if list_in "fetch" argv
  then Completed 128 "" "fatal: unable to access 'https://x/'"
  else Completed 0 "" "".

(** The clone in [foo] has the remote of the package [foo], and the dry
    run of a fetch there announces new commits. *)
Definition foo_is_behind (argv : list string) (dir : string) : cmd_result :=
  if list_in "config" argv then Completed 0 "https://x/foo" ""
  else if list_in "basename" argv then Completed 0 "foo" ""
  else if list_in "fetch" argv then Completed 0 "" "From https://x/foo"
  else Completed 0 "" "".

(** [npm install] ends with status 1 and writes nothing; every other
    command succeeds silently. *)
Definition npm_fails_silently (argv : list string) (dir : string) : cmd_result :=
  if list_in "npm" argv then Completed 1 "" "" else Completed 0 "" "".

(** A package directory with a [package.json] and a [Makefile]. *)
Definition node_package (path : string) : bool :=
  list_in path ["/package.json"; "/Makefile"].

End Fixtures.

(* ===================================================================== *)
(** ** Properties as the design notes word them *)
(* ===================================================================== *)

Module Stated.

Import Utils Core.

(** "Only if the fetch returns a non-empty result, back up any
    pre-existing snapshot": a load whose fetch comes back empty leaves
    the backup file as it was. *)
Definition backup_only_after_fetch (env : Env) (force_refresh : bool) (w : World) : Prop :=
  scrape env = Some [] ->
  db_bak_file (snd (load_packages env force_refresh w)) = db_bak_file w.





End Stated.

(* ===================================================================== *)
(** ** Lemmas on dictionaries *)
(* ===================================================================== *)

Section DictFacts.

Context {V : Type}.
Implicit Types (d : dict V) (k : string) (v : V).

Lemma dict_get_In k d v : dict_get k d = Some v -> In (k, v) d.
Proof.
  induction d as [| [k' v'] d IH]; simpl; [discriminate |].
  destruct (k =? k') eqn:E.
  - apply String.eqb_eq in E. intros [= ->]. left. now subst.
  - intros H. right. now apply IH.
Qed.

Lemma dict_get_keys k d : In k (dict_keys d) -> exists v, dict_get k d = Some v.
Proof.
  induction d as [| [k' v'] d IH]; simpl; [tauto |].
  intros [-> | H].
  - rewrite String.eqb_refl. eauto.
  - destruct (k =? k'); eauto.
Qed.

Lemma dict_get_None k d : dict_get k d = None -> ~ In k (dict_keys d).
Proof.
  intros H Hin. apply dict_get_keys in Hin as [v Hv]. congruence.
Qed.

Lemma dict_get_not_In k d : ~ In k (dict_keys d) -> dict_get k d = None.
Proof.
  induction d as [| [k' v'] d IH]; simpl; [reflexivity |].
  intros H. destruct (k =? k') eqn:E.
  - apply String.eqb_eq in E. subst. tauto.
  - apply IH. tauto.
Qed.

Lemma dict_set_fresh k v d : dict_get k d = None -> dict_set k v d = d ++ [(k, v)].
Proof.
  induction d as [| [k' v'] d IH]; simpl; [reflexivity |].
  destruct (k =? k'); [discriminate |].
  intros H. now rewrite IH.
Qed.

Lemma dict_get_set_eq k v d : dict_get k (dict_set k v d) = Some v.
Proof.
  induction d as [| [k' v'] d IH]; simpl.
  - now rewrite String.eqb_refl.
  - destruct (k =? k') eqn:E; simpl; rewrite E; auto.
Qed.

Lemma dict_get_set_neq k k' v d : k' <> k -> dict_get k' (dict_set k v d) = dict_get k' d.
Proof.
  intros Hne. induction d as [| [k0 v0] d IH]; simpl.
  - apply String.eqb_neq in Hne. now rewrite Hne.
  - destruct (k =? k0) eqn:E; simpl.
    + apply String.eqb_eq in E. subst k0.
      apply String.eqb_neq in Hne. now rewrite Hne.
    + destruct (k' =? k0); auto.
Qed.

Lemma dict_keys_set k v d :
  dict_keys (dict_set k v d) =
  if dict_mem k d then dict_keys d else dict_keys d ++ [k].
Proof.
  unfold dict_mem, dict_keys.
  induction d as [| [k' v'] d IH]; simpl; [reflexivity |].
  destruct (k =? k') eqn:E; simpl; [reflexivity |].
  rewrite IH. now destruct (dict_get k d).
Qed.


End DictFacts.

(* ===================================================================== *)
(** ** Stepping through the monad *)
(* ===================================================================== *)

Import Utils Core.

Ltac unfold_monad :=
  unfold bind, ret, raise, lift, get_world, emit, write_db, write_db_bak,
    write_upgrades, chdir, set_stdin, except_interrupt in *.

Ltac break_match :=
  match goal with
  | |- context [match ?x with _ => _ end] =>
      lazymatch x with
      | context [match _ with _ => _ end] => fail
      | _ => destruct x eqn:?
      end
  end.

Lemma bind_ret_step {A B : Type} (m : M A) (k : A -> M B) (w w' : World) (a : A) :
  m w = (Ret a, w') -> bind m k w = k a w'.
Proof. intros H. unfold bind. now rewrite H. Qed.

Lemma bind_raise_step {A B : Type} (m : M A) (k : A -> M B) (w w' : World) (e : exn) :
  m w = (Raise e, w') -> bind m k w = (Raise e, w').
Proof. intros H. unfold bind. now rewrite H. Qed.

(* ===================================================================== *)
(** ** Search *)
(* ===================================================================== *)

(** C10: a query that is one of the category names returns exactly that
    category with its whole package list, whatever the two flags are. *)
Theorem search_packages_category_exact
    (packages : Catalog) (query : string) (case_sensitive by_title_only : bool) :
  In query (dict_keys packages) ->
  exists pkgs,
    dict_get query packages = Some pkgs /\
    In (query, pkgs) packages /\
    search_packages packages query case_sensitive by_title_only = [(query, pkgs)].
Proof.
  intros Hin.
  destruct (dict_get_keys _ _ Hin) as [pkgs Hget].
  exists pkgs. repeat split; auto using dict_get_In.
  unfold search_packages. now rewrite Hget.
Qed.

Lemma search_packages_category_exact_witness :
  In "Calendars" (dict_keys Fixtures.wiki) /\
  exists pkgs,
    dict_get "Calendars" Fixtures.wiki = Some pkgs /\
    In ("Calendars", pkgs) Fixtures.wiki /\
    search_packages Fixtures.wiki "Calendars" false true = [("Calendars", pkgs)].
Proof.
  assert (H : In "Calendars" (dict_keys Fixtures.wiki)) by (simpl; auto).
  split; [exact H |].
  exact (search_packages_category_exact Fixtures.wiki "Calendars" false true H).
Defined.

(* ===================================================================== *)
(** ** The upgrade ledger *)
(* ===================================================================== *)

Lemma serializable_dict_set (k : string) (v : pyval) (d : dict pyval) :
  serializable v = true -> serializable (PDict d) = true ->
  serializable (PDict (dict_set k v d)) = true.
Proof.
  intros Hv. simpl. induction d as [| [k' v'] d IH]; simpl.
  - now rewrite Hv.
  - destruct (k =? k'); simpl; intros H; apply andb_true_iff in H as [H1 H2].
    + now rewrite Hv, H2.
    + now rewrite H1, IH.
Qed.

Lemma json_load_serializable (c : content) (doc : pyval) :
  json_load c = Some doc -> serializable doc = true.
Proof.
  destruct c; simpl; [discriminate |].
  destruct (serializable doc0) eqn:E; [now intros [= <-] | discriminate].
Qed.

Lemma serializable_default_entry : serializable default_entry = true.
Proof. reflexivity. Qed.

Lemma serializable_reset_document (root : string) :
  serializable (PDict (reset_document root)) = true.
Proof.
  unfold reset_document. apply serializable_dict_set; reflexivity.
Qed.

(** The shape of the reset document when the root is not the tool's own key. *)
Lemma reset_document_shape (root : string) :
  root <> Consts.MMPM ->
  reset_document root =
  [(Consts.MMPM, PBool false);
   (root, PDict [(Consts.PACKAGES, PList []); (Consts.MAGICMIRROR, PBool false)])].
Proof.
  intros H. unfold reset_document. simpl.
  apply String.eqb_neq in H. now rewrite H.
Qed.

(** C3: a ledger file that does not parse is replaced, in memory and on
    disk, by the reset document; a ledger object without the current root
    gets the default entry appended, in memory and on disk, and every other
    key keeps its value. *)
Theorem get_available_upgrades_repairs (env : Env) (w : World) (c : content) :
  upgrades_file w = Some c ->
  let root := MMPM_MAGICMIRROR_ROOT env in
  let r := get_available_upgrades env w in
  (json_load c = None ->
     fst r = Ret (reset_document root) /\
     upgrades_file (snd r) = Some (Document (PDict (reset_document root))) /\
     dict_get root (reset_document root) = Some default_entry /\
     (root <> Consts.MMPM ->
      reset_document root = [(Consts.MMPM, PBool false); (root, default_entry)])) /\
  (forall d, json_load c = Some (PDict d) -> dict_get root d = None ->
     fst r = Ret (d ++ [(root, default_entry)]) /\
     upgrades_file (snd r) = Some (Document (PDict (d ++ [(root, default_entry)]))) /\
     dict_get root (d ++ [(root, default_entry)]) = Some default_entry /\
     forall k, k <> root -> dict_get k (d ++ [(root, default_entry)]) = dict_get k d).
Proof.
  intros Hfile root r. subst r. split.
  - intros Hload. unfold get_available_upgrades. unfold_monad.
    rewrite Hfile, Hload. unfold json_dump.
    rewrite serializable_reset_document. simpl.
    repeat split.
    + unfold reset_document. apply dict_get_set_eq.
    + intros Hne. now apply reset_document_shape.
  - intros d Hload Hget. unfold get_available_upgrades. unfold_monad.
    rewrite Hfile, Hload. fold root. rewrite Hget. unfold json_dump.
    rewrite serializable_dict_set;
      [| reflexivity | now apply json_load_serializable with (c := c)].
    simpl. rewrite (dict_set_fresh _ _ _ Hget).
    repeat split.
    + rewrite <- (dict_set_fresh _ _ _ Hget). apply dict_get_set_eq.
    + intros k Hk. rewrite <- (dict_set_fresh _ _ _ Hget).
      now apply dict_get_set_neq.
Qed.

Lemma get_available_upgrades_repairs_witness :
  let env := Fixtures.env_of None Fixtures.quiet in
  let w := Fixtures.world_of None (Some (Malformed "{not json")) [] in
  upgrades_file w = Some (Malformed "{not json") /\
  fst (get_available_upgrades env w) =
    Ret [("mmpm", PBool false);
         ("/MM", PDict [("packages", PList []); ("MagicMirror", PBool false)])] /\
  upgrades_file (snd (get_available_upgrades env w)) =
    Some (Document (PDict [("mmpm", PBool false);
                           ("/MM", PDict [("packages", PList []);
                                          ("MagicMirror", PBool false)])])).
Proof.
  intros env w.
  assert (Hfile : upgrades_file w = Some (Malformed "{not json")) by reflexivity.
  split; [exact Hfile |].
  destruct (get_available_upgrades_repairs env w _ Hfile) as [Hreset _].
  destruct (Hreset eq_refl) as (Hret & Hdisk & _ & _).
  split; [exact Hret | exact Hdisk].
Defined.

(* ===================================================================== *)
(** ** The package snapshot *)
(* ===================================================================== *)

(** What [load_external_packages] leaves alone. *)
Lemma load_external_packages_frame (w : World) :
  db_file (snd (load_external_packages w)) = db_file w /\
  db_bak_file (snd (load_external_packages w)) = db_bak_file w /\
  exists external, fst (load_external_packages w) = Ret external.
Proof.
  unfold load_external_packages, warning_msg. unfold_monad.
  repeat break_match; simpl; eauto.
Qed.

(** C1 (amended): every load that finds a non-empty snapshot copies it to
    the backup file before anything else, whatever the fetch gives; a load
    that finds none leaves the backup file alone; the snapshot is
    overwritten exactly by a non-empty fetch result and is untouched when
    the fetch comes back empty or no fetch is made. *)
Theorem load_packages_backup (env : Env) (force_refresh : bool) (w : World) :
  let w' := snd (load_packages env force_refresh w) in
  (nonempty_file (db_file w) = true -> db_bak_file w' = db_file w) /\
  (nonempty_file (db_file w) = false -> db_bak_file w' = db_bak_file w) /\
  (forall packages,
     force_refresh || negb (nonempty_file (db_file w)) = true ->
     scrape env = Some packages -> packages <> [] ->
     db_file w' = Some (dump_catalog packages)) /\
  (scrape env = Some [] \/ force_refresh || negb (nonempty_file (db_file w)) = false ->
   db_file w' = db_file w).
Proof.
  intros w'. subst w'.
  unfold load_packages, retrieve_packages, fatal_msg, error_msg. unfold_monad.
  destruct (nonempty_file (db_file w)) eqn:Hdb;
  destruct force_refresh; simpl;
  destruct (scrape env) as [[| entry packages] |] eqn:Hscrape; simpl;
  repeat match goal with
         | |- context [match db_file w with _ => _ end] => destruct (db_file w) eqn:?
         | |- context [read_catalog ?c] => destruct (read_catalog c) as [[| ? ?] |] eqn:?
         | |- context [nonempty_file (ext_pkgs_file w)] =>
             destruct (nonempty_file (ext_pkgs_file w)) eqn:?
         | |- context [load_external_packages ?x] =>
             let F := fresh "F" in
             pose proof (load_external_packages_frame x) as F;
             destruct (load_external_packages x) as [[? | ?] ?];
             simpl in F; destruct F as (? & ? & ? & ?)
         | _ => progress simpl
         end;
  repeat split; intros; subst; try congruence; try discriminate; auto;
  try (match goal with H : _ \/ _ |- _ => destruct H end; congruence).
Qed.


(** C1: with a snapshot on disk and a fetch that comes back empty, the
    backup file is written all the same. *)
Lemma backup_taken_on_empty_fetch :
  ~ Stated.backup_only_after_fetch
      (Fixtures.env_of (Some []) Fixtures.quiet) true
      (Fixtures.world_of (Some Fixtures.old_snapshot) None []).
Proof.
  intros H. specialize (H eq_refl). vm_compute in H. discriminate H.
Qed.



(* ===================================================================== *)
(** ** Equations of the primitive steps *)
(* ===================================================================== *)

Lemma bind_emit {B : Type} (e : Event) (k : unit -> M B) (w : World) :
  bind (emit e) k w = k tt (add_event e w).
Proof. reflexivity. Qed.

Lemma bind_chdir {B : Type} (path : string) (k : unit -> M B) (w : World) :
  bind (chdir path) k w = k tt (at_dir path w).
Proof. reflexivity. Qed.

Lemma bind_enter {B : Type} (env : Env) (path : string) (k : unit -> M B) (w : World) :
  path_exists env path = true -> bind (enter env path) k w = k tt (at_dir path w).
Proof. intros H. unfold enter. now rewrite H. Qed.


Lemma bind_get_world {B : Type} (k : World -> M B) (w : World) :
  bind get_world k w = k w w.
Proof. reflexivity. Qed.

Lemma bind_ret {A B : Type} (a : A) (k : A -> M B) (w : World) :
  bind (ret a) k w = k a w.
Proof. reflexivity. Qed.


Lemma bind_lift_ret {A B : Type} (a : A) (k : A -> M B) (w : World) :
  bind (lift (Ret a)) k w = k a w.
Proof. reflexivity. Qed.

Lemma bind_bind {A B C : Type} (m : M A) (f : A -> M B) (g : B -> M C) (w : World) :
  bind (bind m f) g w = bind m (fun a => bind (f a) g) w.
Proof. unfold bind. destruct (m w) as [[a | e] w']; reflexivity. Qed.

Lemma bind_error_msg {B : Type} (msg : string) (k : unit -> M B) (w : World) :
  bind (error_msg msg) k w = k tt (add_event (EvError msg) (add_event (EvLogError msg) w)).
Proof. reflexivity. Qed.

Lemma trace_add_event (e : Event) (w : World) : trace (add_event e w) = trace w ++ [e].
Proof. reflexivity. Qed.

Lemma trace_at_dir (path : string) (w : World) : trace (at_dir path w) = trace w.
Proof. reflexivity. Qed.

Lemma cwd_at_dir (path : string) (w : World) : cwd (at_dir path w) = path.
Proof. reflexivity. Qed.

Lemma cwd_add_event (e : Event) (w : World) : cwd (add_event e w) = cwd w.
Proof. reflexivity. Qed.

Ltac mstep :=
  match goal with
  | |- context [bind (bind ?m ?f) ?g ?w] => rewrite (bind_bind m f g w)
  | |- context [bind (emit ?e) ?k ?w] => rewrite (bind_emit e k w)
  | |- context [bind (chdir ?p) ?k ?w] => rewrite (bind_chdir p k w)
  | |- context [bind get_world ?k ?w] => rewrite (bind_get_world k w)
  | |- context [bind (ret ?a) ?k ?w] => rewrite (bind_ret a k w)
  | |- context [bind (lift (Ret ?a)) ?k ?w] => rewrite (bind_lift_ret a k w)
  | |- context [bind (error_msg ?msg) ?k ?w] => rewrite (bind_error_msg msg k w)
  | |- context [trace (add_event ?e ?w)] => rewrite (trace_add_event e w)
  | |- context [trace (at_dir ?p ?w)] => rewrite (trace_at_dir p w)
  | |- context [cwd (at_dir ?p ?w)] => rewrite (cwd_at_dir p w)
  | |- context [cwd (add_event ?e ?w)] => rewrite (cwd_add_event e w)
  end; cbv beta.

Ltac msteps := repeat mstep.

(* ===================================================================== *)
(** ** Prompts, interruption and installation *)
(* ===================================================================== *)

Lemma confirm_all_yes (candidates : list MagicMirrorPackage)
    (slots : list (option MagicMirrorPackage)) (w : World) :
  exists w',
    for_fold candidates (confirm_candidate true) slots w
    = (Ret (slots ++ map Some candidates), w').
Proof.
  revert slots w. induction candidates as [| c cs IH]; intros slots w; simpl.
  - exists w. now rewrite app_nil_r.
  - unfold bind at 1. unfold confirm_candidate at 1, prompt_user. unfold_monad. simpl.
    edestruct (IH (slots ++ [Some c])) as [w' Hw'].
    exists w'. rewrite <- app_assoc in Hw'. exact Hw'.
Qed.

Lemma report_conflicts_returns (package : MagicMirrorPackage)
    (existing_module_dirs : list string) (w : World) :
  exists w',
    report_conflicts package existing_module_dirs w = (Ret tt, w').
Proof.
  unfold report_conflicts. revert w.
  induction existing_module_dirs as [| d ds IH]; intros w; simpl.
  - now exists w.
  - unfold bind at 1.
    destruct (directory package =? d); unfold_monad; simpl; apply IH.
Qed.


(** C2: the modules directory already holds [foo]; the batch [foo; bar] is
    confirmed and every command succeeds.  No conflict is reported, because
    the joined target path is compared with the bare directory names, and
    [foo] is cloned.  Even against a list that holds the full path, the
    conflict is reported and the clone still runs: the [continue] only ends
    the step of the inner loop. *)
Theorem install_conflict_still_clones :
  let env := Fixtures.env_of None Fixtures.quiet in
  let w := Fixtures.world_of None None [] in
  let r := install_packages env [Fixtures.foo; Fixtures.bar] true w in
  let r' := install_candidate env true (Some Fixtures.foo) ["/MM/modules/foo"] w in
  let clone_foo :=
    EvRun ["git"; "clone"; "https://x/foo"; "/MM/modules/foo"] "/MM/modules" in
  get_existing_package_directories env = ["foo"] /\
  fst r = Ret true /\
  trace (snd r) =
    [EvInfo "Changing into MagicMirror modules directory /MM/modules";
     EvPrint "Matched query to packages";
     EvPrint "Install foo (https://x/foo)? [yes/y] or [no/n]: yes";
     EvInfo "User chose to install foo (https://x/foo)";
     EvPrint "Install bar (https://x/bar)? [yes/y] or [no/n]: yes";
     EvInfo "User chose to install bar (https://x/bar)";
     EvPrint "Installing foo";
     EvInfo "Cloning https://x/foo into /MM/modules/foo";
     EvPrint "Cloning foo repository";
     clone_foo;
     EvPrint "GREEN_CHECK_MARK";
     EvPrint "Installing bar";
     EvInfo "Cloning https://x/bar into /MM/modules/bar";
     EvPrint "Cloning bar repository";
     EvRun ["git"; "clone"; "https://x/bar"; "/MM/modules/bar"] "/MM/modules";
     EvPrint "GREEN_CHECK_MARK";
     EvPrint "Run `mmpm open --config` to edit the configuration for newly installed modules"] /\
  fst r' = Ret ["/MM/modules/foo"; "foo"] /\
  trace (snd r') =
    [EvLogError "Conflict encountered. Found a package named foo already at /MM/modules/foo";
     EvError "A module named foo is already installed in /MM/modules/foo. Please remove foo first.";
     EvPrint "Installing foo";
     EvInfo "Cloning https://x/foo into /MM/modules/foo";
     EvPrint "Cloning foo repository";
     clone_foo;
     EvPrint "GREEN_CHECK_MARK"].
Proof.
  vm_compute. repeat split; reflexivity.
Qed.

(* ===================================================================== *)
(** ** Installed packages *)
(* ===================================================================== *)

Section Installed.

Variable env : Env.







(** *** The matching phase *)








End Installed.

(* ===================================================================== *)
(** ** Order of categories and packages *)
(* ===================================================================== *)

Section DictOrder.

Context {V : Type}.

Lemma dict_get_app_fresh (k : string) (v : V) (d : dict V) :
  dict_get k d = None -> dict_get k (d ++ [(k, v)]) = Some v.
Proof.
  intros H. rewrite <- (dict_set_fresh k v d H). apply dict_get_set_eq.
Qed.

Lemma dict_set_app_fresh (k : string) (v v' : V) (d : dict V) :
  dict_get k d = None -> dict_set k v' (d ++ [(k, v)]) = d ++ [(k, v')].
Proof.
  induction d as [| [k0 v0] d IH]; simpl.
  - now rewrite String.eqb_refl.
  - destruct (k =? k0); [discriminate |]. intros H. now rewrite IH.
Qed.

Lemma fold_dict_set_fresh {A : Type} (g : A -> string) (h : A -> V)
    (l : list A) (acc : dict V) :
  NoDup (dict_keys acc ++ map g l) ->
  fold_left (fun acc e => dict_set (g e) (h e) acc) l acc
  = acc ++ map (fun e => (g e, h e)) l.
Proof.
  revert acc. induction l as [| a l IH]; intros acc Hnd; simpl.
  - now rewrite app_nil_r.
  - assert (Hfresh : dict_get (g a) acc = None).
    { apply dict_get_not_In. intros Hin.
      apply NoDup_remove_2 in Hnd. apply Hnd.
      apply in_or_app. now left. }
    rewrite (dict_set_fresh _ _ _ Hfresh).
    rewrite IH.
    + now rewrite <- app_assoc.
    + unfold dict_keys. rewrite map_app. simpl. rewrite <- app_assoc. exact Hnd.
Qed.

End DictOrder.

Lemma search_loop_map (keep : MagicMirrorPackage -> bool) (packages : Catalog) :
  NoDup (dict_keys packages) ->
  search_loop keep packages []
  = map (fun entry => (fst entry, filter keep (snd entry))) packages.
Proof.
  intros Hnd. unfold search_loop.
  now rewrite (fold_dict_set_fresh fst (fun entry => filter keep (snd entry))).
Qed.

Lemma match_category_fresh (packages_found : list MagicMirrorPackage)
    (category : string) (listed : list MagicMirrorPackage) (acc : Catalog)
    (done : list MagicMirrorPackage) :
  dict_get category acc = None ->
  fold_left
    (fun acc package =>
       dict_extend category (installed_entries packages_found package) acc)
    listed (acc ++ [(category, done)])
  = acc ++ [(category, done ++ flat_map (installed_entries packages_found) listed)].
Proof.
  intros Hfresh. revert done.
  induction listed as [| q listed IH]; intros done; simpl.
  - now rewrite app_nil_r.
  - unfold dict_extend at 2. rewrite (dict_get_app_fresh _ _ _ Hfresh).
    rewrite (dict_set_app_fresh _ _ _ _ Hfresh).
    rewrite IH. now rewrite <- app_assoc.
Qed.

Lemma match_catalog_map (packages_found : list MagicMirrorPackage)
    (packages acc : Catalog) :
  NoDup (dict_keys acc ++ dict_keys packages) ->
  match_catalog packages_found packages acc
  = acc ++ map (fun entry =>
                  (fst entry, flat_map (installed_entries packages_found) (snd entry)))
               packages.
Proof.
  unfold match_catalog. revert acc.
  induction packages as [| [category listed] packages IH]; intros acc Hnd; simpl.
  - now rewrite app_nil_r.
  - assert (Hfresh : dict_get category acc = None).
    { apply dict_get_not_In. intros Hin.
      apply NoDup_remove_2 in Hnd. apply Hnd.
      apply in_or_app. now left. }
    unfold dict_setdefault, dict_mem. rewrite Hfresh.
    rewrite (dict_set_fresh _ _ _ Hfresh).
    rewrite (match_category_fresh _ _ _ _ [] Hfresh). cbn [app].
    rewrite IH.
    + now rewrite <- app_assoc.
    + unfold dict_keys in *. rewrite map_app. simpl. rewrite <- app_assoc. exact Hnd.
Qed.

Lemma display_packages_trace (packages : Catalog) (title_only include_path : bool)
    (w : World) :
  fst (display_packages packages title_only include_path w) = Ret tt /\
  trace (snd (display_packages packages title_only include_path w))
  = trace w ++
    map (fun package => EvPrint (package_line title_only include_path package))
        (flat_map snd packages).
Proof.
  unfold display_packages. revert w.
  induction packages as [| [category listed] packages IH]; intros w.
  - simpl. now rewrite app_nil_r.
  - cbn [for_each flat_map snd]. rewrite map_app.
    assert (Hinner : forall w0,
      exists w1,
        for_each listed
          (fun package => emit (EvPrint (package_line title_only include_path package))) w0
        = (Ret tt, w1) /\
        trace w1 = trace w0 ++
          map (fun package => EvPrint (package_line title_only include_path package)) listed).
    { induction listed as [| q listed IHl]; intros w0.
      - exists w0. simpl. now rewrite app_nil_r.
      - cbn [for_each]. rewrite bind_emit.
        destruct (IHl (add_event (EvPrint (package_line title_only include_path q)) w0))
          as (w1 & H1 & H2).
        exists w1. split; [exact H1 |].
        rewrite H2, trace_add_event. now rewrite <- app_assoc. }
    destruct (Hinner w) as (w1 & H1 & H2).
    rewrite (bind_ret_step _ _ _ _ _ H1).
    destruct (IH w1) as [IH1 IH2].
    split; [exact IH1 |].
    rewrite IH2, H2. now rewrite app_assoc.
Qed.

(** C9: a forced load writes the fetched catalog to the snapshot with its
    categories and packages in the order of the fetch, and returns them in
    that order (the external category, when merged, follows them); search,
    the matching of installed packages and display go through the
    categories and their packages in catalog order. *)
Theorem order_is_preserved (env : Env) (w : World) (fetched packages : Catalog) :
  scrape env = Some fetched -> fetched <> [] ->
  NoDup (dict_keys packages) ->
  let r := load_packages env true w in
  (exists document result suffix,
     db_file (snd r) = Some (Document (PDict document)) /\
     dict_keys document = dict_keys fetched /\
     (forall category listed,
        In (category, listed) fetched ->
        In (category, PList (map serialize listed)) document) /\
     fst r = Ret result /\
     dict_keys result = dict_keys fetched ++ suffix /\
     (forall category, category <> Consts.EXTERNAL_PACKAGES ->
                       dict_get category result = dict_get category fetched)) /\
  (forall query case_sensitive by_title_only,
     dict_get query packages = None ->
     exists keep,
       search_packages packages query case_sensitive by_title_only
       = map (fun entry => (fst entry, filter keep (snd entry))) packages) /\
  (forall packages_found,
     match_catalog packages_found packages []
     = map (fun entry =>
              (fst entry, flat_map (installed_entries packages_found) (snd entry)))
           packages) /\
  (forall title_only include_path w0,
     trace (snd (display_packages packages title_only include_path w0))
     = trace w0 ++
       map (fun package => EvPrint (package_line title_only include_path package))
           (flat_map snd packages)).
Proof.
  intros Hscrape Hne Hnd r. subst r. repeat split.
  - exists (map (fun entry => (fst entry, PList (map serialize (snd entry)))) fetched).
    assert (Hkeys : dict_keys (map (fun entry : string * list MagicMirrorPackage =>
                                      (fst entry, PList (map serialize (snd entry)))) fetched)
                    = dict_keys fetched).
    { unfold dict_keys. rewrite map_map. reflexivity. }
    assert (Hdoc : forall category listed,
               In (category, listed) fetched ->
               In (category, PList (map serialize listed))
                  (map (fun entry : string * list MagicMirrorPackage =>
                          (fst entry, PList (map serialize (snd entry)))) fetched)).
    { intros category listed Hin.
      apply (in_map (fun entry : string * list MagicMirrorPackage =>
                       (fst entry, PList (map serialize (snd entry)))) _ _ Hin). }
    unfold load_packages, retrieve_packages. rewrite Hscrape.
    destruct fetched as [| entry fetched']; [congruence |].
    unfold error_msg. unfold_monad.
    destruct (nonempty_file (db_file w)); cbn -[dict_update dict_set dict_get dict_keys
                                                 load_external_packages map];
      (destruct (nonempty_file (ext_pkgs_file w));
       cbn -[dict_update dict_set dict_get dict_keys load_external_packages map];
       [ match goal with
         | |- context [load_external_packages ?x] =>
             assert (E : exists ext, fst (load_external_packages x)
                                     = Ret [(Consts.EXTERNAL_PACKAGES, ext)])
               by (unfold load_external_packages, warning_msg; unfold_monad;
                   repeat break_match; simpl; eauto);
             pose proof (load_external_packages_frame x) as (F & _ & _);
             destruct E as [ext E];
             destruct (load_external_packages x) as [[ext' | e] wx];
             cbn [fst snd] in E, F; [injection E as -> | discriminate E]
         end;
         cbn -[dict_update dict_set dict_get dict_keys map];
         exists (dict_set Consts.EXTERNAL_PACKAGES ext (entry :: fetched')),
           (if dict_mem Consts.EXTERNAL_PACKAGES (entry :: fetched')
            then [] else [Consts.EXTERNAL_PACKAGES]);
         repeat split; auto;
         [ rewrite dict_keys_set;
           destruct (dict_mem Consts.EXTERNAL_PACKAGES (entry :: fetched'));
           [now rewrite app_nil_r | reflexivity]
         | intros category Hc; now apply dict_get_set_neq ]
       | exists (entry :: fetched'), [];
         repeat split; auto; now rewrite app_nil_r ]).
  - intros query case_sensitive by_title_only Hmiss.
    unfold search_packages. rewrite Hmiss.
    destruct by_title_only; [| destruct case_sensitive];
      eexists; apply search_loop_map; exact Hnd.
  - intros packages_found.
    now rewrite (match_catalog_map packages_found packages []).
  - intros title_only include_path w0.
    apply display_packages_trace.
Qed.

Lemma order_is_preserved_witness :
  let env := Fixtures.env_of (Some Fixtures.wiki) Fixtures.quiet in
  let w := Fixtures.world_of None None [] in
  scrape env = Some Fixtures.wiki /\ Fixtures.wiki <> [] /\
  NoDup (dict_keys Fixtures.wiki) /\
  exists document result suffix,
    db_file (snd (load_packages env true w)) = Some (Document (PDict document)) /\
    dict_keys document = ["Clocks"; "Calendars"] /\
    fst (load_packages env true w) = Ret result /\
    dict_keys result = ["Clocks"; "Calendars"] ++ suffix.
Proof.
  intros env w.
  assert (H1 : scrape env = Some Fixtures.wiki) by reflexivity.
  assert (H2 : Fixtures.wiki <> []) by discriminate.
  assert (H3 : NoDup (dict_keys Fixtures.wiki)).
  { repeat constructor; simpl; intuition discriminate. }
  destruct (order_is_preserved env w Fixtures.wiki Fixtures.wiki H1 H2 H3)
    as ((document & result & suffix & Hdb & Hkeys & _ & Hret & Hres & _) & _).
  repeat split; auto.
  exists document, result, suffix. auto.
Defined.

(* ===================================================================== *)
(** ** Update candidates *)
(* ===================================================================== *)




(* ===================================================================== *)
(** ** Upgrades *)
(* ===================================================================== *)

Lemma package_eqb_eq (p q : MagicMirrorPackage) : package_eqb p q = true <-> p = q.
Proof.
  unfold package_eqb. split.
  - intros H. repeat (apply andb_true_iff in H as [H ?]).
    repeat match goal with H : (_ =? _) = true |- _ => apply String.eqb_eq in H end.
    destruct p, q. simpl in *. congruence.
  - intros ->. now rewrite !String.eqb_refl.
Qed.

Lemma list_remove_middle (p : MagicMirrorPackage) (done rest : list MagicMirrorPackage) :
  ~ In p done -> list_remove p (done ++ p :: rest) = Some (done ++ rest).
Proof.
  induction done as [| q done IH]; intros Hnot; simpl.
  - assert (E : package_eqb p p = true) by now apply package_eqb_eq.
    now rewrite E.
  - destruct (package_eqb q p) eqn:E.
    + apply package_eqb_eq in E. subst. exfalso. apply Hnot. now left.
    + rewrite IH; [reflexivity |]. intros H. apply Hnot. now right.
Qed.

Lemma package_objects_map (l : list MagicMirrorPackage) :
  package_objects (map PPkg l) = Ret l.
Proof.
  induction l as [| p l IH]; simpl; [reflexivity |]. now rewrite IH.
Qed.

Lemma upgrade_package_outcome (env : Env) (package : MagicMirrorPackage) (w : World) :
  fst (upgrade_package env package w) = upgrade_outcome env package.
Proof.
  unfold upgrade_package, upgrade_outcome, enter, run_cmd.
  destruct (path_exists env (directory package)); [| reflexivity].
  msteps.
  destruct (run env ["git"; "pull"] (directory package)) as [code out err |];
    [| reflexivity].
  msteps. cbv beta iota.
  destruct (nonzero code); msteps; [reflexivity |].
  destruct (install_dependencies env (directory package)) as [error | e];
    [| reflexivity].
  msteps. destruct (error =? "") eqn:E; cbn [negb]; msteps; [| reflexivity].
  apply String.eqb_eq in E. now subst.
Qed.

Section UpgradeLoop.

Variable env : Env.
Hypothesis no_interrupt : forall argv dir, run env argv dir <> Interrupted.
Hypothesis dependencies_return :
  forall dir, exists error, install_dependencies env dir = Ret error.

Lemma upgrade_outcome_returns (package : MagicMirrorPackage) :
  path_exists env (directory package) = true ->
  exists error, upgrade_outcome env package = Ret error.
Proof.
  intros Hdir. unfold upgrade_outcome. rewrite Hdir.
  destruct (run env ["git"; "pull"] (directory package)) as [code out err |] eqn:E;
    [| now apply no_interrupt in E].
  destruct (nonzero code); eauto.
Qed.

Lemma upgrade_loop (confirmed done : list MagicMirrorPackage) (upgraded : bool)
    (w : World) :
  Forall (fun p => upgrade_reported env p = true) done ->
  Forall (fun p => path_exists env (directory p) = true) confirmed ->
  exists upgraded' w',
    for_fold confirmed (upgrade_confirmed env) (done ++ confirmed, upgraded) w
    = (Ret (done ++ filter (upgrade_reported env) confirmed, upgraded'), w').
Proof.
  revert done upgraded w.
  induction confirmed as [| p confirmed IH]; intros done upgraded w Hdone Hdirs.
  - exists upgraded, w. reflexivity.
  - inversion Hdirs as [| ? ? Hdir Hdirs']; subst.
    cbn [for_fold filter]. unfold upgrade_confirmed at 1.
    rewrite bind_bind.
    pose proof (upgrade_package_outcome env p w) as Hout.
    destruct (upgrade_outcome_returns p Hdir) as [error Herr].
    unfold bind at 1.
    destruct (upgrade_package env p w) as [res w1]. cbn [fst] in Hout. subst res.
    rewrite Herr.
    assert (Hf : upgrade_reported env p = negb (error =? ""))
      by (unfold upgrade_reported; now rewrite Herr).
    rewrite Hf.
    destruct (error =? "") eqn:E; cbn [negb fst].
    + rewrite (list_remove_middle p done confirmed).
      * rewrite bind_ret. apply IH; assumption.
      * intros Hin. rewrite Forall_forall in Hdone. apply Hdone in Hin.
        unfold upgrade_reported in Hin. rewrite Herr, E in Hin. discriminate Hin.
    + rewrite bind_bind, bind_error_msg, bind_ret.
      replace (done ++ p :: confirmed) with ((done ++ [p]) ++ confirmed)
        by now rewrite <- app_assoc.
      replace (done ++ p :: filter (upgrade_reported env) confirmed)
        with ((done ++ [p]) ++ filter (upgrade_reported env) confirmed)
        by now rewrite <- app_assoc.
      apply IH; [| exact Hdirs']. apply Forall_app. split; [exact Hdone |].
      constructor; [| constructor].
      unfold upgrade_reported. now rewrite Herr, E.
Qed.

Lemma confirm_all_upgrades (pending confirmed : list MagicMirrorPackage) (w : World) :
  exists w',
    for_fold pending (confirm_upgrade true) confirmed w
    = (Ret (confirmed ++ pending), w').
Proof.
  revert confirmed w.
  induction pending as [| p pending IH]; intros confirmed w; cbn [for_fold].
  - exists w. now rewrite app_nil_r.
  - unfold confirm_upgrade at 1, prompt_user. rewrite !bind_bind, bind_emit.
    rewrite !bind_ret.
    destruct (IH (confirmed ++ [p])
                (add_event (EvPrint (("Upgrade " ++ title p ++ " (" ++ repository p
                                      ++ ") now?") ++ " [yes/y] or [no/n]: yes")) w))
      as [w' Hw'].
    exists w'. rewrite Hw'. now rewrite <- app_assoc.
Qed.

Lemma upgrade_mmpm_returns (w : World) :
  path_exists env "/tmp" = true ->
  exists error w', upgrade_mmpm env w = (Ret error, w').
Proof.
  intros Htmp. unfold upgrade_mmpm, enter, clone, run_cmd. rewrite Htmp. msteps.
  match goal with
  | |- context [run env ?argv ?dir] =>
      destruct (run env argv dir) as [code out err |] eqn:E;
      [| now apply no_interrupt in E]
  end.
  msteps. cbv beta iota.
  destruct (nonzero code); msteps; do 2 eexists; reflexivity.
Qed.

Lemma upgrade_magicmirror_returns (w : World) :
  path_exists env (MMPM_MAGICMIRROR_ROOT env) = true ->
  exists error w', upgrade_magicmirror env w = (Ret error, w').
Proof.
  intros Hroot. unfold upgrade_magicmirror, enter, run_cmd. rewrite Hroot. msteps.
  match goal with
  | |- context [run env ?argv ?dir] =>
      destruct (run env argv dir) as [code out err |] eqn:E;
      [| now apply no_interrupt in E]
  end.
  msteps. cbv beta iota.
  destruct (nonzero code); msteps; [do 2 eexists; reflexivity |].
  destruct (dependencies_return (MMPM_MAGICMIRROR_ROOT env)) as [error ->].
  msteps. destruct (error =? ""); cbn [negb]; msteps; do 2 eexists; reflexivity.
Qed.


(** *** Writing the ledger back *)

Lemma dict_set_set {V : Type} (k : string) (v v' : V) (d : dict V) :
  dict_set k v (dict_set k v' d) = dict_set k v d.
Proof.
  induction d as [| [k0 v0] d IH]; simpl.
  - now rewrite String.eqb_refl.
  - destruct (k =? k0) eqn:E; simpl; rewrite E; [reflexivity | now rewrite IH].
Qed.

Lemma others_serializable_of (k : string) (d : dict pyval) :
  serializable (PDict d) = true -> others_serializable k d = true.
Proof. intros H. unfold others_serializable. now apply serializable_dict_set. Qed.

Lemma serializable_set_others (k : string) (v : pyval) (d : dict pyval) :
  others_serializable k d = true -> serializable v = true ->
  serializable (PDict (dict_set k v d)) = true.
Proof.
  unfold others_serializable. intros Hd Hv.
  rewrite <- (dict_set_set k v PNull d). now apply serializable_dict_set.
Qed.

Lemma others_serializable_set_same (k : string) (v : pyval) (d : dict pyval) :
  others_serializable k d = true -> others_serializable k (dict_set k v d) = true.
Proof. unfold others_serializable. now rewrite dict_set_set. Qed.

Lemma others_serializable_set_other (k k' : string) (v : pyval) (d : dict pyval) :
  k <> k' -> serializable v = true ->
  others_serializable k d = true -> others_serializable k (dict_set k' v d) = true.
Proof.
  unfold others_serializable. intros Hne Hv.
  induction d as [| [k0 v0] d IH]; cbn -[String.eqb].
  - apply String.eqb_neq in Hne. rewrite Hne. cbn. now rewrite Hv.
  - destruct (k' =? k0) eqn:E'; destruct (k =? k0) eqn:E; cbn -[String.eqb]; rewrite ?E.
    + apply String.eqb_eq in E, E'. congruence.
    + cbn. intros H. apply andb_true_iff in H as [_ H]. now rewrite Hv.
    + cbn. intros H. now apply (serializable_dict_set k' v d Hv).
    + cbn. intros H. apply andb_true_iff in H as [H1 H2].
      rewrite H1. now apply IH.
Qed.

Lemma serializable_serialize_full (l : list MagicMirrorPackage) :
  serializable (PList (map serialize_full l)) = true.
Proof. simpl. induction l as [| p l IH]; simpl; auto. Qed.


Lemma serializable_get (k : string) (v : pyval) (d : dict pyval) :
  serializable (PDict d) = true -> dict_get k d = Some v -> serializable v = true.
Proof.
  simpl. induction d as [| [k0 v0] d IH]; simpl; [discriminate |].
  intros H. apply andb_true_iff in H as [H1 H2].
  destruct (k =? k0); [now intros [= <-] | now apply IH].
Qed.

Lemma packages_neq_magicmirror : Consts.PACKAGES <> Consts.MAGICMIRROR.
Proof. discriminate. Qed.

Lemma ledger_state_init (root : string) (d entry : dict pyval)
    (pending pending' : list MagicMirrorPackage) :
  serializable (PDict d) = true ->
  dict_get root d = Some (PDict entry) ->
  exists upgrades,
    set_nested root Consts.PACKAGES (PList (map PPkg pending'))
      (dict_set root
         (PDict (dict_set Consts.PACKAGES (PList (map PPkg pending)) entry)) d)
    = Ret upgrades /\
    ledger_state root d pending' upgrades.
Proof.
  intros Hd Hentry. unfold set_nested.
  rewrite dict_get_set_eq, !dict_set_set.
  eexists. split; [reflexivity |].
  exists (dict_set Consts.PACKAGES (PList (map PPkg pending')) entry).
  repeat split.
  - apply dict_get_set_eq.
  - apply dict_get_set_eq.
  - apply others_serializable_set_same. now apply others_serializable_of.
  - apply others_serializable_set_same. apply others_serializable_of.
    exact (serializable_get root (PDict entry) d Hd Hentry).
  - intros k Hk _. now apply dict_get_set_neq.
Qed.

Lemma ledger_state_mmpm (root : string) (d upgrades : dict pyval)
    (pending : list MagicMirrorPackage) :
  root <> Consts.MMPM ->
  ledger_state root d pending upgrades ->
  ledger_state root d pending (dict_set Consts.MMPM (PBool false) upgrades).
Proof.
  intros Hne (entry & H1 & H2 & H3 & H4 & H5).
  exists entry. repeat split; auto.
  - rewrite dict_get_set_neq; auto.
  - apply others_serializable_set_other; auto.
  - intros k Hk Hm. rewrite dict_get_set_neq; auto.
Qed.

Lemma ledger_state_flag (root : string) (d upgrades : dict pyval)
    (pending : list MagicMirrorPackage) :
  ledger_state root d pending upgrades ->
  exists upgrades',
    set_nested root Consts.MAGICMIRROR (PBool false) upgrades = Ret upgrades' /\
    ledger_state root d pending upgrades'.
Proof.
  intros (entry & H1 & H2 & H3 & H4 & H5).
  unfold set_nested. rewrite H1. eexists. split; [reflexivity |].
  exists (dict_set Consts.MAGICMIRROR (PBool false) entry). repeat split.
  - apply dict_get_set_eq.
  - rewrite dict_get_set_neq; [exact H2 | exact packages_neq_magicmirror].
  - now apply others_serializable_set_same.
  - apply others_serializable_set_other; auto. exact packages_neq_magicmirror.
  - intros k Hk Hm. rewrite dict_get_set_neq; auto.
Qed.

Lemma persist_upgrades_spec (d upgrades : dict pyval)
    (pending : list MagicMirrorPackage) (upgraded : bool) (w : World) :
  ledger_state (MMPM_MAGICMIRROR_ROOT env) d pending upgrades ->
  exists w' d' entry',
    persist_upgrades env upgrades upgraded w = (Ret true, w') /\
    upgrades_file w' = Some (Document (PDict d')) /\
    dict_get (MMPM_MAGICMIRROR_ROOT env) d' = Some (PDict entry') /\
    dict_get Consts.PACKAGES entry' = Some (PList (map serialize_full pending)) /\
    forall k, k <> MMPM_MAGICMIRROR_ROOT env -> k <> Consts.MMPM ->
              dict_get k d' = dict_get k d.
Proof.
  intros (entry & H1 & H2 & H3 & H4 & H5).
  unfold persist_upgrades, subscript, set_nested, pending_packages, json_dump.
  rewrite H1. rewrite bind_lift_ret. rewrite H2. rewrite bind_lift_ret.
  rewrite package_objects_map. rewrite bind_lift_ret.
  rewrite bind_lift_ret.
  rewrite serializable_set_others;
    [| exact H3
     | apply (serializable_set_others Consts.PACKAGES _ entry H4),
         serializable_serialize_full ].
  unfold write_upgrades at 1. unfold bind at 1. cbv beta iota.
  rewrite bind_lift_ret.
  unfold write_upgrades at 1. unfold bind at 1. cbv beta iota.
  destruct (upgraded && is_magicmirror_running env); msteps;
    (do 3 eexists; split; [reflexivity |]; split; [reflexivity |];
     split; [apply dict_get_set_eq |]; split; [apply dict_get_set_eq |];
     intros k Hk Hm; rewrite dict_get_set_neq; auto).
Qed.


Lemma get_available_upgrades_valid (w : World) (c : content) (d entry : dict pyval)
    (v : pyval) (pending : list MagicMirrorPackage) :
  upgrades_file w = Some c -> json_load c = Some (PDict d) ->
  dict_get (MMPM_MAGICMIRROR_ROOT env) d = Some (PDict entry) ->
  dict_get Consts.PACKAGES entry = Some v ->
  list_of_dict_to_list_of_magicmirror_packages v = Ret pending ->
  get_available_upgrades env w
  = (Ret (dict_set (MMPM_MAGICMIRROR_ROOT env)
            (PDict (dict_set Consts.PACKAGES (PList (map PPkg pending)) entry)) d), w).
Proof.
  intros Hfile Hload Hentry Hv Hpending.
  unfold get_available_upgrades. rewrite bind_get_world, Hfile, Hload, Hentry, Hv, Hpending.
  now rewrite bind_lift_ret.
Qed.

(** X20: what [upgrade_available] keeps.  With every prompt assumed
    answered yes and no selection, on a readable ledger, when no command
    is interrupted, the dependency step returns and the directories it
    enters exist ([/tmp], the root and those of the pending packages),
    the ledger written at the end holds, for the current root, exactly
    the pending packages for which [upgrade_package] returned a
    non-empty message, in their order; the entries of the other roots
    are unchanged. *)
Theorem upgrade_available_keeps_reported (w : World) (c : content) (d entry : dict pyval)
    (v mmpm_flag magicmirror_flag : pyval) (pending : list MagicMirrorPackage) :
  let root := MMPM_MAGICMIRROR_ROOT env in
  root <> Consts.MMPM ->
  path_exists env root = true -> path_exists env "/tmp" = true ->
  Forall (fun p => path_exists env (directory p) = true) pending ->
  upgrades_file w = Some c -> json_load c = Some (PDict d) ->
  dict_get root d = Some (PDict entry) ->
  dict_get Consts.PACKAGES entry = Some v ->
  list_of_dict_to_list_of_magicmirror_packages v = Ret pending ->
  dict_get Consts.MMPM d = Some mmpm_flag ->
  dict_get Consts.MAGICMIRROR entry = Some magicmirror_flag ->
  let r := upgrade_available env true [] w in
  fst r = Ret true /\
  exists d' entry',
    upgrades_file (snd r) = Some (Document (PDict d')) /\
    dict_get root d' = Some (PDict entry') /\
    dict_get Consts.PACKAGES entry'
    = Some (PList (map serialize_full (filter (upgrade_reported env) pending))) /\
    forall k, k <> root -> k <> Consts.MMPM -> dict_get k d' = dict_get k d.
Proof.
  intros root Hroot Hrootdir Htmp Hdirs Hfile Hload Hentry Hv Hpending Hmmpm Hmagic r.
  subst r.
  destruct (upgrade_available env true [] w) as [res wf] eqn:Hrun.
  cbn [fst snd].
  unfold upgrade_available in Hrun. fold root in Hrun.
  rewrite (bind_ret_step _ _ _ _ _
             (get_available_upgrades_valid w c d entry v pending
                Hfile Hload Hentry Hv Hpending)) in Hrun.
  fold root in Hrun.
  set (E := dict_set Consts.PACKAGES (PList (map PPkg pending)) entry) in Hrun.
  set (U := dict_set root (PDict E) d) in Hrun.
  cbn [is_empty negb] in Hrun.
  unfold subscript at 1 in Hrun. unfold U at 1 in Hrun.
  rewrite dict_get_set_eq, bind_lift_ret, bind_lift_ret in Hrun.
  assert (Hmmpm' : subscript (PDict U) Consts.MMPM = Ret mmpm_flag).
  { unfold subscript, U. rewrite dict_get_set_neq, Hmmpm; auto. }
  assert (Hmagic' : subscript (PDict E) Consts.MAGICMIRROR = Ret magicmirror_flag).
  { unfold subscript, E.
    rewrite dict_get_set_neq, Hmagic; auto.
    intros H. symmetry in H. exact (packages_neq_magicmirror H). }
  (* the notice that nothing is pending *)
  match type of Hrun with
  | bind ?m ?k ?x = _ =>
      assert (Hnotice : exists w1, m x = (Ret tt, w1))
  end.
  { destruct (existsb (fun kv : string * pyval => truthy (snd kv)) E);
      [eexists; reflexivity |].
    rewrite Hmmpm', bind_lift_ret.
    destruct (truthy mmpm_flag); cbn [negb]; eexists; reflexivity. }
  destruct Hnotice as [w1 Hnotice].
  rewrite (bind_ret_step _ _ _ _ _ Hnotice) in Hrun. clear Hnotice.
  unfold subscript at 1 in Hrun. unfold E at 1 in Hrun.
  rewrite dict_get_set_eq, bind_lift_ret in Hrun.
  unfold pending_packages in Hrun.
  rewrite package_objects_map, bind_lift_ret in Hrun.
  (* every pending package is confirmed *)
  match type of Hrun with
  | bind ?m ?k ?x = _ =>
      assert (Hchosen : exists w2, m x = (Ret (pending, false, false), w2))
  end.
  { destruct pending as [| p pending']; cbn [truthy map].
    - eexists; reflexivity.
    - destruct (confirm_all_upgrades (p :: pending') [] w1) as [w2 Hw2].
      rewrite (bind_ret_step _ _ _ _ _ Hw2). eexists; reflexivity. }
  destruct Hchosen as [w2 Hchosen].
  rewrite (bind_ret_step _ _ _ _ _ Hchosen) in Hrun. clear Hchosen.
  cbv beta iota in Hrun.
  rewrite Hmagic', bind_lift_ret, andb_false_r in Hrun. cbn [orb] in Hrun.
  unfold prompt_user at 1 in Hrun. rewrite bind_bind, bind_emit, bind_ret in Hrun.
  rewrite Hmmpm', bind_lift_ret, andb_false_r in Hrun. cbn [orb] in Hrun.
  unfold prompt_user at 1 in Hrun. rewrite bind_bind, bind_emit, bind_ret in Hrun.
  (* the batch *)
  match type of Hrun with
  | bind (for_fold pending _ _) ?k ?x = _ =>
      destruct (upgrade_loop pending [] false x (Forall_nil _) Hdirs)
        as (upgraded & w3 & Hloop)
  end.
  cbn [app] in Hloop.
  rewrite (bind_ret_step _ _ _ _ _ Hloop) in Hrun. clear Hloop.
  cbn [fst snd] in Hrun.
  destruct (ledger_state_init root d entry pending
              (filter (upgrade_reported env) pending)
              (json_load_serializable c (PDict d) Hload) Hentry)
    as (U1 & HU1 & Hstate1).
  fold E in HU1. fold U in HU1.
  rewrite HU1, bind_lift_ret in Hrun. clear HU1.
  (* the tool itself *)
  match type of Hrun with
  | bind ?m ?k ?x = _ =>
      assert (Htool : exists st w4,
                 m x = (Ret st, w4) /\
                 ledger_state root d (filter (upgrade_reported env) pending) (fst st))
  end.
  { destruct (upgrade_mmpm_returns w3 Htmp) as (error & w4 & Herror).
    rewrite (bind_ret_step _ _ _ _ _ Herror).
    destruct (error =? ""); cbn [negb].
    - do 2 eexists. split; [reflexivity |].
      cbn [fst]. now apply ledger_state_mmpm.
    - rewrite bind_error_msg. do 2 eexists. split; [reflexivity | exact Hstate1]. }
  destruct Htool as (st & w4 & Htool & Hstate2).
  rewrite (bind_ret_step _ _ _ _ _ Htool) in Hrun. clear Htool.
  (* the application *)
  match type of Hrun with
  | bind ?m ?k ?x = _ =>
      assert (Happ : exists st' w5,
                 m x = (Ret st', w5) /\
                 ledger_state root d (filter (upgrade_reported env) pending) (fst st'))
  end.
  { destruct (upgrade_magicmirror_returns w4 Hrootdir) as (error & w5 & Herror).
    rewrite (bind_ret_step _ _ _ _ _ Herror).
    destruct (error =? ""); cbn [negb].
    - destruct (ledger_state_flag root d (fst st) _ Hstate2) as (U2 & HU2 & Hstate3).
      rewrite HU2, bind_lift_ret.
      do 2 eexists. split; [reflexivity | exact Hstate3].
    - rewrite bind_error_msg. do 2 eexists. split; [reflexivity | exact Hstate2]. }
  destruct Happ as (st' & w5 & Happ & Hstate3).
  rewrite (bind_ret_step _ _ _ _ _ Happ) in Hrun. clear Happ.
  destruct (persist_upgrades_spec d (fst st') _ (snd st') w5 Hstate3)
    as (w6 & d' & entry' & Hpersist & Hdisk & Hd' & Hentry' & Hframe).
  rewrite Hpersist in Hrun. injection Hrun as <- <-.
  split; [reflexivity |].
  exists d', entry'. auto.
Qed.

End UpgradeLoop.

Lemma upgrade_available_keeps_reported_witness :
  let env := Fixtures.env_of None Fixtures.pull_fails_for_bar in
  let w := Fixtures.world_of None (Some (Document (PDict Fixtures.pending_ledger))) [] in
  let r := upgrade_available env true [] w in
  (forall argv dir, run env argv dir <> Interrupted) /\
  (forall dir, exists error, install_dependencies env dir = Ret error) /\
  fst r = Ret true /\
  exists d' entry',
    upgrades_file (snd r) = Some (Document (PDict d')) /\
    dict_get "/MM" d' = Some (PDict entry') /\
    dict_get "packages" entry'
    = Some (PList [serialize_full (Fixtures.installed Fixtures.bar)]) /\
    dict_get "/other" d' = Some default_entry.
Proof.
  intros env w r. subst r.
  assert (H1 : forall argv dir, run env argv dir <> Interrupted).
  { intros argv dir. unfold env, Fixtures.env_of, run, Fixtures.pull_fails_for_bar.
    destruct (dir =? "/MM/modules/bar"); discriminate. }
  assert (H2 : forall dir, exists error, install_dependencies env dir = Ret error).
  { intros dir. exists "". reflexivity. }
  assert (H3 : MMPM_MAGICMIRROR_ROOT env <> Consts.MMPM) by discriminate.
  assert (H4 : Forall (fun p => path_exists env (directory p) = true)
                 [Fixtures.installed Fixtures.foo; Fixtures.installed Fixtures.bar;
                  Fixtures.installed Fixtures.baz]) by (repeat constructor).
  assert (Hfilter : filter (upgrade_reported env)
                      [Fixtures.installed Fixtures.foo; Fixtures.installed Fixtures.bar;
                       Fixtures.installed Fixtures.baz]
                    = [Fixtures.installed Fixtures.bar]) by (vm_compute; reflexivity).
  pose proof (upgrade_available_keeps_reported env H1 H2 w
              (Document (PDict Fixtures.pending_ledger))
              Fixtures.pending_ledger Fixtures.pending_entry
              (PList [serialize_full (Fixtures.installed Fixtures.foo);
                      serialize_full (Fixtures.installed Fixtures.bar);
                      serialize_full (Fixtures.installed Fixtures.baz)])
              (PBool false) (PBool false)
              [Fixtures.installed Fixtures.foo; Fixtures.installed Fixtures.bar;
               Fixtures.installed Fixtures.baz]
              H3 eq_refl eq_refl H4
              eq_refl eq_refl eq_refl eq_refl eq_refl eq_refl eq_refl) as H.
  cbv zeta in H.
  destruct H as (Hret & d' & entry' & Hdisk & Hentry & Hpending & Hframe).
  rewrite Hfilter in Hpending.
  split; [exact H1 |]. split; [exact H2 |]. split; [exact Hret |].
  exists d', entry'.
  split; [exact Hdisk |]. split; [exact Hentry |]. split; [exact Hpending |].
  rewrite Hframe; [reflexivity | discriminate | discriminate].
Defined.

(** C4: three pending packages, all confirmed; the pull of the second one
    ends with status 1, so its upgrade fails.  When git writes an error
    text, the second package stays in the pending list and the other two
    leave it, as the claim has it.  When the pull fails without writing
    to its standard error, [upgrade_package] returns the empty message:
    the failure is reported on the screen, taken for a success by
    [upgrade_available], and the package is removed from the pending
    list although its upgrade failed. *)
Theorem upgrade_drops_silent_failure :
  let w := Fixtures.world_of None (Some (Document (PDict Fixtures.pending_ledger))) [] in
  let loud := upgrade_available (Fixtures.env_of None Fixtures.pull_fails_for_bar) true [] w in
  let mute :=
    upgrade_available (Fixtures.env_of None Fixtures.pull_fails_silently_for_bar) true [] w in
  upgrade_fails (Fixtures.env_of None Fixtures.pull_fails_for_bar)
                (Fixtures.installed Fixtures.bar) = true /\
  fst loud = Ret true /\
  Ledger.pending_on_disk "/MM" (snd loud)
  = Some (PList [serialize_full (Fixtures.installed Fixtures.bar)]) /\
  upgrade_fails (Fixtures.env_of None Fixtures.pull_fails_silently_for_bar)
                (Fixtures.installed Fixtures.bar) = true /\
  fst mute = Ret true /\
  Ledger.shown_error "Failed to upgrade MagicMirror" (snd mute) = true /\
  Ledger.pending_on_disk "/MM" (snd mute) = Some (PList []).
Proof.
  vm_compute. repeat split; reflexivity.
Qed.


(* ===================================================================== *)
(** ** Search: what is found *)
(* ===================================================================== *)

Import Inputs Candidates.

Lemma dict_get_map {A B : Type} (f : A -> B) (k : string) (d : dict A) :
  dict_get k (map (fun entry => (fst entry, f (snd entry))) d)
  = option_map f (dict_get k d).
Proof.
  induction d as [| [k0 v0] d IH]; simpl; [reflexivity |].
  now destruct (k =? k0).
Qed.

(** Off the category branch, the search filters every category. *)
Lemma search_packages_filter (packages : Catalog) (query : string)
    (case_sensitive by_title_only : bool) :
  NoDup (dict_keys packages) ->
  dict_get query packages = None ->
  search_packages packages query case_sensitive by_title_only
  = map (fun entry =>
           (fst entry,
            filter (search_predicate query case_sensitive by_title_only) (snd entry)))
        packages.
Proof.
  intros Hnd Hmiss. unfold search_packages, search_predicate. rewrite Hmiss.
  destruct by_title_only; [| destruct case_sensitive];
    now apply search_loop_map.
Qed.

Lemma filtered_entries (keep : MagicMirrorPackage -> bool) (packages : Catalog)
    (category : string) (p : MagicMirrorPackage) :
  (exists pkgs,
      dict_get category (map (fun entry => (fst entry, filter keep (snd entry))) packages)
      = Some pkgs /\ In p pkgs) <->
  (exists listed, dict_get category packages = Some listed /\ In p listed /\
                  keep p = true).
Proof.
  rewrite dict_get_map.
  destruct (dict_get category packages) as [listed |]; simpl.
  - split.
    + intros (pkgs & [= <-] & Hin). apply filter_In in Hin as [Hin Hkeep].
      exists listed. auto.
    + intros (listed' & [= <-] & Hin & Hkeep).
      eexists. split; [reflexivity |]. apply filter_In. auto.
  - split; intros (x & Hx & _); discriminate Hx.
Qed.

(** X1: for a query that is not a category name, the result has the
    categories of the catalog, and a package is listed under a category
    exactly when the catalog lists it there and it matches the query in
    the mode asked for. *)
Theorem search_packages_exact (packages : Catalog) (query : string)
    (case_sensitive by_title_only : bool) :
  NoDup (dict_keys packages) ->
  dict_get query packages = None ->
  let found := search_packages packages query case_sensitive by_title_only in
  dict_keys found = dict_keys packages /\
  forall category p,
    (exists pkgs, dict_get category found = Some pkgs /\ In p pkgs) <->
    (exists listed, dict_get category packages = Some listed /\ In p listed /\
                    search_predicate query case_sensitive by_title_only p = true).
Proof.
  intros Hnd Hmiss found. subst found.
  rewrite (search_packages_filter packages query case_sensitive by_title_only Hnd Hmiss).
  split.
  - unfold dict_keys. now rewrite map_map.
  - intros category p. apply filtered_entries.
Qed.

Lemma witness_wiki_keys : NoDup (dict_keys Fixtures.wiki).
Proof. repeat constructor; simpl; intuition discriminate. Qed.

Lemma search_packages_exact_witness :
  NoDup (dict_keys Fixtures.wiki) /\
  dict_get "CAL" Fixtures.wiki = None /\
  dict_keys (search_packages Fixtures.wiki "CAL" false false) = ["Clocks"; "Calendars"] /\
  exists pkgs,
    dict_get "Calendars" (search_packages Fixtures.wiki "CAL" false false) = Some pkgs /\
    In Fixtures.bar pkgs.
Proof.
  destruct (search_packages_exact Fixtures.wiki "CAL" false false
              witness_wiki_keys eq_refl) as [Hkeys Hiff].
  split; [exact witness_wiki_keys |]. split; [reflexivity |]. split; [exact Hkeys |].
  apply Hiff. exists [Fixtures.bar; Fixtures.baz].
  split; [reflexivity |]. split; [simpl; auto | vm_compute; reflexivity].
Defined.

Lemma prefix_lower (a b : string) :
  String.prefix a b = true -> String.prefix (lower a) (lower b) = true.
Proof.
  revert b. induction a as [| c a IH]; intros b; [now destruct b |].
  destruct b as [| c' b]; simpl; [discriminate |].
  destruct (ascii_dec c c') as [-> | Hne]; [| discriminate].
  intros H. destruct (ascii_dec (lower_char c') (lower_char c')); [auto | congruence].
Qed.

Lemma str_in_lower (needle s : string) :
  str_in needle s = true -> str_in (lower needle) (lower s) = true.
Proof.
  induction s as [| c s IH]; cbn [str_in]; intros H.
  - rewrite orb_false_r in H. apply prefix_lower in H.
    cbn [lower str_in] in *. now rewrite H.
  - apply orb_true_iff in H as [H | H].
    + apply prefix_lower in H. cbn [lower str_in] in *. now rewrite H.
    + cbn [lower str_in]. rewrite (IH H). apply orb_true_r.
Qed.

(** X2: on ASCII text, for a query that is not a category name,
    whatever the case-sensitive search lists, the default
    case-insensitive search lists under the same category.  The query
    and the titles, authors and descriptions of the catalog are taken to
    be ASCII, where [str.lower] is the [lower] of this embedding; the
    lowering of other scripts need not keep a match. *)
Theorem case_sensitive_hits_are_insensitive_hits (packages : Catalog) (query : string) :
  ascii_text query = true -> ascii_catalog packages ->
  NoDup (dict_keys packages) ->
  dict_get query packages = None ->
  forall category pkgs p,
    dict_get category (search_packages packages query true false) = Some pkgs ->
    In p pkgs ->
    exists pkgs',
      dict_get category (search_packages packages query false false) = Some pkgs' /\
      In p pkgs'.
Proof.
  intros _ _ Hnd Hmiss category pkgs p Hget Hin.
  rewrite (search_packages_filter packages query true false Hnd Hmiss) in Hget.
  rewrite (search_packages_filter packages query false false Hnd Hmiss).
  apply filtered_entries.
  destruct (proj1 (filtered_entries _ packages category p)
              (ex_intro _ pkgs (conj Hget Hin)))
    as (listed & Hlisted & Hp & Hkeep).
  exists listed. repeat split; auto.
  unfold search_predicate, match_case_sensitive in Hkeep.
  unfold search_predicate, match_lower.
  apply orb_true_iff in Hkeep as [Hkeep | Hkeep];
    [apply orb_true_iff in Hkeep as [Hkeep | Hkeep] |];
    apply str_in_lower in Hkeep; rewrite Hkeep;
    rewrite ?orb_true_r, ?orb_true_l; reflexivity.
Qed.

Lemma case_sensitive_hits_are_insensitive_hits_witness :
  ascii_text "cal" = true /\ ascii_catalog Fixtures.wiki /\
  NoDup (dict_keys Fixtures.wiki) /\
  dict_get "cal" Fixtures.wiki = None /\
  exists pkgs',
    dict_get "Calendars" (search_packages Fixtures.wiki "cal" false false) = Some pkgs' /\
    In Fixtures.bar pkgs'.
Proof.
  assert (Hcatalog : ascii_catalog Fixtures.wiki) by (repeat constructor).
  split; [reflexivity |]. split; [exact Hcatalog |].
  split; [exact witness_wiki_keys |]. split; [reflexivity |].
  apply (case_sensitive_hits_are_insensitive_hits Fixtures.wiki "cal"
           eq_refl Hcatalog witness_wiki_keys eq_refl
           "Calendars" [Fixtures.bar] Fixtures.bar).
  - vm_compute. reflexivity.
  - simpl. auto.
Defined.

(* ===================================================================== *)
(** ** Names and terminal input *)
(* ===================================================================== *)

Lemma prefix_slash (s : string) :
  String.prefix "/" s = match s with String "/"%char _ => true | _ => false end.
Proof.
  destruct s as [| c s]; [reflexivity |]. simpl.
  destruct (ascii_dec "/"%char c) as [<- | Hne].
  - now destruct s.
  - destruct c as [[] [] [] [] [] [] [] []]; try reflexivity. now elim Hne.
Qed.

(** X3: a sanitised name holds no slash; sanitising is idempotent and
    leaves a name without slash as it is. *)
Theorem sanitize_name_no_separator (orig_name : string) :
  str_in "/" (sanitize_name orig_name) = false /\
  sanitize_name (sanitize_name orig_name) = sanitize_name orig_name /\
  (str_in "/" orig_name = false -> sanitize_name orig_name = orig_name).
Proof.
  induction orig_name as [| c s (IH1 & IH2 & IH3)]; [repeat split |].
  cbn [sanitize_name].
  destruct (Ascii.eqb c "/"%char) eqn:E.
  - repeat split; auto.
    intros H. cbn [str_in] in H. rewrite prefix_slash in H.
    apply Ascii.eqb_eq in E. subst c. discriminate H.
  - assert (Hc : String.prefix "/" (String c (sanitize_name s)) = false).
    { rewrite prefix_slash. apply Ascii.eqb_neq in E.
      destruct c as [[] [] [] [] [] [] [] []]; try reflexivity. now elim E. }
    repeat split.
    + cbn [str_in]. now rewrite Hc, IH1.
    + cbn [sanitize_name]. now rewrite E, IH2.
    + intros H. cbn [str_in] in H. apply orb_false_iff in H as [_ H].
      now rewrite (IH3 H).
Qed.

Lemma prompt_loop_skips (user_prompt : string) (invalid : list string)
    (answer : string) (rest : list Input) (w : World) :
  Forall (fun response => understood response = false) invalid ->
  understood answer = true ->
  exists w',
    prompt_loop user_prompt (map Line invalid ++ Line answer :: rest) w
    = (Ret (list_in answer valid_ack), w') /\
    stdin w' = rest /\
    trace w' = trace w
               ++ flat_map (fun _ => [EvPrint user_prompt;
                                      EvWarning "Respond with [yes/y] or [no/n]"]) invalid
               ++ [EvPrint user_prompt].
Proof.
  intros Hinvalid Hanswer. revert w.
  induction Hinvalid as [| response invalid Hresponse _ IH]; intros w.
  - cbn [map app prompt_loop flat_map].
    unfold understood in Hanswer.
    rewrite bind_emit. unfold set_stdin, bind.
    destruct (list_in answer valid_ack) eqn:Hack.
    + eexists. split; [reflexivity |]. split; reflexivity.
    + cbn [orb] in Hanswer. rewrite Hanswer.
      eexists. split; [reflexivity |]. split; reflexivity.
  - cbn [map app prompt_loop flat_map].
    unfold understood in Hresponse. apply orb_false_iff in Hresponse as [Hack Hnack].
    rewrite bind_emit. unfold set_stdin at 1. unfold bind at 1. cbv beta iota.
    rewrite Hack, Hnack. unfold warning_msg. rewrite bind_emit.
    match goal with
    | |- exists _, prompt_loop _ _ ?x = _ /\ _ => destruct (IH x) as (w' & Hrun & Hin & Htrace)
    end.
    exists w'. split; [exact Hrun |]. split; [exact Hin |].
    rewrite Htrace. cbn [trace add_event emit snd]. cbn [app].
    now rewrite <- !app_assoc.
Qed.

(** X4: [prompt_user] goes through the answers it does not understand,
    warning once for each, until the first [yes]/[y]/[no]/[n]; that answer
    decides the result and the later input is left unread.  With
    [assume_yes] it answers [True] without reading anything. *)
Theorem prompt_user_first_understood (user_prompt : string) (invalid : list string)
    (answer : string) (rest : list Input) (w : World) :
  Forall (fun response => understood response = false) invalid ->
  understood answer = true ->
  stdin w = map Line invalid ++ Line answer :: rest ->
  (fst (prompt_user user_prompt false w) = Ret (list_in answer valid_ack) /\
   stdin (snd (prompt_user user_prompt false w)) = rest /\
   List.length (filter (fun e => match e with EvWarning _ => true | _ => false end)
                       (trace (snd (prompt_user user_prompt false w))))
   = List.length (filter (fun e => match e with EvWarning _ => true | _ => false end)
                         (trace w)) + List.length invalid) /\
  (fst (prompt_user user_prompt true w) = Ret true /\
   stdin (snd (prompt_user user_prompt true w)) = stdin w).
Proof.
  intros Hinvalid Hanswer Hin. split; [| split; reflexivity].
  unfold prompt_user. rewrite bind_get_world, Hin.
  destruct (prompt_loop_skips (user_prompt ++ " [yes/y] or [no/n]: ") invalid answer rest w
              Hinvalid Hanswer) as (w' & Hrun & Hrest & Htrace).
  rewrite Hrun. cbn [fst snd]. repeat split; auto.
  rewrite Htrace, !filter_app, !length_app. cbn [filter List.length].
  rewrite Nat.add_0_r. f_equal.
  clear. induction invalid as [| r invalid IH]; [reflexivity |].
  cbn [flat_map app filter List.length]. now rewrite IH.
Qed.

Lemma prompt_user_first_understood_witness :
  let w := Fixtures.world_of None None [Line "maybe"; Line ""; Line "n"; Line "y"] in
  Forall (fun response => understood response = false) ["maybe"; ""] /\
  understood "n" = true /\
  fst (prompt_user "Install foo?" false w) = Ret false /\
  stdin (snd (prompt_user "Install foo?" false w)) = [Line "y"].
Proof.
  intros w.
  assert (H1 : Forall (fun response => understood response = false) ["maybe"; ""])
    by (repeat constructor).
  assert (H2 : understood "n" = true) by reflexivity.
  destruct (prompt_user_first_understood "Install foo?" ["maybe"; ""] "n" [Line "y"] w
              H1 H2 eq_refl) as ((Hret & Hrest & _) & _).
  repeat split; auto.
Defined.

Lemma valid_input_loop_skips (prompt reason : string) (forbidden_responses : list string)
    (skipped : list string) (answer : string) (rest : list Input) (w : World) :
  Forall (fun response => rejected forbidden_responses response = true) skipped ->
  rejected forbidden_responses answer = false ->
  exists w',
    valid_input_loop prompt forbidden_responses reason
      (map Line skipped ++ Line answer :: rest) w
    = (Ret answer, w') /\
    stdin w' = rest.
Proof.
  intros Hskipped Hanswer. revert w.
  induction Hskipped as [| response skipped Hresponse _ IH]; intros w.
  - cbn [map app valid_input_loop].
    unfold rejected in Hanswer. apply orb_false_iff in Hanswer as [Hempty Hforbidden].
    rewrite bind_emit. unfold set_stdin, bind. rewrite Hempty, Hforbidden.
    eexists. split; reflexivity.
  - cbn [map app valid_input_loop].
    rewrite bind_emit. unfold set_stdin at 1. unfold bind at 1. cbv beta iota.
    unfold rejected in Hresponse. unfold warning_msg.
    destruct (response =? ""); [| cbn [orb] in Hresponse; rewrite Hresponse];
      rewrite bind_emit; apply IH.
Qed.

(** X5: [assert_valid_input] sends empty and forbidden responses back to
    the prompt and returns the first other line, leaving the later input
    unread; so what it returns is never empty and never forbidden.  Ctrl-C
    is not caught: it leaves as [KeyboardInterrupt]. *)
Theorem assert_valid_input_first_accepted (prompt reason : string)
    (forbidden_responses skipped : list string) (answer : string)
    (rest : list Input) (w : World) :
  Forall (fun response => rejected forbidden_responses response = true) skipped ->
  (stdin w = map Line skipped ++ Line answer :: rest ->
   rejected forbidden_responses answer = false ->
   fst (assert_valid_input prompt forbidden_responses reason w) = Ret answer /\
   stdin (snd (assert_valid_input prompt forbidden_responses reason w)) = rest /\
   answer <> "" /\ ~ In answer forbidden_responses) /\
  (stdin w = map Line skipped ++ CtrlC :: rest ->
   fst (assert_valid_input prompt forbidden_responses reason w) = Raise KeyboardInterrupt).
Proof.
  intros Hskipped. unfold assert_valid_input. rewrite bind_get_world. split.
  - intros Hin Hanswer. rewrite Hin.
    destruct (valid_input_loop_skips prompt reason forbidden_responses skipped answer rest w
                Hskipped Hanswer) as (w' & Hrun & Hrest).
    rewrite Hrun. cbn [fst snd]. repeat split; auto.
    + intros ->. discriminate Hanswer.
    + intros Hforbidden. unfold rejected in Hanswer.
      apply orb_false_iff in Hanswer as [_ Hanswer].
      unfold list_in in Hanswer.
      assert (existsb (String.eqb answer) forbidden_responses = true).
      { apply existsb_exists. exists answer. split; [exact Hforbidden |].
        apply String.eqb_refl. }
      congruence.
  - intros Hin. rewrite Hin. clear Hin. revert w.
    induction Hskipped as [| response skipped Hresponse _ IH]; intros w.
    + reflexivity.
    + cbn [map app valid_input_loop].
      rewrite bind_emit. unfold set_stdin at 1. unfold bind at 1. cbv beta iota.
      unfold rejected in Hresponse. unfold warning_msg.
      destruct (response =? ""); [| cbn [orb] in Hresponse; rewrite Hresponse];
        rewrite bind_emit; apply IH.
Qed.

Lemma assert_valid_input_first_accepted_witness :
  let w := Fixtures.world_of None None [Line ""; Line "/MM"; Line "/srv/mirror"; Line "x"] in
  Forall (fun response => rejected ["/MM"] response = true) [""; "/MM"] /\
  fst (assert_valid_input "Path: " ["/MM"] "matches a known environment" w)
  = Ret "/srv/mirror" /\
  stdin (snd (assert_valid_input "Path: " ["/MM"] "matches a known environment" w))
  = [Line "x"].
Proof.
  intros w.
  assert (H : Forall (fun response => rejected ["/MM"] response = true) [""; "/MM"])
    by (repeat constructor).
  destruct (assert_valid_input_first_accepted "Path: " "matches a known environment"
              ["/MM"] [""; "/MM"] "/srv/mirror" [Line "x"] w H) as [Hok _].
  destruct (Hok eq_refl eq_refl) as (Hret & Hrest & _).
  repeat split; auto.
Defined.

(* ===================================================================== *)
(** ** Installation candidates *)
(* ===================================================================== *)

Lemma match_titles_in_category (package_to_install : string)
    (listed candidates : list MagicMirrorPackage) (found : bool) (w : World) :
  let hits := filter (fun package => title package =? package_to_install) listed in
  exists w',
    for_fold listed (match_title package_to_install) (candidates, found) w
    = (Ret (candidates ++ hits, found || negb (is_empty hits)), w') /\
    trace w' = trace w ++ map (fun package => EvInfo (matched_message package)) hits.
Proof.
  revert candidates found w.
  induction listed as [| p listed IH]; intros candidates found w; cbn [filter for_fold].
  - exists w. cbn. now rewrite !app_nil_r, orb_false_r.
  - unfold match_title at 1.
    destruct (title p =? package_to_install).
    + rewrite bind_bind, bind_emit, bind_ret. cbn [fst].
      destruct (IH (candidates ++ [p]) true (add_event (EvInfo (matched_message p)) w))
        as (w' & Hrun & Htrace).
      exists w'. split.
      * rewrite Hrun. cbn [is_empty negb map]. rewrite orb_true_r.
        now rewrite <- app_assoc.
      * rewrite Htrace, trace_add_event. cbn [map]. now rewrite <- app_assoc.
    + rewrite bind_ret. apply IH.
Qed.

Lemma match_titles_in_catalog (package_to_install : string) (packages : Catalog)
    (candidates : list MagicMirrorPackage) (found : bool) (w : World) :
  let hits := titled packages package_to_install in
  exists w',
    for_fold packages
      (fun category state => for_fold (snd category) (match_title package_to_install) state)
      (candidates, found) w
    = (Ret (candidates ++ hits, found || negb (is_empty hits)), w') /\
    trace w' = trace w ++ map (fun package => EvInfo (matched_message package)) hits.
Proof.
  unfold titled. revert candidates found w.
  induction packages as [| [category listed] packages IH]; intros candidates found w;
    cbn [for_fold flat_map snd].
  - exists w. cbn. now rewrite !app_nil_r, orb_false_r.
  - destruct (match_titles_in_category package_to_install listed candidates found w)
      as (w1 & Hrun1 & Htrace1).
    rewrite (bind_ret_step _ _ _ _ _ Hrun1).
    match goal with
    | |- exists _, for_fold packages _ (?c, ?f) w1 = _ /\ _ =>
        destruct (IH c f w1) as (w' & Hrun & Htrace)
    end.
    exists w'. rewrite filter_app. split.
    + rewrite Hrun. rewrite <- app_assoc. f_equal. f_equal.
      rewrite <- orb_assoc. f_equal.
      destruct (filter (fun package => title package =? package_to_install) listed);
        cbn; [reflexivity |]. reflexivity.
    + rewrite Htrace, Htrace1, map_app. now rewrite <- app_assoc.
Qed.

(** X6: the candidates are, for each requested title in turn, the catalog
    packages with exactly that title in catalog order (one per category
    that lists it); a title that matches nothing adds no candidate and is
    reported once, and no other title is reported. *)
Theorem get_installation_candidates_exact (packages : Catalog)
    (packages_to_install : list string) (w : World) :
  let r := get_installation_candidates packages packages_to_install w in
  fst r = Ret (flat_map (titled packages) packages_to_install) /\
  trace (snd r) = trace w ++ flat_map (candidate_events packages) packages_to_install.
Proof.
  intros r. subst r. unfold get_installation_candidates.
  assert (Hgen : forall candidates w0,
    exists w',
      for_fold packages_to_install
        (fun package_to_install installation_candidates =>
           state <-
             for_fold packages
               (fun category state =>
                  for_fold (snd category) (match_title package_to_install) state)
               (installation_candidates, false) ;;
           (if negb (snd state) then error_msg (unmatched_message package_to_install)
            else ret tt) ;;
           ret (fst state))
        candidates w0
      = (Ret (candidates ++ flat_map (titled packages) packages_to_install), w') /\
      trace w' = trace w0 ++ flat_map (candidate_events packages) packages_to_install).
  { induction packages_to_install as [| t ts IH]; intros candidates w0;
      cbn [for_fold flat_map].
    - exists w0. cbn. now rewrite !app_nil_r.
    - rewrite bind_bind.
      destruct (match_titles_in_catalog t packages candidates false w0)
        as (w1 & Hrun1 & Htrace1).
      rewrite (bind_ret_step _ _ _ _ _ Hrun1). cbn [fst snd orb].
      rewrite bind_bind.
      unfold candidate_events at 1.
      destruct (titled packages t) as [| p hits] eqn:Hhits; cbn [is_empty negb].
      + rewrite bind_error_msg, bind_ret.
        match goal with
        | |- exists _, for_fold ts _ ?c ?x = _ /\ _ => destruct (IH c x) as (w' & Hrun & Htrace)
        end.
        exists w'. split.
        * rewrite Hrun. now rewrite app_nil_r.
        * rewrite Htrace, !trace_add_event, Htrace1. cbn [map app].
          now rewrite <- !app_assoc.
      + rewrite bind_ret, bind_ret.
        match goal with
        | |- exists _, for_fold ts _ ?c ?x = _ /\ _ => destruct (IH c x) as (w' & Hrun & Htrace)
        end.
        exists w'. split.
        * rewrite Hrun. now rewrite <- app_assoc.
        * rewrite Htrace, Htrace1. rewrite app_nil_r. now rewrite <- !app_assoc. }
  destruct (Hgen [] w) as (w' & Hrun & Htrace).
  rewrite Hrun. cbn [fst snd app]. auto.
Qed.

(* ===================================================================== *)
(** ** The ledger: stability of the repair, and what is not repaired *)
(* ===================================================================== *)

Import Ledger.

Lemma get_available_upgrades_default (env : Env) (w : World) (d : dict pyval) :
  serializable (PDict d) = true ->
  upgrades_file w
  = Some (Document (PDict (dict_set (MMPM_MAGICMIRROR_ROOT env) default_entry d))) ->
  get_available_upgrades env w
  = (Ret (dict_set (MMPM_MAGICMIRROR_ROOT env) default_entry d), w).
Proof.
  intros Hd Hfile.
  rewrite (get_available_upgrades_valid env w _
             (dict_set (MMPM_MAGICMIRROR_ROOT env) default_entry d)
             [(Consts.PACKAGES, PList []); (Consts.MAGICMIRROR, PBool false)]
             (PList []) [] Hfile).
  - change (PDict (dict_set Consts.PACKAGES (PList (map PPkg []))
                     [(Consts.PACKAGES, PList []); (Consts.MAGICMIRROR, PBool false)]))
      with default_entry.
    now rewrite dict_set_set.
  - unfold json_load.
    now rewrite (serializable_dict_set _ _ _ serializable_default_entry Hd).
  - apply dict_get_set_eq.
  - reflexivity.
  - reflexivity.
Qed.

(** X7: the repair is stable.  Whenever [get_available_upgrades] returns,
    a second call on the file it left returns the same document and does
    not write the file again. *)
Theorem get_available_upgrades_stable (env : Env) (w : World) (ledger : dict pyval) :
  fst (get_available_upgrades env w) = Ret ledger ->
  let w1 := snd (get_available_upgrades env w) in
  fst (get_available_upgrades env w1) = Ret ledger /\
  upgrades_file (snd (get_available_upgrades env w1)) = upgrades_file w1.
Proof.
  intros Hret w1. subst w1.
  destruct (get_available_upgrades env w) as [res w1] eqn:Hrun.
  cbn [fst snd] in *. subst res.
  unfold get_available_upgrades in Hrun. rewrite bind_get_world in Hrun.
  destruct (upgrades_file w) as [c |] eqn:Hfile; [| discriminate].
  destruct (json_load c) as [[| | | | | d |] |] eqn:Hload; try discriminate.
  - (* a document *)
    pose proof (json_load_serializable c (PDict d) Hload) as Hd.
    destruct (dict_get (MMPM_MAGICMIRROR_ROOT env) d) as [[| | | | | entry |] |] eqn:Hroot;
      try discriminate.
    + destruct (dict_get Consts.PACKAGES entry) as [v |] eqn:Hv.
      * destruct (list_of_dict_to_list_of_magicmirror_packages v) as [pkgs | e] eqn:Hpkgs;
          [| discriminate].
        rewrite bind_lift_ret in Hrun. injection Hrun as <- <-.
        rewrite (get_available_upgrades_valid env w c d entry v pkgs
                   Hfile Hload Hroot Hv Hpkgs).
        split; reflexivity.
      * unfold json_dump in Hrun.
        rewrite (serializable_dict_set _ _ _ serializable_default_entry Hd) in Hrun.
        unfold write_upgrades, bind, lift, ret in Hrun. cbn [fst snd] in Hrun.
        injection Hrun as <- <-.
        match goal with
        | |- context [get_available_upgrades env ?x] =>
            rewrite (get_available_upgrades_default env x d Hd eq_refl)
        end.
        split; reflexivity.
    + unfold json_dump in Hrun.
      rewrite (serializable_dict_set _ _ _ serializable_default_entry Hd) in Hrun.
      unfold write_upgrades, bind, lift, ret in Hrun. cbn [fst snd] in Hrun.
      injection Hrun as <- <-.
      match goal with
        | |- context [get_available_upgrades env ?x] =>
            rewrite (get_available_upgrades_default env x d Hd eq_refl)
        end.
      split; reflexivity.
  - (* malformed *)
    unfold json_dump in Hrun. rewrite serializable_reset_document in Hrun.
    unfold write_upgrades, bind, lift, ret in Hrun. cbn [fst snd] in Hrun.
    injection Hrun as <- <-.
    unfold reset_document.
    match goal with
    | |- context [get_available_upgrades env ?x] =>
        rewrite (get_available_upgrades_default env x
                   (dict_set Consts.MMPM (PBool false) []) eq_refl eq_refl)
    end.
    split; reflexivity.
Qed.

Lemma get_available_upgrades_stable_witness :
  let env := Fixtures.env_of None Fixtures.quiet in
  let w := Fixtures.world_of None (Some (Malformed "")) [] in
  let w1 := snd (get_available_upgrades env w) in
  fst (get_available_upgrades env w) = Ret (reset_document "/MM") /\
  fst (get_available_upgrades env w1) = Ret (reset_document "/MM") /\
  upgrades_file (snd (get_available_upgrades env w1)) = upgrades_file w1.
Proof.
  intros env w w1.
  assert (H : fst (get_available_upgrades env w) = Ret (reset_document "/MM"))
    by reflexivity.
  split; [exact H |].
  exact (get_available_upgrades_stable env w (reset_document "/MM") H).
Defined.

(** X8: only unparsable text and a missing key are repaired.  A ledger
    that is valid JSON of the wrong shape (not an object, or with a value
    for the root that is not an object) makes [get_available_upgrades]
    raise [TypeError], and the file is left as it is. *)
Theorem get_available_upgrades_misshaped (env : Env) (w : World) (c : content)
    (doc : pyval) :
  upgrades_file w = Some c -> json_load c = Some doc ->
  misshaped (MMPM_MAGICMIRROR_ROOT env) doc ->
  get_available_upgrades env w = (Raise TypeError, w).
Proof.
  intros Hfile Hload Hshape. unfold get_available_upgrades.
  rewrite bind_get_world, Hfile, Hload.
  destruct doc as [| | | | | d |]; try reflexivity.
  unfold misshaped in Hshape.
  destruct (dict_get (MMPM_MAGICMIRROR_ROOT env) d) as [[| | | | | entry |] |];
    try reflexivity; contradiction.
Qed.

Lemma get_available_upgrades_misshaped_witness :
  let env := Fixtures.env_of None Fixtures.quiet in
  let w := Fixtures.world_of None (Some (Document (PList []))) [] in
  upgrades_file w = Some (Document (PList [])) /\
  misshaped (MMPM_MAGICMIRROR_ROOT env) (PList []) /\
  get_available_upgrades env w = (Raise TypeError, w).
Proof.
  intros env w.
  assert (H1 : upgrades_file w = Some (Document (PList []))) by reflexivity.
  assert (H2 : misshaped (MMPM_MAGICMIRROR_ROOT env) (PList [])) by exact I.
  split; [exact H1 |]. split; [exact H2 |].
  exact (get_available_upgrades_misshaped env w _ (PList []) H1 eq_refl H2).
Defined.

(* ===================================================================== *)
(** ** Installation: the result of a batch *)
(* ===================================================================== *)

Import Installation.

Lemma existsb_filter {A : Type} (f : A -> bool) (l : list A) :
  existsb f l = negb (is_empty (filter f l)).
Proof.
  induction l as [| a l IH]; simpl; [reflexivity |].
  destruct (f a); simpl; auto.
Qed.

Lemma length_grows {A : Type} (l extra : list A) :
  (List.length (l ++ extra) =? List.length l)%nat = is_empty extra.
Proof.
  rewrite length_app. destruct extra as [| a extra]; simpl.
  - rewrite Nat.add_0_r. apply Nat.eqb_refl.
  - apply Nat.eqb_neq. lia.
Qed.

Section InstallBatch.

Variable env : Env.
Hypothesis no_interrupt : forall argv dir, run env argv dir <> Interrupted.
Hypothesis dependencies_return :
  forall dir, exists error, install_dependencies env dir = Ret error.

Lemma install_package_yes (candidate : MagicMirrorPackage) (w : World) :
  path_exists env (MAGICMIRROR_MODULES_DIR env) = true ->
  exists message w',
    install_package env (set_directory (target_directory env candidate) candidate) true w
    = (Ret (install_succeeds env candidate, message), w').
Proof.
  intros Hmodules. unfold install_package, clone, run_cmd, install_succeeds.
  cbn [directory title repository set_directory].
  assert (Htarget : forall x : string, (if negb (x =? "") then x else x) = x)
    by (intros x; now destruct (x =? "")).
  fold (target_directory env candidate). rewrite Htarget.
  rewrite (bind_enter env _ _ _ Hmodules). msteps.
  destruct (run env (clone_command (repository candidate) (target_directory env candidate))
              (MAGICMIRROR_MODULES_DIR env))
    as [code out err |] eqn:Hclone; [| now apply no_interrupt in Hclone].
  msteps. cbv beta iota.
  destruct (nonzero code); cbn [negb andb]; msteps; [do 2 eexists; reflexivity |].
  destruct (dependencies_return (target_directory env candidate)) as [error Herror].
  rewrite Herror. msteps. rewrite (bind_enter env _ _ _ Hmodules).
  destruct (error =? ""); cbn [negb]; msteps; [do 2 eexists; reflexivity |].
  unfold prompt_user. msteps. do 2 eexists; reflexivity.
Qed.

Lemma install_confirmed (candidates : list MagicMirrorPackage)
    (existing_module_dirs : list string) (w : World) :
  path_exists env (MAGICMIRROR_MODULES_DIR env) = true ->
  exists w',
    for_fold (map Some candidates) (install_candidate env true) existing_module_dirs w
    = (Ret (existing_module_dirs
            ++ map title (filter (install_succeeds env) candidates)), w').
Proof.
  intros Hmodules. revert existing_module_dirs w.
  induction candidates as [| c candidates IH]; intros existing w; cbn [map for_fold filter].
  - exists w. now rewrite app_nil_r.
  - destruct (report_conflicts_returns
                (set_directory (target_directory env c) c) existing w) as [w1 Hw1].
    destruct (install_package_yes c w1 Hmodules) as (message & w2 & Hinstall).
    assert (Hstep :
      install_candidate env true (Some c) existing w
      = (Ret (if install_succeeds env c then existing ++ [title c] else existing), w2)).
    { unfold install_candidate. fold (target_directory env c).
      rewrite (bind_ret_step _ _ _ _ _ Hw1).
      unfold except_interrupt.
      rewrite (bind_ret_step _ _ _ _ _ Hinstall). cbn [fst].
      now destruct (install_succeeds env c). }
    rewrite (bind_ret_step _ _ _ _ _ Hstep).
    destruct (install_succeeds env c); cbn [map].
    + destruct (IH (existing ++ [title c]) w2) as [w' Hw'].
      exists w'. rewrite Hw'. now rewrite <- app_assoc.
    + apply IH.
Qed.

(** X9: with every prompt assumed answered yes and no command interrupted,
    [install_packages] returns [True] exactly when the installation of at
    least one candidate goes through (clone with status 0 and an empty
    message from the dependency step); without the modules directory it
    returns [False]. *)
Theorem install_packages_result (candidates : list MagicMirrorPackage) (w : World) :
  let r := install_packages env candidates true w in
  (path_exists env (MAGICMIRROR_MODULES_DIR env) = false -> fst r = Ret false) /\
  (path_exists env (MAGICMIRROR_MODULES_DIR env) = true ->
   fst r = Ret (existsb (install_succeeds env) candidates)).
Proof.
  intros r. subst r. unfold install_packages. split; intros Hdir; rewrite Hdir; cbn [negb].
  - now rewrite bind_error_msg.
  - destruct candidates as [| c candidates]; cbn [is_empty].
    + now rewrite bind_error_msg.
    + msteps.
      match goal with
      | |- context [bind (for_fold (c :: candidates) _ []) ?k ?x] =>
          destruct (confirm_all_yes (c :: candidates) [] x) as [w1 Hw1];
          rewrite (bind_ret_step _ k x w1 _ Hw1)
      end.
      cbn [app].
      destruct (install_confirmed (c :: candidates)
                  (get_existing_package_directories env) w1 Hdir) as [w2 Hw2].
      rewrite (bind_ret_step _ _ _ _ _ Hw2).
      rewrite length_grows, existsb_filter.
      destruct (filter (install_succeeds env) (c :: candidates)); cbn [map is_empty negb].
      * reflexivity.
      * now rewrite bind_emit.
Qed.

End InstallBatch.

Lemma install_packages_result_witness :
  let env := Fixtures.env_of None Fixtures.clone_fails_for_bar in
  let w := Fixtures.world_of None None [] in
  (forall argv dir, run env argv dir <> Interrupted) /\
  (forall dir, exists error, install_dependencies env dir = Ret error) /\
  fst (install_packages env [Fixtures.bar] true w) = Ret false /\
  fst (install_packages env [Fixtures.bar; Fixtures.baz] true w) = Ret true.
Proof.
  intros env w.
  assert (H1 : forall argv dir, run env argv dir <> Interrupted).
  { intros argv dir. unfold env, Fixtures.env_of, run, Fixtures.clone_fails_for_bar.
    destruct (list_in "https://x/bar" argv); discriminate. }
  assert (H2 : forall dir, exists error, install_dependencies env dir = Ret error).
  { intros dir. exists "". reflexivity. }
  split; [exact H1 |]. split; [exact H2 |]. split.
  - exact (proj2 (install_packages_result env H1 H2 [Fixtures.bar] w) eq_refl).
  - exact (proj2 (install_packages_result env H1 H2 [Fixtures.bar; Fixtures.baz] w) eq_refl).
Defined.

(* ===================================================================== *)
(** ** Installation: declined candidates and failed steps *)
(* ===================================================================== *)

Lemma nack_is_not_ack (answer : string) :
  list_in answer valid_nack = true -> list_in answer valid_ack = false.
Proof.
  unfold list_in, valid_nack, valid_ack. cbn [existsb]. rewrite !orb_false_r.
  intros H. apply orb_true_iff in H as [H | H]; apply String.eqb_eq in H; subst; reflexivity.
Qed.

Lemma decline_all (candidates : list MagicMirrorPackage) (answers : list string)
    (rest : list Input) :
  List.length answers = List.length candidates ->
  Forall (fun answer => list_in answer valid_nack = true) answers ->
  forall (slots : list (option MagicMirrorPackage)) (w : World),
    stdin w = map Line answers ++ rest ->
    exists w',
      for_fold candidates (confirm_candidate false) slots w
      = (Ret (slots ++ map (fun _ => None) candidates), w') /\
      stdin w' = rest /\
      filter is_run (trace w') = filter is_run (trace w) /\
      filter is_system (trace w') = filter is_system (trace w).
Proof.
  revert answers.
  induction candidates as [| c candidates IH]; intros answers Hlen Hnack slots w Hin.
  - destruct answers; [| discriminate Hlen]. exists w. cbn in *.
    now rewrite app_nil_r.
  - destruct answers as [| answer answers]; [discriminate Hlen |].
    inversion Hnack as [| ? ? Hanswer Hnack']; subst.
    cbn [for_fold map]. unfold confirm_candidate at 1, prompt_user.
    rewrite !bind_bind, bind_get_world, Hin. cbn [map app prompt_loop].
    rewrite !bind_bind, bind_emit. unfold set_stdin at 1. rewrite bind_bind.
    unfold bind at 1. cbv beta iota.
    rewrite (nack_is_not_ack answer Hanswer), Hanswer.
    rewrite bind_ret. cbn [negb]. rewrite bind_bind, bind_emit, bind_ret.
    match goal with
    | |- exists _, for_fold candidates _ ?s ?x = _ /\ _ =>
        destruct (IH answers (f_equal pred Hlen) Hnack' s x eq_refl)
          as (w' & Hrun & Hrest & Hruns & Hsystems)
    end.
    exists w'. split; [| split; [exact Hrest | split]].
    + rewrite Hrun. now rewrite <- app_assoc.
    + rewrite Hruns. unfold add_event, emit. cbn [snd trace].
      rewrite !filter_app. cbn [filter is_run]. now rewrite !app_nil_r.
    + rewrite Hsystems. unfold add_event, emit. cbn [snd trace].
      rewrite !filter_app. cbn [filter is_system]. now rewrite !app_nil_r.
Qed.

Lemma skip_declined (env : Env) (candidates : list MagicMirrorPackage)
    (existing_module_dirs : list string) (w : World) :
  for_fold (map (fun _ : MagicMirrorPackage => @None MagicMirrorPackage) candidates)
    (install_candidate env false) existing_module_dirs w
  = (Ret existing_module_dirs, w).
Proof.
  induction candidates as [| c candidates IH]; cbn [map for_fold]; [reflexivity |].
  unfold install_candidate at 1. now rewrite bind_ret.
Qed.

(** X10: when the user answers no to every candidate, [install_packages]
    returns [False], runs no command and removes nothing; only the answers
    to its own prompts are read. *)
Theorem install_packages_all_declined (env : Env) (candidates : list MagicMirrorPackage)
    (answers : list string) (rest : list Input) (w : World) :
  path_exists env (MAGICMIRROR_MODULES_DIR env) = true ->
  List.length answers = List.length candidates ->
  Forall (fun answer => list_in answer valid_nack = true) answers ->
  stdin w = map Line answers ++ rest ->
  let r := install_packages env candidates false w in
  fst r = Ret false /\
  stdin (snd r) = rest /\
  filter is_run (trace (snd r)) = filter is_run (trace w) /\
  filter is_system (trace (snd r)) = filter is_system (trace w).
Proof.
  intros Hdir Hlen Hnack Hin r. subst r. unfold install_packages.
  rewrite Hdir. cbn [negb].
  destruct candidates as [| c candidates]; cbn [is_empty].
  - destruct answers; [| discriminate Hlen]. cbn [map app] in Hin.
    rewrite bind_error_msg. cbn [ret fst snd]. repeat split.
    + exact Hin.
    + rewrite !trace_add_event, !filter_app. cbn. now rewrite !app_nil_r.
    + rewrite !trace_add_event, !filter_app. cbn. now rewrite !app_nil_r.
  - msteps.
    match goal with
    | |- context [bind (for_fold (c :: candidates) _ []) ?k ?x] =>
        destruct (decline_all (c :: candidates) answers rest Hlen Hnack [] x Hin)
          as (w1 & Hw1 & Hrest & Hruns & Hsystems);
        rewrite (bind_ret_step _ k x w1 _ Hw1)
    end.
    cbn [app].
    rewrite !(bind_ret_step _ _ w1 w1 _
                (skip_declined env (c :: candidates) (get_existing_package_directories env) w1)).
    rewrite Nat.eqb_refl. cbn [ret fst snd]. repeat split; auto.
    + rewrite Hruns. rewrite trace_add_event, filter_app. cbn [filter is_run].
      rewrite app_nil_r, trace_at_dir, trace_add_event, filter_app. cbn [filter is_run].
      now rewrite app_nil_r.
    + rewrite Hsystems. rewrite trace_add_event, filter_app. cbn [filter is_system].
      rewrite app_nil_r, trace_at_dir, trace_add_event, filter_app. cbn [filter is_system].
      now rewrite app_nil_r.
Qed.

Lemma install_packages_all_declined_witness :
  let env := Fixtures.env_of None Fixtures.quiet in
  let w := Fixtures.world_of None None [Line "n"; Line "no"; Line "y"] in
  path_exists env (MAGICMIRROR_MODULES_DIR env) = true /\
  Forall (fun answer => list_in answer valid_nack = true) ["n"; "no"] /\
  fst (install_packages env [Fixtures.foo; Fixtures.bar] false w) = Ret false /\
  stdin (snd (install_packages env [Fixtures.foo; Fixtures.bar] false w)) = [Line "y"] /\
  filter is_run (trace (snd (install_packages env [Fixtures.foo; Fixtures.bar] false w)))
  = [].
Proof.
  intros env w.
  assert (H1 : path_exists env (MAGICMIRROR_MODULES_DIR env) = true) by reflexivity.
  assert (H2 : Forall (fun answer => list_in answer valid_nack = true) ["n"; "no"])
    by (repeat constructor).
  destruct (install_packages_all_declined env [Fixtures.foo; Fixtures.bar] ["n"; "no"]
              [Line "y"] w H1 eq_refl H2 eq_refl) as (Hret & Hrest & Hruns & _).
  repeat split; auto.
Defined.

(* ===================================================================== *)
(** ** Installation of one package: what is cleaned up *)
(* ===================================================================== *)

Import Footprint.

(** The commands and shell lines of a trace that was extended event by
    event. *)
Ltac quiet_trace :=
  msteps; rewrite ?filter_app; cbn [filter is_run is_system];
  rewrite ?app_nil_r; reflexivity.

(** X11: what [install_package] answers and cleans up.  In an existing
    modules directory, with every prompt answered yes, when the clone is
    not interrupted and the dependency step returns, the result is
    [(True, '')] exactly when the clone ends with status 0 and the
    dependency step reports no error, and the error text of the failing
    step otherwise; the package directory is removed with [rm -rf]
    exactly when the clone went through and the dependency step failed;
    the call ends in the modules directory.  (The commands of the
    dependency step are not part of the trace, so nothing is said about
    the commands that are run.) *)
Theorem install_package_cleanup (env : Env) (package : MagicMirrorPackage) (w : World)
    (code : Z) (out err error : string) :
  path_exists env (MAGICMIRROR_MODULES_DIR env) = true ->
  run env (clone_command (repository package) (clone_target env package))
      (MAGICMIRROR_MODULES_DIR env) = Completed code out err ->
  install_dependencies env (directory package) = Ret error ->
  let r := install_package env package true w in
  fst r = Ret (negb (nonzero code) && (error =? ""), if nonzero code then err else error) /\
  filter is_system (trace (snd r))
  = filter is_system (trace w)
    ++ (if negb (nonzero code) && negb (error =? "")
        then [EvSystem ("rm -rf '" ++ directory package ++ "'")] else []) /\
  cwd (snd r) = MAGICMIRROR_MODULES_DIR env.
Proof.
  intros Hmodules Hclone Herror r. subst r.
  unfold install_package, clone, run_cmd. fold (clone_target env package).
  rewrite !(bind_enter env _ _ _ Hmodules).
  msteps. rewrite Hclone. msteps. cbv beta iota.
  destruct (nonzero code); cbn [negb andb]; msteps.
  - cbn [ret fst snd]. repeat split; quiet_trace.
  - rewrite Herror. msteps. rewrite !(bind_enter env _ _ _ Hmodules).
    destruct (error =? "") eqn:E; cbn [negb]; msteps.
    + apply String.eqb_eq in E. subst error. cbn [ret fst snd].
      repeat split; quiet_trace.
    + unfold prompt_user. msteps. cbn [ret fst snd]. repeat split; quiet_trace.
Qed.

Lemma install_package_cleanup_witness :
  let env := Fixtures.broken_build Fixtures.quiet in
  let w := Fixtures.world_of None None [] in
  let r := install_package env (Fixtures.installed Fixtures.bar) true w in
  path_exists env (MAGICMIRROR_MODULES_DIR env) = true /\
  fst r = Ret (false, "npm ERR! missing script: install") /\
  filter is_system (trace (snd r)) = [EvSystem "rm -rf '/MM/modules/bar'"] /\
  cwd (snd r) = "/MM/modules".
Proof.
  intros env w r.
  destruct (install_package_cleanup env (Fixtures.installed Fixtures.bar) w
              0 "" "" "npm ERR! missing script: install" eq_refl eq_refl eq_refl)
    as (Hret & Hsystems & Hcwd).
  split; [reflexivity |]. split; [exact Hret |]. split; [exact Hsystems | exact Hcwd].
Defined.

(* ===================================================================== *)
(** ** Upgrades of a selection *)
(* ===================================================================== *)

Lemma list_in_In (x : string) (l : list string) : list_in x l = true <-> In x l.
Proof.
  unfold list_in. rewrite existsb_exists. split.
  - intros (y & Hy & E). apply String.eqb_eq in E. now subst.
  - intros H. exists x. split; [exact H | apply String.eqb_refl].
Qed.

Lemma list_in_not_In (x : string) (l : list string) : ~ In x l -> list_in x l = false.
Proof.
  intros H. destruct (list_in x l) eqn:E; [| reflexivity].
  now apply list_in_In in E.
Qed.

Lemma remove_first_In (x y : string) (l : list string) :
  In y (remove_first x l) -> In y l.
Proof.
  induction l as [| z l IH]; cbn [remove_first]; [tauto |].
  destruct (x =? z); cbn [In]; tauto.
Qed.

Lemma remove_first_NoDup (x : string) (l : list string) :
  NoDup l -> NoDup (remove_first x l).
Proof.
  induction 1 as [| z l Hz Hl IH]; cbn [remove_first]; [constructor |].
  destruct (x =? z); [exact Hl |].
  constructor; [| exact IH]. intros H. now apply remove_first_In in H.
Qed.

Lemma remove_first_gone (x : string) (l : list string) :
  NoDup l -> ~ In x (remove_first x l).
Proof.
  induction 1 as [| z l Hz Hl IH]; cbn [remove_first]; [tauto |].
  destruct (x =? z) eqn:E.
  - apply String.eqb_eq in E. now subst.
  - apply String.eqb_neq in E. cbn [In]. intros [H | H]; [now symmetry in H | tauto].
Qed.

Lemma select_loop (pending valid : list MagicMirrorPackage) (selection : list string) :
  NoDup selection ->
  let state :=
    fold_left
      (fun (state : list MagicMirrorPackage * list string) pkg =>
         if list_in (title pkg) (snd state)
         then (fst state ++ [pkg], remove_first (title pkg) (snd state))
         else state)
      pending (valid, selection) in
  (forall t, In t (snd state) -> In t selection) /\
  (forall p, In p pending -> ~ In (title p) (snd state)) /\
  (forall p, In p (fst state) -> In p valid \/ In p pending).
Proof.
  revert valid selection.
  induction pending as [| q pending IH]; intros valid selection Hnodup; cbn [fold_left].
  - cbn [fst snd In]. tauto.
  - cbn [fst snd].
    destruct (list_in (title q) selection) eqn:E.
    + destruct (IH (valid ++ [q]) (remove_first (title q) selection)
                  (remove_first_NoDup _ _ Hnodup)) as (H1 & H2 & H3).
      split; [| split].
      * intros t Ht. eapply remove_first_In, H1, Ht.
      * intros p [<- | Hp]; [| now apply H2].
        intros Hin. apply H1 in Hin. now apply remove_first_gone in Hin.
      * intros p Hp. apply H3 in Hp. rewrite in_app_iff in Hp. cbn [In] in *. tauto.
    + destruct (IH valid selection Hnodup) as (H1 & H2 & H3).
      split; [exact H1 | split].
      * intros p [<- | Hp]; [| now apply H2].
        intros Hin. apply H1 in Hin. apply list_in_In in Hin. congruence.
      * intros p Hp. apply H3 in Hp. cbn [In]. tauto.
Qed.

(** After the loop that consumes the titles, no selected package is left
    in a selection without repetitions. *)
Lemma select_packages_consumed (pending : list MagicMirrorPackage)
    (selection : list string) :
  NoDup selection ->
  (forall t, In t (snd (select_packages pending selection)) -> In t selection) /\
  (forall p, In p (fst (select_packages pending selection)) ->
             list_in (title p) (snd (select_packages pending selection)) = false).
Proof.
  intros Hnodup. unfold select_packages.
  destruct (select_loop pending (filter (fun pkg => list_in (title pkg) selection) pending)
              selection Hnodup) as (H1 & H2 & H3).
  split; [exact H1 |].
  intros p Hp. apply list_in_not_In, H2.
  destruct (H3 p Hp) as [H | H]; [| exact H].
  now apply filter_In in H.
Qed.

Lemma skip_unselected (assume_yes : bool) (valid : list MagicMirrorPackage)
    (selection : list string) (confirmed : list MagicMirrorPackage) (w : World) :
  (forall p, In p valid -> list_in (title p) selection = false) ->
  for_fold valid
    (fun package confirmed =>
       if list_in (title package) selection
       then confirm_upgrade assume_yes package confirmed
       else ret confirmed) confirmed w
  = (Ret confirmed, w).
Proof.
  induction valid as [| p valid IH]; intros Hvalid; cbn [for_fold]; [reflexivity |].
  rewrite (Hvalid p (or_introl eq_refl)), bind_ret.
  apply IH. intros q Hq. apply Hvalid. now right.
Qed.

Lemma silent_refl (w : World) : silent w w.
Proof. repeat split. Qed.

Lemma silent_trans (w1 w2 w3 : World) : silent w1 w2 -> silent w2 w3 -> silent w1 w3.
Proof.
  intros (H1 & H2 & H3) (H4 & H5 & H6). repeat split; congruence.
Qed.

Lemma silent_add_event (e : Event) (w : World) :
  is_action e = false -> silent w (add_event e w).
Proof.
  unfold is_action. intros H. apply orb_false_iff in H as [Hr Hs].
  repeat split; rewrite trace_add_event, filter_app; cbn [filter];
    rewrite ?Hr, ?Hs; apply app_nil_r.
Qed.

Lemma silent_write_upgrades (c : option content) (w : World) :
  silent w (snd (write_upgrades c w)).
Proof. repeat split. Qed.

(** Rewriting the ledger reads no input and runs nothing. *)
Lemma persist_upgrades_silent (env : Env) (upgrades : dict pyval) (upgraded : bool)
    (w : World) :
  silent w (snd (persist_upgrades env upgrades upgraded w)).
Proof.
  unfold persist_upgrades.
  destruct (subscript (PDict upgrades) (MMPM_MAGICMIRROR_ROOT env)) as [entry | e];
    [rewrite bind_lift_ret | apply silent_refl].
  destruct (subscript entry Consts.PACKAGES) as [pending_v | e];
    [rewrite bind_lift_ret | apply silent_refl].
  destruct (pending_packages pending_v) as [pending | e];
    [rewrite bind_lift_ret | apply silent_refl].
  destruct (set_nested _ _ _ upgrades) as [upgrades' | e];
    [rewrite bind_lift_ret | apply silent_refl].
  unfold write_upgrades at 1. unfold bind at 1. cbv beta iota.
  destruct (json_dump (PDict upgrades')) as [written | e];
    [rewrite bind_lift_ret | repeat split].
  unfold write_upgrades at 1. unfold bind at 1. cbv beta iota.
  destruct (upgraded && is_magicmirror_running env).
  - rewrite bind_emit. cbn [ret snd].
    eapply silent_trans; [| apply silent_add_event; reflexivity]. repeat split.
  - rewrite bind_ret. repeat split.
Qed.

(** X12: a selection of package titles without repetitions upgrades
    nothing.  The loop that collects the selected packages removes each
    matched title from the selection, and the confirmation loop asks only
    for titles still in it: no prompt is shown, no command is run, and
    the ledger is written back with the pending list it had. *)
Theorem upgrade_available_selection_idle (env : Env) (assume_yes : bool)
    (selection : list string) (w : World) (c : content) (d entry : dict pyval)
    (v mmpm_flag magicmirror_flag : pyval) (pending : list MagicMirrorPackage) :
  let root := MMPM_MAGICMIRROR_ROOT env in
  upgrades_file w = Some c -> json_load c = Some (PDict d) ->
  dict_get root d = Some (PDict entry) ->
  dict_get Consts.PACKAGES entry = Some v ->
  list_of_dict_to_list_of_magicmirror_packages v = Ret pending ->
  dict_get Consts.MMPM d = Some mmpm_flag ->
  dict_get Consts.MAGICMIRROR entry = Some magicmirror_flag ->
  selection <> [] -> NoDup selection ->
  ~ In Consts.MMPM selection -> ~ In Consts.MAGICMIRROR selection ->
  let r := upgrade_available env assume_yes selection w in
  fst r = Ret true /\
  silent w (snd r) /\
  exists d' entry',
    upgrades_file (snd r) = Some (Document (PDict d')) /\
    dict_get root d' = Some (PDict entry') /\
    dict_get Consts.PACKAGES entry' = Some (PList (map serialize_full pending)) /\
    forall k, k <> root -> k <> Consts.MMPM -> dict_get k d' = dict_get k d.
Proof.
  intros root Hfile Hload Hentry Hv Hpending Hmmpm Hmagic Hsome Hnodup Hno_mmpm Hno_magic r.
  subst r.
  destruct (upgrade_available env assume_yes selection w) as [res wf] eqn:Hrun.
  cbn [fst snd].
  unfold upgrade_available in Hrun. fold root in Hrun.
  rewrite (bind_ret_step _ _ _ _ _
             (get_available_upgrades_valid env w c d entry v pending
                Hfile Hload Hentry Hv Hpending)) in Hrun.
  fold root in Hrun.
  set (E := dict_set Consts.PACKAGES (PList (map PPkg pending)) entry) in Hrun.
  set (U := dict_set root (PDict E) d) in Hrun.
  assert (Hsel : negb (is_empty selection) = true)
    by (destruct selection; [congruence | reflexivity]).
  rewrite Hsel in Hrun.
  unfold subscript at 1 in Hrun. unfold U at 1 in Hrun.
  rewrite dict_get_set_eq, bind_lift_ret, bind_lift_ret in Hrun.
  assert (Hmmpm' : exists flag, subscript (PDict U) Consts.MMPM = Ret flag).
  { unfold subscript, U.
    destruct (String.eqb_spec Consts.MMPM root) as [Heq | Hne].
    - rewrite <- Heq, dict_get_set_eq. eexists; reflexivity.
    - rewrite dict_get_set_neq, Hmmpm; [eexists; reflexivity | exact Hne]. }
  destruct Hmmpm' as [flag Hmmpm'].
  assert (Hmagic' : subscript (PDict E) Consts.MAGICMIRROR = Ret magicmirror_flag).
  { unfold subscript, E.
    rewrite dict_get_set_neq, Hmagic; auto.
    intros H. symmetry in H. exact (packages_neq_magicmirror H). }
  (* the notice that nothing is pending *)
  match type of Hrun with
  | bind ?m ?k ?x = _ =>
      assert (Hnotice : exists w1, m x = (Ret tt, w1) /\ silent w w1)
  end.
  { destruct (existsb (fun kv : string * pyval => truthy (snd kv)) E);
      [eexists; split; [reflexivity | apply silent_refl] |].
    rewrite Hmmpm', bind_lift_ret.
    destruct (truthy flag); cbn [negb]; eexists; split;
      try reflexivity; try apply silent_refl.
    now apply silent_add_event. }
  destruct Hnotice as (w1 & Hnotice & Hsilent1).
  rewrite (bind_ret_step _ _ _ _ _ Hnotice) in Hrun. clear Hnotice.
  unfold subscript at 1 in Hrun. unfold E at 1 in Hrun.
  rewrite dict_get_set_eq, bind_lift_ret in Hrun.
  unfold pending_packages in Hrun.
  rewrite package_objects_map, bind_lift_ret in Hrun.
  (* nothing is confirmed *)
  match type of Hrun with
  | bind ?m ?k ?x = _ =>
      assert (Hchosen : exists w2, m x = (Ret ([], false, false), w2) /\ silent w1 w2)
  end.
  { destruct (truthy (PList (map PPkg pending)));
      [| eexists; split; [reflexivity | apply silent_refl]].
    cbv zeta.
    destruct (select_packages_consumed pending selection Hnodup) as [Hleft Hgone].
    rewrite (list_in_not_In Consts.MMPM (snd (select_packages pending selection)))
      by (intros H; apply Hno_mmpm, Hleft, H).
    rewrite bind_ret.
    rewrite (list_in_not_In Consts.MAGICMIRROR (snd (select_packages pending selection)))
      by (intros H; apply Hno_magic, Hleft, H).
    rewrite bind_ret.
    destruct (negb (is_empty (snd (select_packages pending selection)))).
    - rewrite bind_error_msg.
      rewrite (bind_ret_step _ _ _ _ _ (skip_unselected assume_yes _ _ [] _ Hgone)).
      eexists. split; [reflexivity |].
      eapply silent_trans; apply silent_add_event; reflexivity.
    - rewrite bind_ret.
      rewrite (bind_ret_step _ _ _ _ _ (skip_unselected assume_yes _ _ [] _ Hgone)).
      eexists. split; [reflexivity | apply silent_refl]. }
  destruct Hchosen as (w2 & Hchosen & Hsilent2).
  rewrite (bind_ret_step _ _ _ _ _ Hchosen) in Hrun. clear Hchosen.
  cbv beta iota in Hrun.
  rewrite Hmagic', bind_lift_ret, andb_false_r in Hrun. cbn [orb negb] in Hrun.
  rewrite bind_ret in Hrun.
  rewrite Hmmpm', bind_lift_ret, andb_false_r in Hrun. cbn [orb negb] in Hrun.
  rewrite bind_ret in Hrun.
  cbn [for_fold] in Hrun. rewrite bind_ret in Hrun. cbn [fst snd] in Hrun.
  destruct (ledger_state_init root d entry pending pending
              (json_load_serializable c (PDict d) Hload) Hentry)
    as (U1 & HU1 & Hstate1).
  fold E in HU1. fold U in HU1.
  rewrite HU1, bind_lift_ret in Hrun. clear HU1.
  rewrite !bind_ret in Hrun. cbn [fst snd] in Hrun.
  pose proof (persist_upgrades_silent env U1 false w2) as Hsilent3.
  destruct (persist_upgrades_spec env d U1 pending false w2 Hstate1)
    as (w3 & d' & entry' & Hpersist & Hdisk & Hd' & Hentry' & Hframe).
  rewrite Hpersist in Hrun, Hsilent3. injection Hrun as <- <-.
  split; [reflexivity |]. split.
  - exact (silent_trans _ _ _ Hsilent1 (silent_trans _ _ _ Hsilent2 Hsilent3)).
  - exists d', entry'. auto.
Qed.

Lemma upgrade_available_selection_idle_witness :
  let env := Fixtures.env_of None Fixtures.quiet in
  let w := Fixtures.world_of None (Some (Document (PDict Fixtures.pending_ledger)))
                             [Line "yes"] in
  let r := upgrade_available env false ["foo"; "baz"] w in
  NoDup ["foo"; "baz"] /\
  fst r = Ret true /\
  stdin (snd r) = [Line "yes"] /\
  filter is_run (trace (snd r)) = [] /\
  exists d' entry',
    upgrades_file (snd r) = Some (Document (PDict d')) /\
    dict_get "/MM" d' = Some (PDict entry') /\
    dict_get "packages" entry'
    = Some (PList [serialize_full (Fixtures.installed Fixtures.foo);
                   serialize_full (Fixtures.installed Fixtures.bar);
                   serialize_full (Fixtures.installed Fixtures.baz)]).
Proof.
  intros env w r. subst r.
  assert (H1 : NoDup ["foo"; "baz"]).
  { constructor; [cbn [In]; intros [H | []]; discriminate |].
    constructor; [cbn [In]; tauto | constructor]. }
  assert (H2 : ["foo"; "baz"] <> []) by discriminate.
  assert (H3 : ~ In Consts.MMPM ["foo"; "baz"])
    by (cbn [In]; intros [H | [H | []]]; discriminate).
  assert (H4 : ~ In Consts.MAGICMIRROR ["foo"; "baz"])
    by (cbn [In]; intros [H | [H | []]]; discriminate).
  pose proof (upgrade_available_selection_idle env false ["foo"; "baz"] w
              (Document (PDict Fixtures.pending_ledger))
              Fixtures.pending_ledger Fixtures.pending_entry
              (PList [serialize_full (Fixtures.installed Fixtures.foo);
                      serialize_full (Fixtures.installed Fixtures.bar);
                      serialize_full (Fixtures.installed Fixtures.baz)])
              (PBool false) (PBool false)
              [Fixtures.installed Fixtures.foo; Fixtures.installed Fixtures.bar;
               Fixtures.installed Fixtures.baz]
              eq_refl eq_refl eq_refl eq_refl eq_refl eq_refl eq_refl H2 H1 H3 H4) as H.
  cbv zeta in H.
  destruct H as (Hret & (Hin & Hruns & _) & d' & entry' & Hdisk & Hentry & Hpending & _).
  split; [exact H1 |]. split; [exact Hret |]. split; [exact Hin |].
  split; [exact Hruns |].
  exists d', entry'.
  split; [exact Hdisk |]. split; [exact Hentry | exact Hpending].
Defined.

(* ===================================================================== *)
(** ** The update check of the application *)
(* ===================================================================== *)

Import Application.

Lemma run_cmd_completed (env : Env) (argv : list string) (w : World) (code : Z)
    (out err : string) :
  run env argv (cwd w) = Completed code out err ->
  run_cmd env argv w = (Ret (code, out, err), add_event (EvRun argv (cwd w)) w).
Proof.
  intros H. unfold run_cmd. rewrite bind_get_world, bind_emit, H. reflexivity.
Qed.

Lemma run_cmd_interrupted (env : Env) (argv : list string) (w : World) :
  run env argv (cwd w) = Interrupted ->
  run_cmd env argv w = (Raise KeyboardInterrupt, add_event (EvRun argv (cwd w)) w).
Proof.
  intros H. unfold run_cmd. rewrite bind_get_world, bind_emit, H. reflexivity.
Qed.

Lemma except_interrupt_ret {A : Type} (m h : M A) (w w' : World) (a : A) :
  m w = (Ret a, w') -> except_interrupt m h w = (Ret a, w').
Proof. intros H. unfold except_interrupt. now rewrite H. Qed.

Lemma except_interrupt_caught {A : Type} (m h : M A) (w w' : World) :
  m w = (Raise KeyboardInterrupt, w') -> except_interrupt m h w = h w'.
Proof. intros H. unfold except_interrupt. now rewrite H. Qed.

Lemma probe_application_returns (env : Env) (w : World) (code : Z) (out err : string) :
  run env fetch_dry_run (MMPM_MAGICMIRROR_ROOT env) = Completed code out err ->
  exists w',
    probe_application env w = (Ret (negb (err =? "")), w') /\
    upgrades_file w' = upgrades_file w /\
    filter is_run (trace w')
    = filter is_run (trace w) ++ [EvRun fetch_dry_run (MMPM_MAGICMIRROR_ROOT env)].
Proof.
  intros Hrun. unfold probe_application. msteps.
  match goal with
  | |- context [bind (except_interrupt ?m ?h) ?k ?x] =>
      assert (Hcmd : run env fetch_dry_run (cwd x) = Completed code out err)
        by (msteps; exact Hrun);
      rewrite (bind_ret_step _ k x _ _
                 (except_interrupt_ret m h x _ _
                    (run_cmd_completed env fetch_dry_run x code out err Hcmd)))
  end.
  cbv beta iota. msteps.
  destruct (nonzero code); msteps; cbn [ret]; eexists; (split; [reflexivity |]);
    (split; [reflexivity |]); quiet_trace.
Qed.

Lemma application_probe_step (env : Env) (w : World) :
  let root := MMPM_MAGICMIRROR_ROOT env in
  run env fetch_dry_run root <> Interrupted ->
  exists w1,
    bind (if negb (path_exists env (path_join root ".git"))
          then warning_msg "The MagicMirror root is not a git repo. If running MagicMirror as a Docker container, updates cannot be performed via mmpm."
          else ret tt)
         (fun _ => if path_exists env (path_join root ".git")
                   then probe_application env else ret false) w
    = (Ret (update_reported env), w1) /\
    upgrades_file w1 = upgrades_file w /\
    filter is_run (trace w1)
    = filter is_run (trace w)
      ++ (if path_exists env (path_join root ".git")
          then [EvRun fetch_dry_run root] else []).
Proof.
  intros root Hrun. unfold update_reported. fold root.
  destruct (path_exists env (path_join root ".git")); cbn [negb andb].
  - rewrite bind_ret.
    destruct (run env fetch_dry_run root) as [code out err |] eqn:E; [| congruence].
    destruct (probe_application_returns env w code out err E) as (w1 & H1 & H2 & H3).
    exists w1. auto.
  - unfold warning_msg. rewrite bind_emit. eexists. split; [reflexivity |].
    split; [reflexivity |]. cbn [ret]. quiet_trace.
Qed.

(** X13: [check_for_magicmirror_updates] and the application flag.
    Without the root directory the check answers [False], runs nothing
    and leaves the ledger as it was, also when it holds a [True] flag.
    With the root directory, when the dry run is not interrupted and
    the ledger holds a JSON object that knows the root, the check
    answers [update_reported] (whatever the exit status of the dry
    run), runs the dry run in the root when it is a git checkout and
    nothing otherwise, and writes the answer into the application flag
    of the root: the other keys of that entry, so the pending package
    list, and the entries of the other roots stay as they were, in the
    same order. *)
Theorem check_for_magicmirror_updates_flag (env : Env) (w : World) :
  let root := MMPM_MAGICMIRROR_ROOT env in
  let r := check_for_magicmirror_updates env w in
  (path_exists env root = false ->
   fst r = Ret false /\
   upgrades_file (snd r) = upgrades_file w /\
   filter is_run (trace (snd r)) = filter is_run (trace w)) /\
  (path_exists env root = true ->
   run env fetch_dry_run root <> Interrupted ->
   forall (c : content) (d entry : dict pyval),
   upgrades_file w = Some c -> json_load c = Some (PDict d) ->
   dict_get root d = Some (PDict entry) ->
   fst r = Ret (update_reported env) /\
   filter is_run (trace (snd r))
   = filter is_run (trace w)
     ++ (if path_exists env (path_join root ".git") then [EvRun fetch_dry_run root] else []) /\
   exists d' entry',
     upgrades_file (snd r) = Some (Document (PDict d')) /\
     dict_keys d' = dict_keys d /\
     dict_get root d' = Some (PDict entry') /\
     dict_get Consts.MAGICMIRROR entry' = Some (PBool (update_reported env)) /\
     (forall k, k <> Consts.MAGICMIRROR -> dict_get k entry' = dict_get k entry) /\
     (forall k, k <> root -> dict_get k d' = dict_get k d)).
Proof.
  intros root r. subst r. split.
  { intros Hmissing. unfold check_for_magicmirror_updates. fold root.
    rewrite Hmissing. cbn [negb]. rewrite bind_error_msg. cbn [ret fst snd].
    split; [reflexivity |]. split; [reflexivity | quiet_trace]. }
  intros Hroot Hrun c d entry Hfile Hload Hentry.
  destruct (check_for_magicmirror_updates env w) as [res wf] eqn:Hcheck.
  cbn [fst snd].
  unfold check_for_magicmirror_updates in Hcheck. fold root in Hcheck.
  rewrite Hroot in Hcheck. cbn [negb] in Hcheck.
  destruct (application_probe_step env w Hrun) as (w1 & Hprobe & Hledger & Hruns).
  fold root in Hprobe, Hruns.
  rewrite <- bind_bind in Hcheck.
  rewrite (bind_ret_step _ _ _ _ _ Hprobe) in Hcheck.
  rewrite bind_get_world, Hledger, Hfile, Hload in Hcheck.
  unfold write_upgrades at 1 in Hcheck. unfold bind at 1 in Hcheck.
  cbv beta iota in Hcheck.
  unfold record_flag, dict_mem, set_nested in Hcheck. rewrite Hentry in Hcheck.
  cbn [negb] in Hcheck.
  rewrite bind_lift_ret in Hcheck. unfold json_dump in Hcheck.
  assert (Hser : serializable
                   (PDict (dict_set root
                             (PDict (dict_set Consts.MAGICMIRROR
                                       (PBool (update_reported env)) entry)) d)) = true).
  { pose proof (json_load_serializable c (PDict d) Hload) as Hd.
    apply serializable_dict_set; [| exact Hd].
    apply serializable_dict_set; [reflexivity |].
    exact (serializable_get root (PDict entry) d Hd Hentry). }
  rewrite Hser, bind_lift_ret in Hcheck.
  unfold write_upgrades at 1 in Hcheck. unfold bind at 1 in Hcheck.
  cbv beta iota in Hcheck. cbn [ret] in Hcheck.
  injection Hcheck as <- <-.
  cbn [upgrades_file trace]. split; [reflexivity |]. split; [exact Hruns |].
  eexists. eexists. split; [reflexivity |]. split.
  - rewrite dict_keys_set. unfold dict_mem. now rewrite Hentry.
  - split; [apply dict_get_set_eq |]. split; [apply dict_get_set_eq |]. split.
    + intros k Hk. now apply dict_get_set_neq.
    + intros k Hk. now apply dict_get_set_neq.
Qed.

Lemma check_for_magicmirror_updates_flag_witness :
  let env := Fixtures.env_of None Fixtures.fetch_fails in
  let w := Fixtures.world_of None (Some (Document (PDict Fixtures.pending_ledger))) [] in
  let r := check_for_magicmirror_updates env w in
  run env fetch_dry_run "/MM" <> Interrupted /\
  fst r = Ret true /\
  filter is_run (trace (snd r)) = [EvRun fetch_dry_run "/MM"] /\
  exists d' entry',
    upgrades_file (snd r) = Some (Document (PDict d')) /\
    dict_keys d' = ["mmpm"; "/MM"; "/other"] /\
    dict_get "/MM" d' = Some (PDict entry') /\
    dict_get "MagicMirror" entry' = Some (PBool true) /\
    dict_get "packages" entry' = dict_get "packages" Fixtures.pending_entry /\
    dict_get "/other" d' = Some default_entry.
Proof.
  intros env w r. subst r.
  assert (H1 : run env fetch_dry_run (MMPM_MAGICMIRROR_ROOT env) <> Interrupted)
    by discriminate.
  pose proof (proj2 (check_for_magicmirror_updates_flag env w) eq_refl H1
                (Document (PDict Fixtures.pending_ledger))
                Fixtures.pending_ledger Fixtures.pending_entry
                eq_refl eq_refl eq_refl) as H.
  cbv zeta in H.
  destruct H as (Hret & Hruns & d' & entry' & Hdisk & Hkeys & Hentry & Hflag & Hrest & Hframe).
  split; [exact H1 |]. split; [exact Hret |]. split; [exact Hruns |].
  exists d', entry'.
  split; [exact Hdisk |]. split; [exact Hkeys |]. split; [exact Hentry |].
  split; [exact Hflag |]. split.
  - apply Hrest. discriminate.
  - rewrite Hframe; [reflexivity | discriminate].
Defined.

Lemma record_flag_fresh (root : string) (flag : bool) (d : dict pyval) :
  record_flag root flag (PDict (dict_set root (fresh_entry flag) d))
  = Ret (dict_set root (fresh_entry flag) d).
Proof.
  unfold record_flag, dict_mem, set_nested. rewrite dict_get_set_eq. cbn [negb].
  unfold fresh_entry. now rewrite !dict_set_set.
Qed.

(** X14: what [check_for_magicmirror_updates] makes of a ledger it
    cannot use, when the root directory exists and the dry run is not
    interrupted (without the root directory the ledger is not touched,
    and an interrupted dry run ends the process before it is opened).
    The file is opened for writing before the document is looked at,
    so an unparsable ledger is replaced by a fresh document
    for the root and a root the ledger does not know gets a fresh entry
    after the others, but a JSON document that is not an object, or
    whose entry for the root is not an object, ends in [TypeError] with
    the ledger file left empty. *)
Theorem check_for_magicmirror_updates_repairs (env : Env) (w : World) (c : content) :
  let root := MMPM_MAGICMIRROR_ROOT env in
  let flag := update_reported env in
  path_exists env root = true ->
  run env fetch_dry_run root <> Interrupted ->
  upgrades_file w = Some c ->
  let r := check_for_magicmirror_updates env w in
  (json_load c = None ->
   fst r = Ret flag /\
   upgrades_file (snd r)
   = Some (Document (PDict (dict_set root (fresh_entry flag)
                              (dict_set Consts.MMPM (PBool false) []))))) /\
  (forall d, json_load c = Some (PDict d) -> dict_get root d = None ->
   fst r = Ret flag /\
   upgrades_file (snd r) = Some (Document (PDict (d ++ [(root, fresh_entry flag)])))) /\
  (forall d x, json_load c = Some (PDict d) -> dict_get root d = Some x ->
   (forall entry, x <> PDict entry) ->
   fst r = Raise TypeError /\ upgrades_file (snd r) = Some (Malformed "")) /\
  (forall v, json_load c = Some v -> (forall d, v <> PDict d) ->
   fst r = Raise TypeError /\ upgrades_file (snd r) = Some (Malformed "")).
Proof.
  intros root flag Hroot Hrun Hfile r. subst r.
  destruct (check_for_magicmirror_updates env w) as [res wf] eqn:Hcheck.
  cbn [fst snd].
  unfold check_for_magicmirror_updates in Hcheck. fold root in Hcheck.
  rewrite Hroot in Hcheck. cbn [negb] in Hcheck.
  destruct (application_probe_step env w Hrun) as (w1 & Hprobe & Hledger & _).
  fold root in Hprobe. fold flag in Hprobe.
  rewrite <- bind_bind in Hcheck.
  rewrite (bind_ret_step _ _ _ _ _ Hprobe) in Hcheck.
  rewrite bind_get_world, Hledger, Hfile in Hcheck.
  unfold write_upgrades at 1 in Hcheck. unfold bind at 1 in Hcheck.
  cbv beta iota in Hcheck.
  split; [| split; [| split]].
  - intros Hload. rewrite Hload in Hcheck.
    rewrite record_flag_fresh, bind_lift_ret in Hcheck. unfold json_dump in Hcheck.
    assert (Hser : serializable
                     (PDict (dict_set root (fresh_entry flag)
                               (dict_set Consts.MMPM (PBool false) []))) = true).
    { apply serializable_dict_set; [now destruct flag | reflexivity]. }
    rewrite Hser, bind_lift_ret in Hcheck.
    unfold write_upgrades at 1 in Hcheck. unfold bind at 1 in Hcheck.
    cbv beta iota in Hcheck. cbn [ret] in Hcheck.
    injection Hcheck as <- <-. split; reflexivity.
  - intros d Hload Hentry. rewrite Hload in Hcheck.
    unfold record_flag, dict_mem in Hcheck. rewrite Hentry in Hcheck.
    cbn [negb] in Hcheck.
    rewrite bind_lift_ret in Hcheck. unfold json_dump in Hcheck.
    assert (Hser : serializable (PDict (dict_set root (fresh_entry flag) d)) = true).
    { apply serializable_dict_set; [now destruct flag |].
      exact (json_load_serializable c (PDict d) Hload). }
    rewrite Hser, bind_lift_ret in Hcheck.
    unfold write_upgrades at 1 in Hcheck. unfold bind at 1 in Hcheck.
    cbv beta iota in Hcheck. cbn [ret] in Hcheck.
    injection Hcheck as <- <-. split; [reflexivity |].
    cbn [upgrades_file]. now rewrite (dict_set_fresh root _ d Hentry).
  - intros d x Hload Hentry Hshape. rewrite Hload in Hcheck.
    unfold record_flag, dict_mem, set_nested in Hcheck. rewrite Hentry in Hcheck.
    cbn [negb] in Hcheck.
    destruct x; try (injection Hcheck as <- <-; split; reflexivity).
    now elim (Hshape d0).
  - intros v Hload Hshape. rewrite Hload in Hcheck.
    unfold record_flag in Hcheck.
    destruct v; try (injection Hcheck as <- <-; split; reflexivity).
    now elim (Hshape d).
Qed.

Lemma check_for_magicmirror_updates_repairs_witness :
  let env := Fixtures.env_of None Fixtures.fetch_fails in
  let w := Fixtures.world_of None (Some (Document (PList []))) [] in
  let r := check_for_magicmirror_updates env w in
  run env fetch_dry_run "/MM" <> Interrupted /\
  fst r = Raise TypeError /\ upgrades_file (snd r) = Some (Malformed "").
Proof.
  intros env w r. subst r.
  assert (H1 : run env fetch_dry_run (MMPM_MAGICMIRROR_ROOT env) <> Interrupted)
    by discriminate.
  destruct (check_for_magicmirror_updates_repairs env w (Document (PList []))
              eq_refl H1 eq_refl) as (_ & _ & _ & H).
  destruct (H (PList []) eq_refl) as [Hret Hdisk]; [discriminate |].
  split; [exact H1 |]. split; [exact Hret | exact Hdisk].
Defined.

(** X15: a keyboard interrupt during the dry run ends the check with
    exit status 127 before the ledger is opened: the ledger file is what
    it was. *)
Theorem check_for_magicmirror_updates_interrupted (env : Env) (w : World) :
  let root := MMPM_MAGICMIRROR_ROOT env in
  path_exists env root = true ->
  path_exists env (path_join root ".git") = true ->
  run env fetch_dry_run root = Interrupted ->
  let r := check_for_magicmirror_updates env w in
  fst r = Raise (SystemExit 127) /\ upgrades_file (snd r) = upgrades_file w.
Proof.
  intros root Hroot Hgit Hrun r. subst r.
  unfold check_for_magicmirror_updates. fold root. rewrite Hroot, Hgit. cbn [negb].
  rewrite bind_ret. unfold probe_application. fold root. msteps.
  match goal with
  | |- context [bind (except_interrupt ?m ?h) ?k ?x] =>
      assert (Hcmd : run env fetch_dry_run (cwd x) = Interrupted)
        by (msteps; exact Hrun);
      pose proof (except_interrupt_caught m h x _
                    (run_cmd_interrupted env fetch_dry_run x Hcmd)) as Hcaught
  end.
  unfold keyboard_interrupt_log in Hcaught.
  rewrite !bind_emit in Hcaught.
  rewrite !(bind_raise_step _ _ _ _ _ Hcaught).
  split; reflexivity.
Qed.

Lemma check_for_magicmirror_updates_interrupted_witness :
  let env := Fixtures.env_of None (fun _ _ => Interrupted) in
  let w := Fixtures.world_of None (Some (Document (PDict Fixtures.pending_ledger))) [] in
  let r := check_for_magicmirror_updates env w in
  fst r = Raise (SystemExit 127) /\
  upgrades_file (snd r) = Some (Document (PDict Fixtures.pending_ledger)).
Proof.
  intros env w.
  exact (check_for_magicmirror_updates_interrupted env w eq_refl eq_refl eq_refl).
Defined.

(* ===================================================================== *)
(** ** Computations that write no file *)
(* ===================================================================== *)

Import Frame Updates.

Lemma same_files_refl (w : World) : same_files w w.
Proof. repeat split. Qed.

Lemma same_files_trans (w1 w2 w3 : World) :
  same_files w1 w2 -> same_files w2 w3 -> same_files w1 w3.
Proof.
  intros (H1 & H2 & H3 & H4) (H5 & H6 & H7 & H8). repeat split; congruence.
Qed.

Lemma read_only_ret {A : Type} (a : A) : read_only (ret a).
Proof. intros w. apply same_files_refl. Qed.

Lemma read_only_raise {A : Type} (e : exn) : read_only (@raise A e).
Proof. intros w. apply same_files_refl. Qed.

Lemma read_only_lift {A : Type} (r : result A) : read_only (lift r).
Proof. intros w. apply same_files_refl. Qed.

Lemma read_only_get_world : read_only get_world.
Proof. intros w. apply same_files_refl. Qed.

Lemma read_only_emit (e : Event) : read_only (emit e).
Proof. intros w. repeat split. Qed.

Lemma read_only_chdir (path : string) : read_only (chdir path).
Proof. intros w. repeat split. Qed.

Lemma read_only_set_stdin (l : list Input) : read_only (set_stdin l).
Proof. intros w. repeat split. Qed.

Lemma read_only_bind {A B : Type} (m : M A) (k : A -> M B) :
  read_only m -> (forall a, read_only (k a)) -> read_only (bind m k).
Proof.
  intros Hm Hk w. unfold bind. specialize (Hm w).
  destruct (m w) as [[a | e] w1]; cbn [snd] in *; [| exact Hm].
  exact (same_files_trans _ _ _ Hm (Hk a w1)).
Qed.

Lemma read_only_except {A : Type} (m h : M A) :
  read_only m -> read_only h -> read_only (except_interrupt m h).
Proof.
  intros Hm Hh w. unfold except_interrupt. specialize (Hm w).
  destruct (m w) as [[a | e] w1]; cbn [snd] in *; [exact Hm |].
  destruct e; try exact Hm.
  exact (same_files_trans _ _ _ Hm (Hh w1)).
Qed.

Lemma read_only_finally {A : Type} (m : M A) (f : M unit) :
  read_only m -> read_only f -> read_only (finally m f).
Proof.
  intros Hm Hf w. unfold finally. specialize (Hm w).
  destruct (m w) as [r w1]. specialize (Hf w1).
  destruct (f w1) as [[u | e] w2]; cbn [snd] in *;
    exact (same_files_trans _ _ _ Hm Hf).
Qed.

Lemma read_only_for_fold {A S : Type} (l : list A) (body : A -> S -> M S) (s : S) :
  (forall x s, read_only (body x s)) -> read_only (for_fold l body s).
Proof.
  intros Hbody. revert s.
  induction l as [| x l IH]; intros s; cbn [for_fold].
  - apply read_only_ret.
  - apply read_only_bind; [apply Hbody | exact IH].
Qed.

Lemma read_only_error_msg (msg : string) : read_only (error_msg msg).
Proof.
  unfold error_msg. apply read_only_bind; [apply read_only_emit |].
  intros _. apply read_only_emit.
Qed.

Lemma read_only_keyboard_interrupt_log {A : Type} :
  read_only (@keyboard_interrupt_log A).
Proof.
  unfold keyboard_interrupt_log.
  repeat (apply read_only_bind; [apply read_only_emit | intros _]).
  apply read_only_raise.
Qed.

Lemma read_only_run_cmd (env : Env) (command : list string) :
  read_only (run_cmd env command).
Proof.
  unfold run_cmd. apply read_only_bind; [apply read_only_get_world | intros w].
  apply read_only_bind; [apply read_only_emit | intros _].
  destruct (run env command (cwd w)); [apply read_only_ret | apply read_only_raise].
Qed.

(** One step of a proof that a computation writes no file. *)
Ltac frame_step :=
  first
    [ apply read_only_ret | apply read_only_raise | apply read_only_lift
    | apply read_only_get_world | apply read_only_emit | apply read_only_chdir
    | apply read_only_set_stdin | apply read_only_error_msg
    | apply read_only_keyboard_interrupt_log | apply read_only_run_cmd
    | apply read_only_except | apply read_only_finally
    | apply read_only_for_fold; intros ? ?
    | match goal with
      | |- read_only (if ?b then _ else _) => destruct b
      | |- read_only (match ?r with _ => _ end) => destruct r
      end
    | apply read_only_bind; [| intros ?] ].

Lemma read_only_scan_directory (env : Env) (package_dir : string)
    (packages_found : list MagicMirrorPackage) :
  read_only (scan_directory env package_dir packages_found).
Proof. unfold scan_directory. repeat frame_step. Qed.

Lemma read_only_check_package (env : Env) (package : MagicMirrorPackage)
    (upgradeable : list MagicMirrorPackage) :
  read_only (check_package env package upgradeable).
Proof. unfold check_package. repeat frame_step. Qed.

Lemma read_only_get_installed_packages (env : Env) (packages : Catalog) :
  read_only (get_installed_packages env packages).
Proof.
  unfold get_installed_packages.
  destruct (is_empty (get_existing_package_directories env)).
  - repeat frame_step.
  - apply read_only_bind; [apply read_only_chdir | intros _].
    apply read_only_bind; [| intros found; apply read_only_ret].
    apply read_only_for_fold. intros dir found. apply read_only_scan_directory.
Qed.

(** X16: the scan of the modules directory writes no file: whatever the
    commands answer, and also when one of them is interrupted, the
    snapshot, its backup, the external packages file and the ledger are
    what they were. *)
Theorem get_installed_packages_read_only (env : Env) (packages : Catalog) (w : World) :
  same_files w (snd (get_installed_packages env packages w)).
Proof. apply read_only_get_installed_packages. Qed.

(* ===================================================================== *)
(** ** The update check of the installed packages *)
(* ===================================================================== *)

Section Probes.

Variable env : Env.
Hypothesis probes_return :
  forall dir, run env ["git"; "fetch"; "--dry-run"] dir <> Interrupted.

Lemma check_package_result (package : MagicMirrorPackage)
    (upgradeable : list MagicMirrorPackage) (w : World) :
  exists w',
    check_package env package upgradeable w
    = (Ret (if has_update env package then upgradeable ++ [package] else upgradeable), w') /\
    upgrades_file w' = upgrades_file w.
Proof.
  unfold check_package, has_update. msteps.
  destruct (run env ["git"; "fetch"; "--dry-run"] (directory package))
    as [code out err |] eqn:E; [| now apply probes_return in E].
  match goal with
  | |- context [bind (except_interrupt ?m ?h) ?k ?x] =>
      assert (Hcmd : run env ["git"; "fetch"; "--dry-run"] (cwd x) = Completed code out err)
        by (msteps; exact E);
      rewrite (bind_ret_step _ k x _ _
                 (except_interrupt_ret m h x _ _
                    (run_cmd_completed env _ x code out err Hcmd)))
  end.
  cbv beta iota.
  destruct (nonzero code); cbn [negb andb]; msteps; eexists; split; reflexivity.
Qed.

Lemma check_packages_result (pkgs upgradeable : list MagicMirrorPackage) (w : World) :
  exists w',
    for_fold pkgs (check_package env) upgradeable w
    = (Ret (upgradeable ++ filter (has_update env) pkgs), w') /\
    upgrades_file w' = upgrades_file w.
Proof.
  revert upgradeable w.
  induction pkgs as [| p pkgs IH]; intros upgradeable w; cbn [for_fold filter].
  - exists w. now rewrite app_nil_r.
  - destruct (check_package_result p upgradeable w) as (w1 & Hstep & Hframe1).
    rewrite (bind_ret_step _ _ _ _ _ Hstep).
    destruct (IH (if has_update env p then upgradeable ++ [p] else upgradeable) w1)
      as (w2 & Hrest & Hframe2).
    exists w2. split; [| congruence].
    rewrite Hrest. destruct (has_update env p); [now rewrite <- app_assoc | reflexivity].
Qed.

Lemma check_catalog_result (installed : Catalog)
    (upgradeable : list MagicMirrorPackage) (w : World) :
  exists w',
    for_fold installed
      (fun entry acc => for_fold (snd entry) (check_package env) acc) upgradeable w
    = (Ret (upgradeable ++ filter (has_update env) (all_packages installed)), w') /\
    upgrades_file w' = upgrades_file w.
Proof.
  revert upgradeable w. unfold all_packages.
  induction installed as [| [category pkgs] installed IH]; intros upgradeable w;
    cbn [for_fold map List.concat snd].
  - exists w. now rewrite app_nil_r.
  - destruct (check_packages_result pkgs upgradeable w) as (w1 & Hstep & Hframe1).
    rewrite (bind_ret_step _ _ _ _ _ Hstep).
    destruct (IH (upgradeable ++ filter (has_update env) pkgs) w1)
      as (w2 & Hrest & Hframe2).
    exists w2. split; [| congruence].
    rewrite Hrest, filter_app. now rewrite <- app_assoc.
Qed.

(** A scan that finds an installed package has listed the modules
    directory, which therefore exists. *)
Lemma installed_in_modules_directory (packages installed : Catalog) (w : World) :
  fst (get_installed_packages env packages w) = Ret installed ->
  any_installed installed = true ->
  path_exists env (MAGICMIRROR_MODULES_DIR env) = true.
Proof.
  unfold get_installed_packages, get_existing_package_directories.
  destruct (path_exists env (MAGICMIRROR_MODULES_DIR env)); [reflexivity |].
  cbn [negb is_empty]. rewrite bind_error_msg. cbn [ret fst].
  intros [= <-] Hsome. discriminate Hsome.
Qed.

(** X17: when some package is installed and the ledger is readable,
    [check_for_package_updates] returns the installed packages whose
    dry run ended with status 0 and wrote something, in the order of the
    installed catalog, and what it returns is what it records: the
    pending list of the root in the ledger file is the serialised
    result, the rest of the entry and the other roots are unchanged. *)
Theorem check_for_package_updates_records (packages installed : Catalog) (w : World)
    (c : content) (d entry : dict pyval) (v : pyval)
    (pending : list MagicMirrorPackage) :
  let root := MMPM_MAGICMIRROR_ROOT env in
  fst (get_installed_packages env packages (at_dir (MAGICMIRROR_MODULES_DIR env) w))
  = Ret installed ->
  any_installed installed = true ->
  upgrades_file w = Some c -> json_load c = Some (PDict d) ->
  dict_get root d = Some (PDict entry) ->
  dict_get Consts.PACKAGES entry = Some v ->
  list_of_dict_to_list_of_magicmirror_packages v = Ret pending ->
  let upgradeable := filter (has_update env) (all_packages installed) in
  let r := check_for_package_updates env packages w in
  fst r = Ret upgradeable /\
  exists d' entry',
    upgrades_file (snd r) = Some (Document (PDict d')) /\
    dict_keys d' = dict_keys d /\
    dict_get root d' = Some (PDict entry') /\
    dict_get Consts.PACKAGES entry' = Some (PList (map serialize_full upgradeable)) /\
    (forall k, k <> Consts.PACKAGES -> dict_get k entry' = dict_get k entry) /\
    (forall k, k <> root -> dict_get k d' = dict_get k d).
Proof.
  intros root Hscan Hsome Hfile Hload Hentry Hv Hpending upgradeable r. subst r.
  destruct (check_for_package_updates env packages w) as [res wf] eqn:Hrun.
  cbn [fst snd].
  unfold check_for_package_updates in Hrun. fold root in Hrun.
  rewrite (bind_enter env _ _ _
             (installed_in_modules_directory packages installed _ Hscan Hsome)) in Hrun.
  pose proof (read_only_get_installed_packages env packages
                (at_dir (MAGICMIRROR_MODULES_DIR env) w)) as (_ & _ & _ & Hframe0).
  destruct (get_installed_packages env packages (at_dir (MAGICMIRROR_MODULES_DIR env) w))
    as [res0 w1] eqn:Hinstalled.
  cbn [fst snd] in Hscan, Hframe0. subst res0.
  rewrite (bind_ret_step _ _ _ _ _ Hinstalled) in Hrun.
  rewrite Hsome in Hrun. cbn [negb] in Hrun.
  destruct (check_catalog_result installed [] w1) as (w2 & Hprobes & Hframe1).
  cbn [app] in Hprobes. fold upgradeable in Hprobes.
  rewrite (bind_ret_step _ _ _ _ _ Hprobes) in Hrun.
  assert (Hfile2 : upgrades_file w2 = Some c) by (rewrite Hframe1, Hframe0; exact Hfile).
  rewrite (bind_ret_step _ _ _ _ _
             (get_available_upgrades_valid env w2 c d entry v pending
                Hfile2 Hload Hentry Hv Hpending)) in Hrun.
  fold root in Hrun.
  unfold write_upgrades at 1 in Hrun. unfold bind at 1 in Hrun. cbv beta iota in Hrun.
  unfold dict_mem, set_nested in Hrun.
  rewrite !dict_get_set_eq, !dict_set_set in Hrun.
  rewrite bind_lift_ret in Hrun. unfold json_dump in Hrun.
  assert (Hser : serializable
                   (PDict (dict_set root
                             (PDict (dict_set Consts.PACKAGES
                                       (PList (map serialize_full upgradeable)) entry))
                             d)) = true).
  { pose proof (json_load_serializable c (PDict d) Hload) as Hd.
    apply serializable_dict_set; [| exact Hd].
    apply serializable_set_others; [| apply serializable_serialize_full].
    apply others_serializable_of.
    exact (serializable_get root (PDict entry) d Hd Hentry). }
  rewrite Hser, bind_lift_ret in Hrun.
  unfold write_upgrades at 1 in Hrun. unfold bind at 1 in Hrun. cbv beta iota in Hrun.
  cbn [ret] in Hrun. injection Hrun as <- <-.
  split; [reflexivity |]. cbn [upgrades_file].
  eexists. eexists. split; [reflexivity |]. split.
  - rewrite dict_keys_set. unfold dict_mem. now rewrite Hentry.
  - split; [apply dict_get_set_eq |]. split; [apply dict_get_set_eq |]. split.
    + intros k Hk. now apply dict_get_set_neq.
    + intros k Hk. now apply dict_get_set_neq.
Qed.

End Probes.

Lemma check_for_package_updates_records_witness :
  let env := Fixtures.env_of None Fixtures.foo_is_behind in
  let w := Fixtures.world_of None (Some (Document (PDict Fixtures.pending_ledger))) [] in
  let r := check_for_package_updates env Fixtures.wiki w in
  (forall dir, run env ["git"; "fetch"; "--dry-run"] dir <> Interrupted) /\
  fst r = Ret [Fixtures.installed Fixtures.foo] /\
  exists d' entry',
    upgrades_file (snd r) = Some (Document (PDict d')) /\
    dict_get "/MM" d' = Some (PDict entry') /\
    dict_get "packages" entry'
    = Some (PList [serialize_full (Fixtures.installed Fixtures.foo)]) /\
    dict_get "/other" d' = Some default_entry.
Proof.
  intros env w r. subst r.
  assert (H1 : forall dir, run env ["git"; "fetch"; "--dry-run"] dir <> Interrupted)
    by (intros dir; discriminate).
  pose proof (check_for_package_updates_records env H1 Fixtures.wiki
                [("Clocks", [Fixtures.installed Fixtures.foo]); ("Calendars", [])] w
                (Document (PDict Fixtures.pending_ledger))
                Fixtures.pending_ledger Fixtures.pending_entry
                (PList [serialize_full (Fixtures.installed Fixtures.foo);
                        serialize_full (Fixtures.installed Fixtures.bar);
                        serialize_full (Fixtures.installed Fixtures.baz)])
                [Fixtures.installed Fixtures.foo; Fixtures.installed Fixtures.bar;
                 Fixtures.installed Fixtures.baz]
                eq_refl eq_refl eq_refl eq_refl eq_refl eq_refl eq_refl) as H.
  cbv zeta in H.
  destruct H as (Hret & d' & entry' & Hdisk & _ & Hentry & Hpending & _ & Hframe).
  split; [exact H1 |]. split; [exact Hret |].
  exists d', entry'.
  split; [exact Hdisk |]. split; [exact Hentry |]. split; [exact Hpending |].
  rewrite Hframe; [reflexivity | discriminate].
Defined.

(* ===================================================================== *)
(** ** The build of a package's dependencies *)
(* ===================================================================== *)

Section BuildSteps.

Variable env : Env.
Variable isfile : string -> bool.
Variables PACKAGE_JSON GEMFILE MAKEFILE CMAKELISTS cpu_count : string.

Hypothesis no_interrupt : forall argv dir, run env argv dir <> Interrupted.

Let has := Build.has isfile.
Let agrees := Build.agrees env.
Let checked := Build.checked.
Let installed := Build.installed.

Lemma file_exists_step {B : Type} (file_name : string) (k : bool -> M B) (w : World) :
  bind (Build.package_requirements_file_exists isfile file_name) k w
  = k (has file_name (cwd w)) w.
Proof. reflexivity. Qed.

Lemma run_cmd_step {B : Type} (command : list string) (k : Z * string * string -> M B)
    (w : World) :
  exists code out err,
    run env command (cwd w) = Completed code out err /\
    bind (run_cmd env command) k w
    = k (code, out, err) (add_event (EvRun command (cwd w)) w).
Proof.
  destruct (run env command (cwd w)) as [code out err |] eqn:E;
    [| now apply no_interrupt in E].
  exists code, out, err. split; [reflexivity |].
  now rewrite (bind_ret_step _ _ _ _ _ (run_cmd_completed env command w code out err E)).
Qed.

Lemma agrees_installed (w : World) : agrees installed [] w.
Proof.
  unfold agrees, Build.agrees, installed, Build.installed. msteps.
  cbn [ret fst snd Build.run_steps]. split; [reflexivity | quiet_trace].
Qed.

Lemma agrees_skip (m : M string) (looked_at : bool) (argv : list string) (place : string)
    (rest : list Build.Step) (w : World) :
  agrees m rest w ->
  agrees m (Build.mkStep false looked_at argv place :: rest) w.
Proof. intros H. exact H. Qed.

(** A block whose step prints, runs one command where it stands and
    hands over its result. *)
Lemma agrees_checked (step : M (Z * string * string)) (next : M string)
    (argv : list string) (rest : list Build.Step) (w : World) :
  (forall k : Z * string * string -> M string,
      exists code out err w1,
        run env argv (cwd w) = Completed code out err /\
        bind step k w = k (code, out, err) w1 /\
        cwd w1 = cwd w /\
        filter is_run (trace w1) = filter is_run (trace w) ++ [EvRun argv (cwd w)]) ->
  (forall w1, cwd w1 = cwd w -> agrees next rest w1) ->
  agrees (checked step next) (Build.mkStep true true argv (cwd w) :: rest) w.
Proof.
  intros Hstep Hnext. unfold agrees, Build.agrees, checked, Build.checked.
  match goal with
  | |- context [bind step ?k w] =>
      destruct (Hstep k) as (code & out & err & w1 & Hrun & Hbind & Hcwd & Htrace);
      rewrite !Hbind
  end.
  cbn [Build.run_steps Build.due Build.looked_at Build.argv Build.place andb].
  rewrite Hrun. cbv beta iota.
  destruct (nonzero code).
  - unfold Build.basic_fail_log. msteps. cbn [ret fst snd].
    split; [reflexivity |]. msteps. rewrite !filter_app. cbn [filter is_run].
    now rewrite !app_nil_r, Htrace.
  - rewrite !bind_emit.
    destruct (Hnext (add_event (EvPrint "GREEN_CHECK_MARK") w1)) as [Hret Hruns];
      [now rewrite cwd_add_event |].
    cbn [fst snd]. split; [exact Hret |].
    rewrite Hruns. msteps. rewrite filter_app. cbn [filter is_run].
    now rewrite app_nil_r, Htrace, <- app_assoc.
Qed.

Lemma npm_install_step (w : World) (k : Z * string * string -> M string) :
  exists code out err w1,
    run env ["npm"; "install"] (cwd w) = Completed code out err /\
    bind (Build.npm_install env) k w = k (code, out, err) w1 /\
    cwd w1 = cwd w /\
    filter is_run (trace w1) = filter is_run (trace w) ++ [EvRun ["npm"; "install"] (cwd w)].
Proof.
  unfold Build.npm_install. msteps.
  match goal with
  | |- context [bind (run_cmd env ?c) ?k' ?x] =>
      destruct (run_cmd_step c k' x) as (code & out & err & Hrun & Hbind)
  end.
  revert Hrun Hbind. msteps. intros Hrun Hbind.
  exists code, out, err. eexists. split; [exact Hrun |]. split; [exact Hbind |].
  split; [now msteps | quiet_trace].
Qed.

Lemma bundle_install_step (w : World) (k : Z * string * string -> M string) :
  exists code out err w1,
    run env ["bundle"; "install"] (cwd w) = Completed code out err /\
    bind (Build.bundle_install env) k w = k (code, out, err) w1 /\
    cwd w1 = cwd w /\
    filter is_run (trace w1)
    = filter is_run (trace w) ++ [EvRun ["bundle"; "install"] (cwd w)].
Proof.
  unfold Build.bundle_install. msteps.
  match goal with
  | |- context [bind (run_cmd env ?c) ?k' ?x] =>
      destruct (run_cmd_step c k' x) as (code & out & err & Hrun & Hbind)
  end.
  revert Hrun Hbind. msteps. intros Hrun Hbind.
  exists code, out, err. eexists. split; [exact Hrun |]. split; [exact Hbind |].
  split; [now msteps | quiet_trace].
Qed.

Lemma make_step (w : World) (k : Z * string * string -> M string) :
  exists code out err w1,
    run env ["make"; "-j"; cpu_count] (cwd w) = Completed code out err /\
    bind (Build.make env cpu_count) k w = k (code, out, err) w1 /\
    cwd w1 = cwd w /\
    filter is_run (trace w1)
    = filter is_run (trace w) ++ [EvRun ["make"; "-j"; cpu_count] (cwd w)].
Proof.
  unfold Build.make. msteps.
  match goal with
  | |- context [bind (run_cmd env ?c) ?k' ?x] =>
      destruct (run_cmd_step c k' x) as (code & out & err & Hrun & Hbind)
  end.
  revert Hrun Hbind. msteps. intros Hrun Hbind.
  exists code, out, err. eexists. split; [exact Hrun |]. split; [exact Hbind |].
  split; [now msteps | quiet_trace].
Qed.

Lemma agrees_after_cmake (w : World) :
  agrees (Build.after_cmake env isfile MAKEFILE cpu_count)
    [Build.mkStep (has MAKEFILE (cwd w)) true ["make"; "-j"; cpu_count] (cwd w)] w.
Proof.
  unfold agrees, Build.agrees, Build.after_cmake. rewrite !file_exists_step.
  destruct (has MAKEFILE (cwd w)).
  - apply agrees_checked; [intros k; apply make_step |].
    intros w1 _. apply agrees_installed.
  - apply agrees_skip, agrees_installed.
Qed.

Lemma agrees_cmake_block (w : World) :
  (has CMAKELISTS (cwd w) = true -> path_isdir env (path_join (cwd w) "build") = true) ->
  agrees (Build.cmake_block env isfile MAKEFILE CMAKELISTS cpu_count)
    [Build.mkStep (has CMAKELISTS (cwd w)) false ["mkdir"; "-p"; "build"] (cwd w);
     Build.mkStep (has CMAKELISTS (cwd w)) false ["rm"; "-rf"; "*"]
                  (path_join (cwd w) "build");
     Build.mkStep (has CMAKELISTS (cwd w)) true ["cmake"; ".."]
                  (path_join (cwd w) "build");
     Build.mkStep (has CMAKELISTS (cwd w) && has MAKEFILE (path_join (cwd w) "build")) true
                  ["make"; "-j"; cpu_count] (path_join (cwd w) "build")] w.
Proof.
  intros Hbuild. unfold agrees, Build.agrees, Build.cmake_block.
  rewrite !file_exists_step.
  destruct (has CMAKELISTS (cwd w)) eqn:Hfound; cbn [andb].
  - specialize (Hbuild eq_refl).
    unfold Build.checked, Build.cmake. msteps.
    match goal with
    | |- context [bind (run_cmd env ?c) ?k' ?x] =>
        destruct (run_cmd_step c k' x) as (code1 & out1 & err1 & Hrun1 & Hbind1)
    end.
    revert Hrun1 Hbind1. msteps. intros Hrun1 Hbind1. rewrite !Hbind1. clear Hbind1.
    rewrite Hbuild. msteps.
    match goal with
    | |- context [bind (run_cmd env ?c) ?k' ?x] =>
        destruct (run_cmd_step c k' x) as (code2 & out2 & err2 & Hrun2 & Hbind2)
    end.
    revert Hrun2 Hbind2. msteps. intros Hrun2 Hbind2. rewrite !Hbind2. clear Hbind2.
    match goal with
    | |- context [bind (run_cmd env ?c) ?k' ?x] =>
        destruct (run_cmd_step c k' x) as (code3 & out3 & err3 & Hrun3 & Hbind3)
    end.
    revert Hrun3 Hbind3. msteps. intros Hrun3 Hbind3. rewrite !Hbind3. clear Hbind3.
    cbn [Build.run_steps Build.due Build.looked_at Build.argv Build.place andb].
    rewrite Hrun1, Hrun2, Hrun3. cbv beta iota.
    destruct (nonzero code3).
    + unfold Build.basic_fail_log. msteps. cbn [ret fst snd].
      split; [reflexivity |]. msteps. rewrite !filter_app. cbn [filter is_run].
      rewrite !app_nil_r, <- !app_assoc. reflexivity.
    + rewrite !bind_emit.
      match goal with
      | |- context [Build.after_cmake _ _ _ _ ?x] =>
          pose proof (agrees_after_cmake x) as Hafter
      end.
      revert Hafter. msteps. intros [Hret Hruns].
      cbn [Build.run_steps Build.due Build.looked_at Build.argv Build.place andb]
        in Hret, Hruns.
      cbn [fst snd]. split; [exact Hret |].
      rewrite Hruns. msteps. rewrite !filter_app. cbn [filter is_run].
      rewrite !app_nil_r, <- !app_assoc. reflexivity.
  - do 4 apply agrees_skip. apply agrees_installed.
Qed.

Lemma agrees_make_block (w : World) :
  (has CMAKELISTS (cwd w) = true -> path_isdir env (path_join (cwd w) "build") = true) ->
  agrees (Build.make_block env isfile MAKEFILE CMAKELISTS cpu_count)
    (skipn 2 (Build.build_steps isfile PACKAGE_JSON GEMFILE MAKEFILE CMAKELISTS cpu_count
                (cwd w))) w.
Proof.
  intros Hbuild. unfold Build.build_steps. cbn [skipn]. fold has.
  unfold agrees, Build.agrees, Build.make_block. rewrite !file_exists_step.
  destruct (has MAKEFILE (cwd w)).
  - apply agrees_checked; [intros k; apply make_step |].
    intros w1 Hcwd. rewrite <- Hcwd. apply agrees_cmake_block. now rewrite Hcwd.
  - apply agrees_skip. now apply agrees_cmake_block.
Qed.

Lemma agrees_bundle_block (w : World) :
  (has CMAKELISTS (cwd w) = true -> path_isdir env (path_join (cwd w) "build") = true) ->
  agrees (Build.bundle_block env isfile GEMFILE MAKEFILE CMAKELISTS cpu_count)
    (skipn 1 (Build.build_steps isfile PACKAGE_JSON GEMFILE MAKEFILE CMAKELISTS cpu_count
                (cwd w))) w.
Proof.
  intros Hbuild.
  change (skipn 1 (Build.build_steps isfile PACKAGE_JSON GEMFILE MAKEFILE CMAKELISTS
                     cpu_count (cwd w)))
    with (Build.mkStep (has GEMFILE (cwd w)) true ["bundle"; "install"] (cwd w)
          :: skipn 2 (Build.build_steps isfile PACKAGE_JSON GEMFILE MAKEFILE CMAKELISTS
                        cpu_count (cwd w))).
  unfold agrees, Build.agrees, Build.bundle_block. rewrite !file_exists_step.
  destruct (has GEMFILE (cwd w)).
  - apply agrees_checked; [intros k; apply bundle_install_step |].
    intros w1 Hcwd. rewrite <- Hcwd. apply agrees_make_block. now rewrite Hcwd.
  - apply agrees_skip. now apply agrees_make_block.
Qed.

(** X18: [install_dependencies] is the list of build steps of the
    current directory: whenever no command is interrupted (and the
    [build] directory is there when a [CMakeLists.txt] asks for it), the
    steps that are due run in their order up to the first one whose exit
    status is looked at and is not 0, and the answer is the standard
    error of that step, the empty string when there is none.  A step
    that fails without writing to its standard error therefore ends the
    build with the answer of a successful one. *)
Theorem install_dependencies_steps (w : World) :
  (has CMAKELISTS (cwd w) = true -> path_isdir env (path_join (cwd w) "build") = true) ->
  let steps :=
    Build.build_steps isfile PACKAGE_JSON GEMFILE MAKEFILE CMAKELISTS cpu_count (cwd w) in
  let r :=
    Build.install_dependencies env isfile PACKAGE_JSON GEMFILE MAKEFILE CMAKELISTS
      cpu_count w in
  fst r = Ret (fst (Build.run_steps env steps)) /\
  filter is_run (trace (snd r))
  = filter is_run (trace w) ++ snd (Build.run_steps env steps).
Proof.
  intros Hbuild steps r. subst steps r.
  change (Build.build_steps isfile PACKAGE_JSON GEMFILE MAKEFILE CMAKELISTS cpu_count
            (cwd w))
    with (Build.mkStep (has PACKAGE_JSON (cwd w)) true ["npm"; "install"] (cwd w)
          :: skipn 1 (Build.build_steps isfile PACKAGE_JSON GEMFILE MAKEFILE CMAKELISTS
                        cpu_count (cwd w))).
  unfold Build.install_dependencies. rewrite !file_exists_step.
  destruct (has PACKAGE_JSON (cwd w)).
  - apply agrees_checked; [intros k; apply npm_install_step |].
    intros w1 Hcwd. rewrite <- Hcwd. apply agrees_bundle_block. now rewrite Hcwd.
  - apply agrees_skip. now apply agrees_bundle_block.
Qed.

End BuildSteps.

Lemma install_dependencies_steps_witness :
  let env := Fixtures.env_of None Fixtures.npm_fails_silently in
  let w := Fixtures.world_of None None [] in
  let r := Build.install_dependencies env Fixtures.node_package
             "package.json" "Gemfile" "Makefile" "CMakeLists.txt" "4" w in
  (forall argv dir, run env argv dir <> Interrupted) /\
  fst r = Ret "" /\
  filter is_run (trace (snd r)) = [EvRun ["npm"; "install"] "/"].
Proof.
  intros env w r. subst r.
  assert (H1 : forall argv dir, run env argv dir <> Interrupted).
  { intros argv dir. unfold env, Fixtures.env_of, run, Fixtures.npm_fails_silently.
    destruct (list_in "npm" argv); discriminate. }
  destruct (install_dependencies_steps env Fixtures.node_package
              "package.json" "Gemfile" "Makefile" "CMakeLists.txt" "4" H1 w)
    as [Hret Hruns]; [discriminate |].
  split; [exact H1 |]. split; [exact Hret | exact Hruns].
Defined.

(* ===================================================================== *)
(** ** Interruption of an install *)
(* ===================================================================== *)






(* ===================================================================== *)
(** ** The ledger when nothing is installed *)
(* ===================================================================== *)



